(** * search/api.py: search business logic, embedded and verified

    A shallow embedding of [src/search/api.py] (edx-search): the two entry
    points [perform_search] and [course_discovery_search], the filter
    wrapper [_format_filter] and the facet post-processor
    [process_range_data].

    Python values are an inductive type [pyval]; the dictionaries handed to
    the search engine are finite maps with string keys; the wall clock
    ([datetime.utcnow()]) and the calls made to the search engine are effects
    threaded through a small state-and-exception monad [M]. *)

From Stdlib Require Import ZArith String List Bool Lia.
From stdpp Require Import base strings gmap list fin_maps.
Import ListNotations.

Local Open Scope string_scope.
Local Open Scope Z_scope.

(** ** Python values *)

(** A naive [datetime] (no timezone: every parse uses [ignoretz=True] and the
    clock is [utcnow()]), as the number of microseconds since the epoch.  The
    year range 1..9999 of Python's [datetime] is not represented. *)
Definition datetime : Type := Z.

(** [timedelta(days=n)], in microseconds. *)
Definition timedelta_days (n : Z) : Z := n * 86400 * 1000000.

(** Modelled from the spec: [utils.DateRange] is imported by api.py but is
    not part of the source under study; the spec gives it as a pair of
    optional bounds, an absent bound meaning unbounded on that side. *)
Record DateRange : Type := mkDateRange {
  lower : option datetime;
  upper : option datetime
}.

(** The values that flow through api.py.  [PStr] stands for every string-like
    Python 2 type the code tests with
    [isinstance(x, (str, unicode, bytes, bytearray))]; numbers are integers
    (floats are not represented); a [dict] is an association list in
    iteration order, its keys being arbitrary hashable values (engines
    return facet terms of date fields as strings or as numbers). *)
#[warnings="-register-all"]
Inductive pyval : Type :=
| PNone
| PBool (b : bool)
| PInt (n : Z)
| PStr (s : string)
| PRange (r : DateRange)
| PList (l : list pyval)
| PDict (d : list (pyval * pyval)).

(** Exceptions that can leave api.py. *)
Inductive exn : Type :=
| KeyError (key : string)
| TypeError
| AttributeError
| ValueError
| OverflowError
| NoSearchEngineError (msg : string)
| CollaboratorError (msg : string).

Inductive res (A : Type) : Type :=
| Ok (a : A)
| Raise (e : exn).
Arguments Ok {A} a.
Arguments Raise {A} e.

Definition res_bind {A B} (r : res A) (k : A -> res B) : res B :=
  match r with
  | Ok a => k a
  | Raise e => Raise e
  end.

(** *** Primitive operations on Python values *)

Module Py.

(** [bool(x)] *)
Definition truthy (x : pyval) : bool :=
  match x with
  | PNone => false
  | PBool b => b
  | PInt n => negb (n =? 0)
  | PStr s => negb (String.eqb s "")
  | PRange _ => true
  | PList l => match l with [] => false | _ => true end
  | PDict d => match d with [] => false | _ => true end
  end.

(** [isinstance(x, (str, unicode, bytes, bytearray))] *)
Definition is_stringlike (x : pyval) : bool :=
  match x with
  | PStr _ => true
  | _ => false
  end.

(** [x == 'literal'] *)
Definition eq_str (x : pyval) (s : string) : bool :=
  match x with
  | PStr s' => String.eqb s' s
  | _ => false
  end.

(** [x is None] *)
Definition is_none (x : pyval) : bool :=
  match x with
  | PNone => true
  | _ => false
  end.

Fixpoint lookup (k : string) (d : list (pyval * pyval)) : option pyval :=
  match d with
  | [] => None
  | (k', v) :: d' => if eq_str k' k then Some v else lookup k d'
  end.

Fixpoint store (k : string) (v : pyval) (d : list (pyval * pyval))
  : list (pyval * pyval) :=
  match d with
  | [] => [(PStr k, v)]
  | (k', v') :: d' =>
      if eq_str k' k then (k', v) :: d' else (k', v') :: store k v d'
  end.

(** [o.get(k, dflt)]: only a dict has the method. *)
Definition get (o : pyval) (k : string) (dflt : pyval) : res pyval :=
  match o with
  | PDict d => Ok (default dflt (lookup k d))
  | _ => Raise AttributeError
  end.

(** [o[k]] for a string [k]. *)
Definition getitem (o : pyval) (k : string) : res pyval :=
  match o with
  | PDict d =>
      match lookup k d with
      | Some v => Ok v
      | None => Raise (KeyError k)
      end
  | _ => Raise TypeError
  end.

(** [o[k] = v] for a string [k]; the mutated object is returned. *)
Definition setitem (o : pyval) (k : string) (v : pyval) : res pyval :=
  match o with
  | PDict d => Ok (PDict (store k v d))
  | _ => Raise TypeError
  end.

(** [o[k1]...[kn][last] = v]: the subscripts are read from the outside in,
    the innermost object is mutated; the whole structure is rebuilt around
    it. *)
Fixpoint setpath (o : pyval) (path : list string) (last : string) (v : pyval)
  : res pyval :=
  match path with
  | [] => setitem o last v
  | k :: path' =>
      res_bind (getitem o k) (fun child =>
      res_bind (setpath child path' last v) (fun child' =>
      setitem o k child'))
  end.

(** [o[k1]...[kn]] *)
Fixpoint getpath (o : pyval) (path : list string) : res pyval :=
  match path with
  | [] => Ok o
  | k :: path' => res_bind (getitem o k) (fun child => getpath child path')
  end.

(** [o.items()] *)
Definition items (o : pyval) : res (list (pyval * pyval)) :=
  match o with
  | PDict d => Ok d
  | _ => Raise AttributeError
  end.

(** [for x in o]: the sequence of values the loop variable takes. *)
Definition iter (o : pyval) : res (list pyval) :=
  match o with
  | PList l => Ok l
  | PDict d => Ok (map fst d)
  | PStr s => Ok (map (fun c => PStr (String c "")) (list_ascii_of_string s))
  | _ => Raise TypeError
  end.

(** The right operand of [int + x]. *)
Definition as_int (x : pyval) : option Z :=
  match x with
  | PInt n => Some n
  | PBool b => Some (Z.b2z b)
  | _ => None
  end.

End Py.

(** *** [collections.defaultdict(int)] with string keys *)

Definition defaultdict : Type := list (string * Z).

(** [d[k] += n] *)
Fixpoint bump (k : string) (n : Z) (d : defaultdict) : defaultdict :=
  match d with
  | [] => [(k, 0 + n)]
  | (k', m) :: d' =>
      if String.eqb k' k then (k', m + n) :: d' else (k', m) :: bump k n d'
  end.

(** [d[k] += x] for an arbitrary right operand. *)
Definition bump_val (k : string) (x : pyval) (d : defaultdict) : res defaultdict :=
  match Py.as_int x with
  | Some n => Ok (bump k n d)
  | None => Raise TypeError
  end.

(** [sum(d.values())] *)
Definition sum_values (d : defaultdict) : Z :=
  fold_right Z.add 0 (map snd d).

(** The defaultdict as the Python value stored into the envelope. *)
Definition to_pydict (d : defaultdict) : pyval :=
  PDict (map (fun kv => (PStr (fst kv), PInt (snd kv))) d).

(** ** Configuration, collaborators and effects *)

(** [django.conf.settings], restricted to the attributes api.py reads with
    [getattr(settings, name, default)]; [None] is an unset attribute. *)
Record Settings : Type := mkSettings {
  COURSE_DISCOVERY_FILTERS : option (list string);
  COURSE_DISCOVERY_FACETS : option (gmap string pyval);
  COURSEWARE_INDEX_NAME : option string;
  SEARCH_SKIP_ENROLLMENT_START_DATE_FILTERING : option bool;
  ALLOW_CATALOG_VISIBILITY_FILTER : option bool
}.

Definition DEFAULT_FILTER_FIELDS : list string := ["org"; "modes"; "language"].
Definition CATALOG_VISIBILITY_CATALOG_AND_ABOUT : string := "both".

Record User : Type := mkUser { is_staff : bool }.

(** The keyword arguments api.py reads or forwards to
    [SearchFilterGenerator.generate_field_filters]. *)
Record Kwargs : Type := mkKwargs {
  kw_user : option User;
  kw_course_id : option string;
  kw_include_course_filter : option bool;
  kw_allow_enrollment_end_filter : option bool
}.

(** [_format_filter]'s result, the dict [{'value': ..., 'missing_included': ...}]. *)
Record FormattedFilter : Type := mkFormattedFilter {
  value : pyval;
  missing_included : bool
}.

(** Arguments of [searcher.search_string(...)] and [searcher.search(...)]. *)
Record SearchStringArgs : Type := mkSearchStringArgs {
  ss_search_term : string;
  ss_field_dictionary : gmap string pyval;
  ss_filter_dictionary : gmap string FormattedFilter;
  ss_exclude_dictionary : gmap string pyval;
  ss_size : Z;
  ss_from : Z;
  ss_doc_type : string;
  ss_include_content : bool
}.

Record SearchArgs : Type := mkSearchArgs {
  s_query_string : option string;
  s_doc_type : string;
  s_size : Z;
  s_from : Z;
  s_field_dictionary : gmap string pyval;
  s_filter_dictionary : gmap string FormattedFilter;
  s_exclude_dictionary : gmap string pyval;
  s_facet_terms : gmap string pyval
}.

(** The engine contract: both searches return an envelope or raise. *)
Record SearchEngine : Type := mkSearchEngine {
  search_string : SearchStringArgs -> res pyval;
  search : SearchArgs -> res pyval
}.

Inductive engine_call : Type :=
| CallSearchString (a : SearchStringArgs)
| CallSearch (a : SearchArgs).

(** What a call of api.py can observe and change outside its arguments: how
    many times the clock has been read, and which engine calls were made
    (most recent first). *)
Record world : Type := mkWorld {
  tick : nat;
  calls : list engine_call
}.

(** Computations: state passing over [world], with exceptions. *)
Definition M (A : Type) : Type := world -> res A * world.

Definition ret {A} (a : A) : M A := fun w => (Ok a, w).

Definition raise {A} (e : exn) : M A := fun w => (Raise e, w).

Definition bind {A B} (m : M A) (k : A -> M B) : M B :=
  fun w =>
    match m w with
    | (Ok a, w') => k a w'
    | (Raise e, w') => (Raise e, w')
    end.

Definition lift {A} (r : res A) : M A := fun w => (r, w).

Notation "x <- c1 ;; c2" := (bind c1 (fun x => c2))
  (at level 100, c1 at next level, right associativity).

(** [for x in xs: acc = body(x, acc)]; [continue] is [ret acc]. *)
Fixpoint for_each {X S} (body : X -> S -> M S) (xs : list X) (acc : S) : M S :=
  match xs with
  | [] => ret acc
  | x :: xs' => acc' <- body x acc ;; for_each body xs' acc'
  end.

(** ** Sample collaborators

    Concrete settings, clock, parser and engine, on which the statements
    below are exercised. *)

Module Sample.

(** 2023-11-14T22:13:20, in microseconds. *)
Definition now : datetime := 1700000000000000.

(** A clock that stands still. *)
Definition frozen : nat -> datetime := fun _ => now.

(** A clock that advances by a millisecond per reading. *)
Definition ticking : nat -> datetime := fun n => now + 1000 * Z.of_nat n.

(** A stand-in for [dateutil.parser.parse] that knows a few ISO timestamps,
    raises [OverflowError] on a number too large for a date, as the library
    does, and [ValueError] on every other string. *)
Definition parse (s : string) : res datetime :=
  if String.eqb s "2023-11-14T22:13:20" then Ok now
  else if String.eqb s "2023-11-13T22:13:20" then Ok (now - timedelta_days 1)
  else if String.eqb s "2023-11-09T22:13:20" then Ok (now - timedelta_days 5)
  else if String.eqb s "2023-11-19T22:13:20" then Ok (now + timedelta_days 5)
  else if String.eqb s "2023-10-14T22:13:20" then Ok (now - timedelta_days 31)
  else if String.eqb s "2023-12-15T22:13:20" then Ok (now + timedelta_days 31)
  else if String.eqb s "1699000000000" then Raise OverflowError
  else Raise ValueError.

Definition settings_with (fields : list string) : Settings :=
  mkSettings (Some fields) None None None None.

Definition no_kwargs : Kwargs := mkKwargs None None None None.

(** A filter generator that restricts the search to one organisation. *)
Definition generate_field_filters (kwargs : Kwargs)
  : gmap string pyval * gmap string pyval * gmap string pyval :=
  ({[ "org" := PStr "edX" ]}, {[ "org" := PStr "edX" ]}, ∅).

(** A result processor that denies the items flagged as private. *)
Definition process_result (data : pyval) (search_term : string)
    (user : option User) : pyval :=
  match data with
  | PDict d =>
      match Py.lookup "private" d with
      | Some (PBool true) => PNone
      | _ => data
      end
  | _ => PNone
  end.

Definition course (start_term end_term : pyval) : pyval :=
  PDict [(PStr "data", PDict [(PStr "start", start_term); (PStr "end", end_term)])].

(** An envelope with a raw [start] facet and three result items. *)
Definition envelope : pyval :=
  PDict
    [(PStr "results",
      PList [course (PStr "2023-11-09T22:13:20") (PStr "2023-11-13T22:13:20");
             course (PStr "2023-11-09T22:13:20") (PStr "2023-11-19T22:13:20");
             course (PStr "2023-11-19T22:13:20") PNone]);
     (PStr "facets",
      PDict
        [(PStr "start",
          PDict [(PStr "terms",
                  PDict [(PStr "2023-10-14T22:13:20", PInt 4);
                         (PStr "2023-11-09T22:13:20", PInt 2);
                         (PInt 1699000000000, PInt 7);
                         (PStr "2023-11-13T22:13:20", PInt 1);
                         (PStr "2023-12-15T22:13:20", PInt 5)]);
                 (PStr "total", PInt 19)]);
         (PStr "status", PDict [])])].

(** A content-search envelope: the second item is private. *)
Definition content_envelope : pyval :=
  PDict
    [(PStr "results",
      PList [PDict [(PStr "data", PDict [(PStr "id", PInt 1)])];
             PDict [(PStr "data", PDict [(PStr "id", PInt 2);
                                         (PStr "private", PBool true)])];
             PDict [(PStr "data", PDict [(PStr "id", PInt 3)])]]);
     (PStr "total", PInt 3)].

Definition engine : SearchEngine :=
  mkSearchEngine (fun _ => Ok content_envelope) (fun _ => Ok envelope).

Definition get_search_engine (name : string) : option SearchEngine :=
  if String.eqb name "courseware_index" then Some engine else None.

Definition no_search_engine (name : string) : option SearchEngine := None.

Definition world0 : world := mkWorld 0 [].

(** An envelope whose raw [start] facet has a key that is no timestamp. *)
Definition envelope_bad_term : pyval :=
  PDict
    [(PStr "results", PList []);
     (PStr "facets",
      PDict
        [(PStr "start",
          PDict [(PStr "terms",
                  PDict [(PStr "2023-11-09T22:13:20", PInt 2);
                         (PStr "not a date", PInt 3)]);
                 (PStr "total", PInt 5)])])].

(** The content of an envelope without facets, one of whose result items
    has a [start] that is no timestamp. *)
Definition no_facets_bad_start : list (pyval * pyval) :=
  [(PStr "results", PList [course (PStr "not a date") PNone])].

(** The content of an envelope without facets and without results. *)
Definition no_facets : list (pyval * pyval) :=
  [(PStr "results", PList [])].

(** The raw terms of the [start] facet of [envelope]. *)
Definition start_items : list (pyval * pyval) :=
  [(PStr "2023-10-14T22:13:20", PInt 4);
   (PStr "2023-11-09T22:13:20", PInt 2);
   (PInt 1699000000000, PInt 7);
   (PStr "2023-11-13T22:13:20", PInt 1);
   (PStr "2023-12-15T22:13:20", PInt 5)].

(** The result items of [envelope]. *)
Definition courses : list pyval :=
  [course (PStr "2023-11-09T22:13:20") (PStr "2023-11-13T22:13:20");
   course (PStr "2023-11-09T22:13:20") (PStr "2023-11-19T22:13:20");
   course (PStr "2023-11-19T22:13:20") PNone].

(** Settings with nothing configured. *)
Definition default_settings : Settings := mkSettings None None None None None.

(** An engine that is down. *)
Definition failing_engine : SearchEngine :=
  mkSearchEngine (fun _ => Raise (CollaboratorError "engine down"))
    (fun _ => Raise (CollaboratorError "engine down")).

Definition get_failing_engine (name : string) : option SearchEngine :=
  Some failing_engine.

End Sample.

(** ** api.py *)

Section Api.

(** The ambient configuration and the collaborators api.py calls:
    - [clock n] is what the [n]-th call of [datetime.utcnow()] returns;
    - [parse s] is [dateutil.parser.parse(s, ignoretz=True)]: the datetime
      it returns, or the exception it raises (a [ValueError] for a string in
      no format it knows, an [OverflowError] for a number out of range);
    - [generate_field_filters] is [SearchFilterGenerator.generate_field_filters];
    - [process_result] is [SearchResultProcessor.process_result], [PNone]
      being the payload of a result the user may not see;
    - [get_search_engine] is [SearchEngine.get_search_engine], [None] when
      no engine is configured. *)
Variable settings : Settings.
Variable clock : nat -> datetime.
Variable parse : string -> res datetime.
Variable generate_field_filters :
  Kwargs -> gmap string pyval * gmap string pyval * gmap string pyval.
Variable process_result : pyval -> string -> option User -> pyval.
Variable get_search_engine : string -> option SearchEngine.

(** [datetime.utcnow()] *)
Definition utcnow : M datetime :=
  fun w => (Ok (clock (tick w)), mkWorld (S (tick w)) (calls w)).

(** [dateutil.parser.parse(x, ignoretz=True)] *)
Definition dateutil_parse (x : pyval) : M datetime :=
  match x with
  | PStr s => lift (parse s)
  | _ => raise TypeError
  end.

Definition call_search_string (searcher : SearchEngine) (a : SearchStringArgs)
  : M pyval :=
  fun w => (search_string searcher a,
            mkWorld (tick w) (CallSearchString a :: calls w)).

Definition call_search (searcher : SearchEngine) (a : SearchArgs) : M pyval :=
  fun w => (search searcher a, mkWorld (tick w) (CallSearch a :: calls w)).

(** api.py:17-19 *)
Definition course_discovery_filter_fields : list string :=
  default DEFAULT_FILTER_FIELDS (COURSE_DISCOVERY_FILTERS settings).

(** api.py:22-24 *)
Definition course_discovery_facets : gmap string pyval :=
  default
    (list_to_map
       (map (fun field => (field, PDict [(PStr "size", PInt 100)]))
            course_discovery_filter_fields))
    (COURSE_DISCOVERY_FACETS settings).

(** api.py:83-86 *)
Definition _format_filter (filter : pyval) (missing_included : bool)
  : FormattedFilter :=
  mkFormattedFilter filter missing_included.

(** *** [process_range_data], api.py:89-140 *)

(** api.py:103-110: the bucket of a parsed facet key. *)
Definition start_bucket (now key : datetime) : string :=
  if key <? now - timedelta_days 30 then "current"
  else if key <=? now then "new"
  else if key <? now + timedelta_days 30 then "soon"
  else "future".

(** api.py:98-112: the body of the loop over [start_terms.items()]. *)
Definition start_terms_step (item : pyval * pyval) (new_start_terms : defaultdict)
  : M defaultdict :=
  let '(key, value) := item in
  if negb (Py.is_stringlike key) then ret new_start_terms
  else
    key <- dateutil_parse key ;;
    now <- utcnow ;;
    let new_key := start_bucket now key in
    lift (bump_val new_key value new_start_terms).

(** api.py:127 and 130: [term and parse(term) <= now]; the parser is not
    called on a falsy (empty) string. *)
Definition parsed_not_after (term : pyval) (now : datetime) : M bool :=
  if Py.truthy term then
    t <- dateutil_parse term ;;
    ret (t <=? now)
  else ret false.

(** api.py:120-135: the body of the loop over the result items. *)
Definition status_step (course : pyval) (status_terms : defaultdict)
  : M defaultdict :=
  data <- lift (Py.get course "data" (PDict [])) ;;
  start_term <- lift (Py.get data "start" PNone) ;;
  data <- lift (Py.get course "data" (PDict [])) ;;
  end_term <- lift (Py.get data "end" PNone) ;;
  now <- utcnow ;;
  if negb (Py.is_stringlike start_term) then ret status_terms
  else
    started <- parsed_not_after start_term now ;;
    if started then
      if negb (Py.is_stringlike end_term) then ret status_terms
      else
        ended <- parsed_not_after end_term now ;;
        if ended then ret (bump "past" 1 status_terms)
        else ret (bump "current" 1 status_terms)
    else ret (bump "future" 1 status_terms).

(** api.py:114-115 and 137-138: store the new terms and their total. *)
Definition store_facet (results : pyval) (facet : string) (terms : defaultdict)
  : res pyval :=
  res_bind (Py.setpath results ["facets"; facet] "terms" (to_pydict terms))
    (fun results =>
       Py.setpath results ["facets"; facet] "total" (PInt (sum_values terms))).

Definition process_range_data (results : pyval) : M pyval :=
  if bool_decide ("start" ∈ course_discovery_filter_fields) then
    facets <- lift (Py.get results "facets" (PDict [])) ;;
    start <- lift (Py.get facets "start" (PDict [])) ;;
    start_terms <- lift (Py.get start "terms" (PDict [])) ;;
    if Py.truthy start_terms then
      items <- lift (Py.items start_terms) ;;
      new_start_terms <- for_each start_terms_step items [] ;;
      lift (store_facet results "start" new_start_terms)
    else ret results
  else if bool_decide ("status" ∈ course_discovery_filter_fields) then
    courses <- lift (Py.get results "results" (PList [])) ;;
    courses <- lift (Py.iter courses) ;;
    status_terms <- for_each status_step courses [] ;;
    lift (store_facet results "status" status_terms)
  else ret results.

(** *** [perform_search], api.py:42-80 *)

Definition index_name : string :=
  default "courseware_index" (COURSEWARE_INDEX_NAME settings).

Definition no_engine : exn :=
  NoSearchEngineError "No search engine specified in settings.SEARCH_ENGINE".

(** api.py:74-75: the body of the loop over [results["results"]]; the item
    is mutated in place. *)
Definition process_item (search_term : string) (user : option User)
    (result : pyval) : res pyval :=
  res_bind (Py.getitem result "data") (fun data =>
  Py.setitem result "data" (process_result data search_term user)).

Fixpoint map_res {A B} (f : A -> res B) (l : list A) : res (list B) :=
  match l with
  | [] => Ok []
  | x :: l' =>
      res_bind (f x) (fun y =>
      res_bind (map_res f l') (fun ys => Ok (y :: ys)))
  end.

(** [[r for r in l if p(r)]] *)
Fixpoint filter_res {A} (p : A -> res bool) (l : list A) : res (list A) :=
  match l with
  | [] => Ok []
  | x :: l' =>
      res_bind (p x) (fun b =>
      res_bind (filter_res p l') (fun ys => Ok (if b then x :: ys else ys)))
  end.

(** [r["data"] is None] *)
Definition data_is_none (r : pyval) : res bool :=
  res_bind (Py.getitem r "data") (fun data => Ok (Py.is_none data)).

(** [r["data"] is not None] *)
Definition data_is_not_none (r : pyval) : res bool :=
  res_bind (Py.getitem r "data") (fun data => Ok (negb (Py.is_none data))).

(** api.py:73-80, on the envelope the engine returned.  The items are
    mutated in place by the loop, so both comprehensions read the processed
    items. *)
Definition post_process (search_term : string) (user : option User)
    (results : pyval) : res pyval :=
  res_bind (Py.getitem results "results") (fun raw =>
  res_bind (Py.iter raw) (fun items =>
  res_bind (map_res (process_item search_term user) items) (fun processed =>
  res_bind (filter_res data_is_none processed) (fun denied =>
  res_bind (Py.setitem results "access_denied_count"
              (PInt (Z.of_nat (length denied)))) (fun results =>
  res_bind (filter_res data_is_not_none processed) (fun kept =>
  Py.setitem results "results" (PList kept))))))).

Definition perform_search (search_term : string) (user : option User)
    (size from_ : Z) (course_id : option string) : M pyval :=
  let '(field_dictionary, filter_dictionary, exclude_dictionary) :=
    generate_field_filters (mkKwargs user course_id None None) in
  match get_search_engine index_name with
  | None => raise no_engine
  | Some searcher =>
      let filter_dictionary :=
        (fun value => _format_filter value true) <$> filter_dictionary in
      results <- call_search_string searcher
        (mkSearchStringArgs search_term field_dictionary filter_dictionary
           exclude_dictionary size from_ "courseware_content" true) ;;
      lift (post_process search_term user results)
  end.

(** *** [course_discovery_search], api.py:143-237 *)

(** api.py:170-196: the filter a [start] pseudo-field value stands for. *)
Definition start_filter (start : pyval)
    (filter_dictionary : gmap string FormattedFilter)
  : M (gmap string FormattedFilter) :=
  if Py.eq_str start "current" then
    now <- utcnow ;;
    ret (<["start" := _format_filter
             (PRange (mkDateRange None (Some (now - timedelta_days 30)))) true]>
           filter_dictionary)
  else if Py.eq_str start "new" then
    now1 <- utcnow ;;
    now2 <- utcnow ;;
    ret (<["start" := _format_filter
             (PRange (mkDateRange (Some (now1 - timedelta_days 30)) (Some now2)))
             true]> filter_dictionary)
  else if Py.eq_str start "soon" then
    now1 <- utcnow ;;
    now2 <- utcnow ;;
    ret (<["start" := _format_filter
             (PRange (mkDateRange (Some now1) (Some (now2 + timedelta_days 30))))
             true]> filter_dictionary)
  else if Py.eq_str start "future" then
    now <- utcnow ;;
    ret (<["start" := _format_filter
             (PRange (mkDateRange (Some (now + timedelta_days 30)) None)) true]>
           filter_dictionary)
  else ret filter_dictionary.

(** api.py:199-218: the filters a [status] pseudo-field value stands for. *)
Definition status_filter (status : pyval)
    (filter_dictionary : gmap string FormattedFilter)
  : M (gmap string FormattedFilter) :=
  if Py.eq_str status "past" then
    now <- utcnow ;;
    ret (<["end" := _format_filter
             (PRange (mkDateRange None (Some now))) false]> filter_dictionary)
  else if Py.eq_str status "current" then
    now1 <- utcnow ;;
    now2 <- utcnow ;;
    ret (<["end" := _format_filter
             (PRange (mkDateRange (Some now2) None)) true]>
           (<["start" := _format_filter
                (PRange (mkDateRange None (Some now1))) true]>
              filter_dictionary))
  else if Py.eq_str status "future" then
    now <- utcnow ;;
    ret (<["start" := _format_filter
             (PRange (mkDateRange (Some now) None)) true]> filter_dictionary)
  else ret filter_dictionary.

(** api.py:149-151 *)
Definition use_search_fields (kwargs : Kwargs) : list string :=
  if default false (kw_include_course_filter kwargs)
     && match kw_user kwargs with
        | Some user => negb (is_staff user)
        | None => false
        end
  then ["org"; "course"]
  else ["org"].

(** api.py:153-156 *)
Definition merged_field_dictionary (search_fields : gmap string pyval)
    (fields : list string) (field_dictionary : option (gmap string pyval))
  : gmap string pyval :=
  let use_field_dictionary :=
    filter (fun kv => kv.1 ∈ fields) search_fields in
  match field_dictionary with
  | Some overrides =>
      if bool_decide (size overrides = 0%nat) then use_field_dictionary
      else overrides ∪ use_field_dictionary
  | None => use_field_dictionary
  end.

Definition course_discovery_search (search_term : option string)
    (size from_ : Z) (field_dictionary : option (gmap string pyval))
    (kwargs : Kwargs) : M pyval :=
  let '(search_fields, _, exclude_dictionary) :=
    generate_field_filters kwargs in
  let use_field_dictionary :=
    merged_field_dictionary search_fields (use_search_fields kwargs)
      field_dictionary in
  use_field_dictionary <-
    (if negb (default false (SEARCH_SKIP_ENROLLMENT_START_DATE_FILTERING settings))
     then
       now <- utcnow ;;
       ret (<["enrollment_start" := PRange (mkDateRange None (Some now))]>
              use_field_dictionary)
     else ret use_field_dictionary) ;;
  match get_search_engine index_name with
  | None => raise no_engine
  | Some searcher =>
      filter_dictionary <-
        (if default false (kw_allow_enrollment_end_filter kwargs) then
           now <- utcnow ;;
           ret (<["enrollment_end" := _format_filter
                    (PRange (mkDateRange (Some now) None)) true]> ∅)
         else ret ∅) ;;
      let start := default PNone (use_field_dictionary !! "start") in
      let use_field_dictionary := delete "start" use_field_dictionary in
      filter_dictionary <- start_filter start filter_dictionary ;;
      let status := default PNone (use_field_dictionary !! "status") in
      let use_field_dictionary := delete "status" use_field_dictionary in
      filter_dictionary <- status_filter status filter_dictionary ;;
      let use_field_dictionary :=
        if default false (ALLOW_CATALOG_VISIBILITY_FILTER settings) then
          <["catalog_visibility" := PStr CATALOG_VISIBILITY_CATALOG_AND_ABOUT]>
            use_field_dictionary
        else use_field_dictionary in
      results <- call_search searcher
        (mkSearchArgs search_term "course_info" size from_
           use_field_dictionary filter_dictionary exclude_dictionary
           course_discovery_facets) ;;
      process_range_data results
  end.

(** *** The vocabulary of the statements

    The definitions named [spec_...] follow the words of the specification,
    not the code; the theorems below compare the two.  The others read the
    code. *)

(** The 30-day windows of the start buckets around [now]. *)
Definition spec_start_window (now : datetime) (bucket : string) (t : datetime)
  : Prop :=
  (bucket = "current" /\ t < now - timedelta_days 30) \/
  (bucket = "new" /\ now - timedelta_days 30 <= t <= now) \/
  (bucket = "soon" /\ now < t < now + timedelta_days 30) \/
  (bucket = "future" /\ now + timedelta_days 30 <= t).

(** api.py:121-122: the [start] and [end] fields the status loop reads off
    a result item, [PNone] standing for an absent field. *)
Definition item_fields (course : pyval) : res (pyval * pyval) :=
  res_bind (Py.get course "data" (PDict [])) (fun data =>
  res_bind (Py.get data "start" PNone) (fun start_term =>
  res_bind (Py.get data "end" PNone) (fun end_term =>
  Ok (start_term, end_term)))).

(** The timestamp a field holds according to the specification: none when
    the field is absent, is not a string, or does not parse. *)
Definition spec_timestamp (x : pyval) : option datetime :=
  match x with
  | PStr s =>
      match parse s with
      | Ok t => Some t
      | Raise _ => None
      end
  | _ => None
  end.

(** The status the specification gives an item; [None] is a skip. *)
Definition spec_status (now : datetime) (start_term end_term : pyval)
  : option string :=
  match spec_timestamp start_term with
  | None => None
  | Some start =>
      if start <=? now then
        match spec_timestamp end_term with
        | None => None
        | Some end_ => if end_ <=? now then Some "past" else Some "current"
        end
      else Some "future"
  end.

Definition count_status (status : option string) (acc : defaultdict)
  : defaultdict :=
  match status with
  | Some bucket => bump bucket 1 acc
  | None => acc
  end.

(** The status classification as the specification states it, at one item. *)
Definition spec_status_step (course : pyval) (acc : defaultdict) (w : world)
  : Prop :=
  exists start_term end_term,
    item_fields course = Ok (start_term, end_term) /\
    fst (status_step course acc w)
    = Ok (count_status (spec_status (clock (tick w)) start_term end_term) acc).

(** A malformed timestamp value according to the specification: not a
    string, or a string that does not parse. *)
Definition spec_malformed (x : pyval) : Prop :=
  Py.is_stringlike x = false \/ exists s e, x = PStr s /\ parse s = Raise e.

(** The leniency the specification states, at one facet term: the term is
    skipped, nothing is raised. *)
Definition spec_skipped (item : pyval * pyval) (acc : defaultdict) (w : world)
  : Prop :=
  fst (start_terms_step item acc w) = Ok acc.

(** The inverse mapping of the start buckets in the specification: the
    date range a symbolic bucket stands for. *)
Definition spec_start_range (now : datetime) (start : pyval)
  : option DateRange :=
  if Py.eq_str start "current" then
    Some (mkDateRange None (Some (now - timedelta_days 30)))
  else if Py.eq_str start "new" then
    Some (mkDateRange (Some (now - timedelta_days 30)) (Some now))
  else if Py.eq_str start "soon" then
    Some (mkDateRange (Some now) (Some (now + timedelta_days 30)))
  else if Py.eq_str start "future" then
    Some (mkDateRange (Some (now + timedelta_days 30)) None)
  else None.

Definition spec_start_filters (now : datetime) (start : pyval)
  : gmap string FormattedFilter :=
  match spec_start_range now start with
  | Some range => {[ "start" := mkFormattedFilter (PRange range) true ]}
  | None => ∅
  end.

(** The inverse mapping of the statuses in the specification. *)
Definition spec_status_filters (now : datetime) (status : pyval)
  : gmap string FormattedFilter :=
  if Py.eq_str status "past" then
    {[ "end" := mkFormattedFilter (PRange (mkDateRange None (Some now))) false ]}
  else if Py.eq_str status "current" then
    {[ "start" := mkFormattedFilter (PRange (mkDateRange None (Some now))) true;
       "end" := mkFormattedFilter (PRange (mkDateRange (Some now) None)) true ]}
  else if Py.eq_str status "future" then
    {[ "start" := mkFormattedFilter (PRange (mkDateRange (Some now) None)) true ]}
  else ∅.

(** A timestamp strictly inside a date range. *)
Definition strictly_inside (t : datetime) (range : DateRange) : Prop :=
  match lower range with Some lo => lo < t | None => True end /\
  match upper range with Some hi => t < hi | None => True end.

(** api.py:51-71: the arguments [perform_search] calls the engine with. *)
Definition content_search_args (search_term : string) (user : option User)
    (size from_ : Z) (course_id : option string) : SearchStringArgs :=
  let '(field_dictionary, filter_dictionary, exclude_dictionary) :=
    generate_field_filters (mkKwargs user course_id None None) in
  mkSearchStringArgs search_term field_dictionary
    ((fun value => _format_filter value true) <$> filter_dictionary)
    exclude_dictionary size from_ "courseware_content" true.

(** The processed payload of a raw result item; [PNone] is the empty
    payload. *)
Definition spec_payload (search_term : string) (user : option User)
    (item : pyval) : pyval :=
  match Py.getitem item "data" with
  | Ok data => process_result data search_term user
  | Raise _ => PNone
  end.

(** The sum of the counts of a terms mapping, when they are all numbers. *)
Fixpoint spec_sum_counts (d : list (pyval * pyval)) : option Z :=
  match d with
  | [] => Some 0
  | (_, v) :: d' =>
      match Py.as_int v, spec_sum_counts d' with
      | Some n, Some m => Some (n + m)
      | _, _ => None
      end
  end.

(** The total recorded for a facet is the sum of its bucket counts. *)
Definition spec_total_is_sum (results : pyval) (facet : string) : Prop :=
  exists d total,
    Py.getpath results ["facets"; facet; "terms"] = Ok (PDict d) /\
    Py.getpath results ["facets"; facet; "total"] = Ok (PInt total) /\
    spec_sum_counts d = Some total.

(** An envelope (a dict) has no [facets] mapping, or its [facets] mapping
    has no entry for [facet]; [key] is the key whose lookup fails. *)
Definition spec_lacks_facet (d : list (pyval * pyval)) (facet key : string)
  : Prop :=
  (Py.lookup "facets" d = None /\ key = "facets") \/
  (exists facets,
      Py.lookup "facets" d = Some (PDict facets) /\
      Py.lookup facet facets = None /\ key = facet).

(** The status pass fails with a lookup error. *)
Definition spec_lookup_error (results : pyval) (w : world) : Prop :=
  exists key w', process_range_data results w = (Raise (KeyError key), w').

(** The labels the two passes of [process_range_data] count under
    (api.py:103-110 and api.py:131-135). *)
Definition start_labels : list string := ["current"; "new"; "soon"; "future"].
Definition status_labels : list string := ["past"; "current"; "future"].

(** The sum of the raw counts of the facet terms whose key is a string, the
    terms api.py:98-112 does not skip. *)
Fixpoint raw_count_sum (items : list (pyval * pyval)) : Z :=
  match items with
  | [] => 0
  | (key, value) :: items' =>
      (if Py.is_stringlike key then default 0 (Py.as_int value) else 0)
      + raw_count_sum items'
  end.

(** A facet term the start pass can count: a key that is not a string, or a
    string key the parser accepts with a numeric count. *)
Definition countable_term (item : pyval * pyval) : Prop :=
  Py.is_stringlike (fst item) = true ->
  (exists s t, fst item = PStr s /\ parse s = Ok t) /\
  (exists n, Py.as_int (snd item) = Some n).

(** A timestamp within a date range, bounds included. *)
Definition within (t : datetime) (range : DateRange) : Prop :=
  match lower range with Some lo => lo <= t | None => True end /\
  match upper range with Some hi => t <= hi | None => True end.

(** api.py:153-221: the field dictionary [course_discovery_search] hands to
    the engine, given the merged field dictionary and the clock reading
    [now] of api.py:158. *)
Definition sent_field_dictionary (merged : gmap string pyval) (now : datetime)
  : gmap string pyval :=
  let use_field_dictionary :=
    if negb (default false (SEARCH_SKIP_ENROLLMENT_START_DATE_FILTERING settings))
    then <["enrollment_start" := PRange (mkDateRange None (Some now))]> merged
    else merged in
  let use_field_dictionary :=
    delete "status" (delete "start" use_field_dictionary) in
  if default false (ALLOW_CATALOG_VISIBILITY_FILTER settings) then
    <["catalog_visibility" := PStr CATALOG_VISIBILITY_CATALOG_AND_ABOUT]>
      use_field_dictionary
  else use_field_dictionary.

(** What every filter [course_discovery_search] builds looks like: a date
    range under one of three keys, documents without the field being left
    out only by an [end] filter. *)
Definition discovery_filter (key : string) (f : FormattedFilter) : Prop :=
  key ∈ ["enrollment_end"; "start"; "end"] /\
  (exists range, value f = PRange range) /\
  (missing_included f = false -> key = "end").

(** A [start] or [end] field the status loop can read without raising:
    anything but a non-empty string the parser rejects. *)
Definition readable_timestamp (x : pyval) : Prop :=
  forall s, x = PStr s -> s <> "" -> exists t, parse s = Ok t.

(** A result item the status loop can classify: its fields can be read. *)
Definition classifiable_item (course : pyval) : Prop :=
  exists start_term end_term,
    item_fields course = Ok (start_term, end_term) /\
    readable_timestamp start_term /\ readable_timestamp end_term.

(** A computation is quiet when it makes no engine call. *)
Definition quiet {A} (m : M A) : Prop :=
  forall w : world, calls (snd (m w)) = calls w.

(** ** Properties *)

(** *** The monad *)

Lemma bind_ok {A B} (m : M A) (k : A -> M B) (w w' : world) (a : A) :
  m w = (Ok a, w') -> bind m k w = k a w'.
Proof. intros H. unfold bind. now rewrite H. Qed.

Lemma bind_lift_ok {A B} (r : res A) (k : A -> M B) (w : world) (a : A) :
  r = Ok a -> bind (lift r) k w = k a w.
Proof. intros ->. reflexivity. Qed.

Lemma bind_utcnow {B} (k : datetime -> M B) (w : world) :
  bind utcnow k w = k (clock (tick w)) (mkWorld (S (tick w)) (calls w)).
Proof. reflexivity. Qed.

(** *** The start buckets *)

(** The classifier of api.py:103-110 puts [t] in the bucket whose window
    holds it, and in no other. *)
Lemma start_bucket_window (now t : datetime) :
  spec_start_window now (start_bucket now t) t.
Proof.
  unfold spec_start_window, start_bucket, timedelta_days.
  destruct (Z.ltb_spec t (now - 30 * 86400 * 1000000)); [tauto |].
  destruct (Z.leb_spec t now); [right; left; split; [reflexivity | lia] |].
  destruct (Z.ltb_spec t (now + 30 * 86400 * 1000000)).
  - right; right; left. split; [reflexivity | lia].
  - right; right; right. split; [reflexivity | lia].
Qed.

Lemma start_window_unique (now t : datetime) (b1 b2 : string) :
  spec_start_window now b1 t -> spec_start_window now b2 t -> b1 = b2.
Proof.
  unfold spec_start_window, timedelta_days.
  intros [[-> H1] | [[-> H1] | [[-> H1] | [-> H1]]]]
         [[-> H2] | [[-> H2] | [[-> H2] | [-> H2]]]];
    solve [reflexivity | exfalso; lia].
Qed.

(** The examples of the specification. *)
Lemma start_bucket_examples (now : datetime) :
  start_bucket now (now - timedelta_days 31) = "current" /\
  start_bucket now (now - timedelta_days 10) = "new" /\
  start_bucket now now = "new" /\
  start_bucket now (now + 1000000) = "soon" /\
  start_bucket now (now + timedelta_days 31) = "future".
Proof.
  unfold start_bucket, timedelta_days.
  repeat split;
    repeat match goal with
      | |- context [?a <? ?b] => destruct (Z.ltb_spec a b); try lia
      | |- context [?a <=? ?b] => destruct (Z.leb_spec a b); try lia
      end; reflexivity.
Qed.

(** C1.  A facet key that is a string and parses to the timestamp [t] is
    counted, by the loop body of the start pass, in exactly one of the four
    buckets: [current] when [t < now - 30d], [new] when
    [now - 30d <= t <= now], [soon] when [now < t < now + 30d], [future]
    when [t >= now + 30d], where [now] is the clock reading of that
    iteration.  The four windows partition the time axis: the bucket chosen
    is the only one whose window holds [t]. *)
Theorem start_terms_step_bucket (s : string) (t : datetime) (value : pyval)
    (n : Z) (acc : defaultdict) (w : world) :
  parse s = Ok t ->
  Py.as_int value = Some n ->
  exists bucket : string,
    start_terms_step (PStr s, value) acc w
      = (Ok (bump bucket n acc), mkWorld (S (tick w)) (calls w)) /\
    spec_start_window (clock (tick w)) bucket t /\
    (forall b : string, spec_start_window (clock (tick w)) b t -> b = bucket).
Proof.
  intros Hparse Hint.
  exists (start_bucket (clock (tick w)) t).
  split; [| split].
  - unfold start_terms_step, dateutil_parse. simpl.
    rewrite Hparse. unfold bind, ret, utcnow, lift, bump_val. simpl.
    now rewrite Hint.
  - apply start_bucket_window.
  - intros b Hb.
    exact (start_window_unique _ _ _ _ Hb (start_bucket_window _ _)).
Qed.

(** *** Effects: only an engine call extends the call log *)

Lemma quiet_ret {A} (a : A) : quiet (ret a).
Proof. intros w. reflexivity. Qed.

Lemma quiet_raise {A} (e : exn) : quiet (@raise A e).
Proof. intros w. reflexivity. Qed.

Lemma quiet_lift {A} (r : res A) : quiet (lift r).
Proof. intros w. reflexivity. Qed.

Lemma quiet_utcnow : quiet utcnow.
Proof. intros w. reflexivity. Qed.

Lemma quiet_bind {A B} (m : M A) (k : A -> M B) :
  quiet m -> (forall a, quiet (k a)) -> quiet (bind m k).
Proof.
  intros Hm Hk w. unfold bind.
  specialize (Hm w). destruct (m w) as [[a | e] w1]; simpl in *.
  - now rewrite Hk.
  - exact Hm.
Qed.

Lemma quiet_for_each {X S} (body : X -> S -> M S) (xs : list X) :
  (forall x acc, quiet (body x acc)) -> forall acc, quiet (for_each body xs acc).
Proof.
  intros Hbody. induction xs as [| x xs IH]; intros acc; simpl.
  - apply quiet_ret.
  - apply quiet_bind; [apply Hbody | exact IH].
Qed.

Lemma quiet_dateutil_parse (x : pyval) : quiet (dateutil_parse x).
Proof.
  destruct x; try apply quiet_raise. simpl.
  destruct (parse s); [apply quiet_ret | apply quiet_raise].
Qed.

Ltac quiet_tac :=
  repeat first
    [ apply quiet_ret | apply quiet_raise | apply quiet_lift
    | apply quiet_utcnow | apply quiet_dateutil_parse
    | apply quiet_bind; [| intros ?]
    | match goal with
      | |- quiet (if ?b then _ else _) => destruct b
      | |- quiet (match ?x with _ => _ end) => destruct x
      end ].

Lemma quiet_start_terms_step (item : pyval * pyval) (acc : defaultdict) :
  quiet (start_terms_step item acc).
Proof. unfold start_terms_step. quiet_tac. Qed.

Lemma quiet_parsed_not_after (term : pyval) (now : datetime) :
  quiet (parsed_not_after term now).
Proof. unfold parsed_not_after. quiet_tac. Qed.

Lemma quiet_status_step (course : pyval) (acc : defaultdict) :
  quiet (status_step course acc).
Proof.
  unfold status_step.
  repeat first
    [ apply quiet_parsed_not_after
    | apply quiet_ret | apply quiet_lift | apply quiet_utcnow
    | apply quiet_bind; [| intros ?]
    | match goal with
      | |- quiet (if ?b then _ else _) => destruct b
      end ].
Qed.

Lemma quiet_process_range_data (results : pyval) :
  quiet (process_range_data results).
Proof.
  unfold process_range_data.
  repeat first
    [ apply quiet_ret | apply quiet_lift
    | apply quiet_for_each; intros ? ?
    | apply quiet_start_terms_step | apply quiet_status_step
    | apply quiet_bind; [| intros ?]
    | match goal with
      | |- quiet (if ?b then _ else _) => destruct b
      end ].
Qed.

(** *** The pass-through and the missing engine *)

(** C9.  When neither [start] nor [status] is among the configured filter
    fields, [process_range_data] returns the envelope it was given,
    unchanged, without reading the clock. *)
Theorem process_range_data_unconfigured (results : pyval) (w : world) :
  "start" ∉ course_discovery_filter_fields ->
  "status" ∉ course_discovery_filter_fields ->
  process_range_data results w = (Ok results, w).
Proof.
  intros Hstart Hstatus. unfold process_range_data.
  rewrite (bool_decide_eq_false_2 _ Hstart).
  rewrite (bool_decide_eq_false_2 _ Hstatus).
  reflexivity.
Qed.

(** C8.  When the named search engine cannot be resolved, both entry points
    raise [NoSearchEngineError], and no call of the engine contract is
    logged: [perform_search] leaves the world untouched, and
    [course_discovery_search] has at most read the clock. *)
Theorem no_search_engine_error :
  get_search_engine index_name = None ->
  (forall search_term user size from_ course_id w,
      perform_search search_term user size from_ course_id w
      = (Raise (NoSearchEngineError
                  "No search engine specified in settings.SEARCH_ENGINE"), w)) /\
  (forall search_term size from_ field_dictionary kwargs w,
      exists w' : world,
        course_discovery_search search_term size from_ field_dictionary kwargs w
        = (Raise (NoSearchEngineError
                    "No search engine specified in settings.SEARCH_ENGINE"), w') /\
        calls w' = calls w).
Proof.
  intros Hnone. split.
  - intros. unfold perform_search.
    destruct (generate_field_filters _) as [[fd fi] ex].
    rewrite Hnone. reflexivity.
  - intros. unfold course_discovery_search.
    destruct (generate_field_filters _) as [[fd fi] ex].
    destruct (negb _).
    + unfold bind, ret, utcnow. rewrite Hnone. eexists. split; reflexivity.
    + unfold bind, ret. rewrite Hnone. eexists. split; reflexivity.
Qed.

(** *** The status classification *)

Lemma item_fields_inv (course start_term end_term : pyval) :
  item_fields course = Ok (start_term, end_term) ->
  exists data,
    Py.get course "data" (PDict []) = Ok data /\
    Py.get data "start" PNone = Ok start_term /\
    Py.get data "end" PNone = Ok end_term.
Proof.
  unfold item_fields, res_bind. intros H.
  destruct (Py.get course "data" (PDict [])) as [data |]; [| discriminate].
  exists data.
  destruct (Py.get data "start" PNone) as [s |]; [| discriminate].
  destruct (Py.get data "end" PNone) as [e |]; [| discriminate].
  inversion H. auto.
Qed.

Lemma truthy_PStr (s : string) : s <> "" -> Py.truthy (PStr s) = true.
Proof.
  intros Hs. simpl. destruct (String.eqb_spec s ""); [contradiction | reflexivity].
Qed.

Lemma parsed_not_after_empty (now : datetime) (w : world) :
  parsed_not_after (PStr "") now w = (Ok false, w).
Proof. reflexivity. Qed.

Lemma parsed_not_after_parsed (s : string) (t now : datetime) (w : world) :
  s <> "" -> parse s = Ok t ->
  parsed_not_after (PStr s) now w = (Ok (t <=? now), w).
Proof.
  intros Hs Hp. unfold parsed_not_after. rewrite (truthy_PStr _ Hs).
  unfold bind, dateutil_parse. now rewrite Hp.
Qed.

Lemma parsed_not_after_rejected (s : string) (err : exn) (now : datetime)
    (w : world) :
  s <> "" -> parse s = Raise err ->
  parsed_not_after (PStr s) now w = (Raise err, w).
Proof.
  intros Hs Hp. unfold parsed_not_after. rewrite (truthy_PStr _ Hs).
  unfold bind, dateutil_parse. now rewrite Hp.
Qed.

(** The loop body, once the two fields and the clock are read. *)
Lemma status_step_fields (course start_term end_term : pyval)
    (acc : defaultdict) (w : world) :
  item_fields course = Ok (start_term, end_term) ->
  status_step course acc w
  = (if negb (Py.is_stringlike start_term) then ret acc
     else
       started <- parsed_not_after start_term (clock (tick w)) ;;
       if started then
         if negb (Py.is_stringlike end_term) then ret acc
         else
           ended <- parsed_not_after end_term (clock (tick w)) ;;
           if ended then ret (bump "past" 1 acc)
           else ret (bump "current" 1 acc)
       else ret (bump "future" 1 acc))
      (mkWorld (S (tick w)) (calls w)).
Proof.
  intros H. destruct (item_fields_inv _ _ _ H) as (data & Hd & Hs & He).
  unfold status_step.
  rewrite (bind_lift_ok _ _ _ _ Hd), (bind_lift_ok _ _ _ _ Hs).
  rewrite (bind_lift_ok _ _ _ _ Hd), (bind_lift_ok _ _ _ _ He).
  rewrite bind_utcnow. reflexivity.
Qed.

Lemma status_step_skip_start (course start_term end_term : pyval)
    (acc : defaultdict) (w : world) :
  item_fields course = Ok (start_term, end_term) ->
  Py.is_stringlike start_term = false ->
  status_step course acc w = (Ok acc, mkWorld (S (tick w)) (calls w)).
Proof.
  intros H Hn. rewrite (status_step_fields _ _ _ _ _ H), Hn. reflexivity.
Qed.

Lemma status_step_future (course : pyval) (s : string) (end_term : pyval)
    (acc : defaultdict) (w : world) :
  item_fields course = Ok (PStr s, end_term) ->
  s = "" \/ (exists t, parse s = Ok t /\ clock (tick w) < t) ->
  status_step course acc w
  = (Ok (bump "future" 1 acc), mkWorld (S (tick w)) (calls w)).
Proof.
  intros H Hs. rewrite (status_step_fields _ _ _ _ _ H). simpl.
  destruct (String.eqb_spec s "") as [-> | Hne].
  - reflexivity.
  - destruct Hs as [-> | (t & Hp & Hlt)]; [contradiction |].
    unfold bind. rewrite (parsed_not_after_parsed _ _ _ _ Hne Hp).
    destruct (Z.leb_spec t (clock (tick w))); [lia | reflexivity].
Qed.

Lemma status_step_start_rejected (course : pyval) (s : string) (err : exn)
    (end_term : pyval) (acc : defaultdict) (w : world) :
  item_fields course = Ok (PStr s, end_term) ->
  s <> "" -> parse s = Raise err ->
  status_step course acc w = (Raise err, mkWorld (S (tick w)) (calls w)).
Proof.
  intros H Hne Hp. rewrite (status_step_fields _ _ _ _ _ H). simpl.
  unfold bind. now rewrite (parsed_not_after_rejected _ _ _ _ Hne Hp).
Qed.

(** The loop body for an item that has started. *)
Lemma status_step_started (course : pyval) (s : string) (t : datetime)
    (end_term : pyval) (acc : defaultdict) (w : world) :
  item_fields course = Ok (PStr s, end_term) ->
  s <> "" -> parse s = Ok t -> t <= clock (tick w) ->
  status_step course acc w
  = (if negb (Py.is_stringlike end_term) then ret acc
     else
       ended <- parsed_not_after end_term (clock (tick w)) ;;
       if ended then ret (bump "past" 1 acc)
       else ret (bump "current" 1 acc))
      (mkWorld (S (tick w)) (calls w)).
Proof.
  intros H Hne Hp Hle. rewrite (status_step_fields _ _ _ _ _ H). simpl.
  unfold bind at 1. rewrite (parsed_not_after_parsed _ _ _ _ Hne Hp).
  destruct (Z.leb_spec t (clock (tick w))); [reflexivity | lia].
Qed.

(** C2, amended.  For a result item whose [start] and [end] fields are
    read as [start_term] and [end_term] ([PNone] when absent), at the clock
    reading [now] of the iteration:
    - a [start] that is absent or not a string skips the item;
    - a non-empty [start] string parsing to [t <= now]: an [end] that is
      absent or not a string skips the item, a non-empty [end] string
      parsing to [u <= now] counts it as [past], one parsing to [u > now],
      or the empty string, counts it as [current], and a non-empty [end]
      string the parser rejects raises the parser's exception, whichever
      it is;
    - a non-empty [start] string parsing to [t > now], or the empty
      string, counts the item as [future];
    - a non-empty [start] string the parser rejects raises the parser's
      exception, whichever it is. *)
Theorem status_step_classification (course start_term end_term : pyval)
    (acc : defaultdict) (w : world) :
  item_fields course = Ok (start_term, end_term) ->
  let now := clock (tick w) in
  let w' := mkWorld (S (tick w)) (calls w) in
  (Py.is_stringlike start_term = false ->
     status_step course acc w = (Ok acc, w')) /\
  (forall s t, start_term = PStr s -> s <> "" -> parse s = Ok t -> t <= now ->
     (Py.is_stringlike end_term = false ->
        status_step course acc w = (Ok acc, w')) /\
     (forall e u, end_term = PStr e -> e <> "" -> parse e = Ok u -> u <= now ->
        status_step course acc w = (Ok (bump "past" 1 acc), w')) /\
     (forall e u, end_term = PStr e -> e <> "" -> parse e = Ok u -> now < u ->
        status_step course acc w = (Ok (bump "current" 1 acc), w')) /\
     (end_term = PStr "" ->
        status_step course acc w = (Ok (bump "current" 1 acc), w')) /\
     (forall e err, end_term = PStr e -> e <> "" -> parse e = Raise err ->
        status_step course acc w = (Raise err, w'))) /\
  (forall s t, start_term = PStr s -> s <> "" -> parse s = Ok t -> now < t ->
     status_step course acc w = (Ok (bump "future" 1 acc), w')) /\
  (start_term = PStr "" ->
     status_step course acc w = (Ok (bump "future" 1 acc), w')) /\
  (forall s err, start_term = PStr s -> s <> "" -> parse s = Raise err ->
     status_step course acc w = (Raise err, w')).
Proof.
  intros H now w'. subst now w'.
  split; [| split; [| split; [| split]]].
  - intros Hn. exact (status_step_skip_start _ _ _ _ _ H Hn).
  - intros s t -> Hne Hp Hle.
    rewrite (status_step_started _ _ _ _ _ _ H Hne Hp Hle).
    split; [| split; [| split; [| split]]].
    + intros ->. reflexivity.
    + intros e u -> Hene Hep Hule. simpl. unfold bind.
      rewrite (parsed_not_after_parsed _ _ _ _ Hene Hep).
      destruct (Z.leb_spec u (clock (tick w))); [reflexivity | lia].
    + intros e u -> Hene Hep Hlt. simpl. unfold bind.
      rewrite (parsed_not_after_parsed _ _ _ _ Hene Hep).
      destruct (Z.leb_spec u (clock (tick w))); [lia | reflexivity].
    + intros ->. reflexivity.
    + intros e err -> Hene Hep. simpl. unfold bind.
      now rewrite (parsed_not_after_rejected _ _ _ _ Hene Hep).
  - intros s t -> Hne Hp Hlt.
    apply (status_step_future _ _ _ _ _ H). right. eauto.
  - intros ->. apply (status_step_future _ _ _ _ _ H). now left.
  - intros s err -> Hne Hp.
    exact (status_step_start_rejected _ _ _ _ _ _ H Hne Hp).
Qed.

(** *** Malformed timestamps *)

Lemma for_each_app {X S} (body : X -> S -> M S) (xs ys : list X) (acc : S)
    (w : world) :
  for_each body (xs ++ ys) acc w
  = bind (for_each body xs acc) (for_each body ys) w.
Proof.
  revert acc w. induction xs as [| x xs IH]; intros acc w; simpl.
  - reflexivity.
  - unfold bind.
    destruct (body x acc w) as [[acc' | e] w1]; [| reflexivity].
    rewrite IH. reflexivity.
Qed.

Lemma start_terms_step_skip (key value : pyval) (acc : defaultdict) (w : world) :
  Py.is_stringlike key = false ->
  start_terms_step (key, value) acc w = (Ok acc, w).
Proof. intros H. unfold start_terms_step. now rewrite H. Qed.

Lemma start_terms_step_rejected (s : string) (err : exn) (value : pyval)
    (acc : defaultdict) (w : world) :
  parse s = Raise err ->
  start_terms_step (PStr s, value) acc w = (Raise err, w).
Proof.
  intros H. unfold start_terms_step, dateutil_parse, bind. simpl. now rewrite H.
Qed.

(** C4, amended.  In the start pass a facet key that is not a string is
    skipped: the loop body returns the counts unchanged without raising,
    and the loop over the terms gives what it gives without that term.  A
    key that is a string the parser rejects is not skipped: the exception
    the parser raises, whichever it is, leaves the loop body unchanged, and
    the loop as soon as the terms before it are done.  In the status pass a
    [start] that is not a string, and, for an item that has started, an
    [end] that is not a string, skip the item without raising; a non-empty
    [start] string the parser rejects raises the parser's exception. *)
Theorem malformed_timestamp_handling :
  (forall key value acc w,
      Py.is_stringlike key = false ->
      start_terms_step (key, value) acc w = (Ok acc, w)) /\
  (forall items1 key value items2 acc w,
      Py.is_stringlike key = false ->
      for_each start_terms_step (items1 ++ (key, value) :: items2) acc w
      = for_each start_terms_step (items1 ++ items2) acc w) /\
  (forall s err value acc w,
      parse s = Raise err ->
      start_terms_step (PStr s, value) acc w = (Raise err, w)) /\
  (forall items1 s err value items2 acc acc1 w w1,
      parse s = Raise err ->
      for_each start_terms_step items1 acc w = (Ok acc1, w1) ->
      for_each start_terms_step (items1 ++ (PStr s, value) :: items2) acc w
      = (Raise err, w1)) /\
  (forall course start_term end_term acc w,
      item_fields course = Ok (start_term, end_term) ->
      Py.is_stringlike start_term = false ->
      status_step course acc w = (Ok acc, mkWorld (S (tick w)) (calls w))) /\
  (forall course s t end_term acc w,
      item_fields course = Ok (PStr s, end_term) ->
      s <> "" -> parse s = Ok t -> t <= clock (tick w) ->
      Py.is_stringlike end_term = false ->
      status_step course acc w = (Ok acc, mkWorld (S (tick w)) (calls w))) /\
  (forall course s err end_term acc w,
      item_fields course = Ok (PStr s, end_term) ->
      s <> "" -> parse s = Raise err ->
      status_step course acc w
      = (Raise err, mkWorld (S (tick w)) (calls w))).
Proof.
  split; [| split; [| split; [| split; [| split; [| split]]]]].
  - intros. now apply start_terms_step_skip.
  - intros items1 key value items2 acc w Hn.
    rewrite !for_each_app. unfold bind.
    destruct (for_each start_terms_step items1 acc w) as [[acc1 | e] w1];
      [| reflexivity].
    cbn [for_each]. unfold bind. now rewrite start_terms_step_skip.
  - intros. now apply start_terms_step_rejected.
  - intros items1 s err value items2 acc acc1 w w1 Hp Hpre.
    rewrite for_each_app. unfold bind at 1. rewrite Hpre.
    cbn [for_each]. unfold bind.
    now rewrite (start_terms_step_rejected _ _ _ _ _ Hp).
  - intros course st en acc w H Hn.
    exact (status_step_skip_start _ _ _ _ _ H Hn).
  - intros course s t en acc w H Hne Hp Hle Hn.
    rewrite (status_step_started _ _ _ _ _ _ H Hne Hp Hle), Hn. reflexivity.
  - intros course s err en acc w H Hne Hp.
    exact (status_step_start_rejected _ _ _ _ _ _ H Hne Hp).
Qed.

(** *** Dictionaries and paths *)

Lemma lookup_store_eq (k : string) (v : pyval) (d : list (pyval * pyval)) :
  Py.lookup k (Py.store k v d) = Some v.
Proof.
  induction d as [| [k' v'] d IH]; simpl.
  - now rewrite String.eqb_refl.
  - destruct (Py.eq_str k' k) eqn:E; simpl; rewrite E; [reflexivity | exact IH].
Qed.

Lemma lookup_store_ne (k k' : string) (v : pyval) (d : list (pyval * pyval)) :
  k <> k' -> Py.lookup k' (Py.store k v d) = Py.lookup k' d.
Proof.
  intros Hne. induction d as [| [k0 v0] d IH]; simpl.
  - destruct (String.eqb_spec k k'); [contradiction | reflexivity].
  - destruct (Py.eq_str k0 k) eqn:E; simpl.
    + destruct k0; simpl in E; try discriminate.
      apply String.eqb_eq in E. subst s. simpl.
      destruct (String.eqb_spec k k'); [contradiction | reflexivity].
    + now rewrite IH.
Qed.

Lemma getpath_setpath_eq (path : list string) (last : string) (v o o' : pyval) :
  Py.setpath o path last v = Ok o' ->
  Py.getpath o' (path ++ [last]) = Ok v.
Proof.
  revert o o'. induction path as [| k path IH]; intros o o' H; simpl in *.
  - destruct o; try discriminate. inversion H; subst. simpl.
    now rewrite lookup_store_eq.
  - destruct o; try discriminate. simpl in H.
    destruct (Py.lookup k d) as [child |] eqn:Hk; [| discriminate]. simpl in H.
    destruct (Py.setpath child path last v) as [child' |] eqn:Hc;
      [| discriminate].
    simpl in H. inversion H; subst. simpl.
    rewrite lookup_store_eq. simpl. exact (IH _ _ Hc).
Qed.

Lemma getpath_setpath_ne (path : list string) (last last' : string)
    (v o o' : pyval) :
  last <> last' ->
  Py.setpath o path last v = Ok o' ->
  Py.getpath o' (path ++ [last']) = Py.getpath o (path ++ [last']).
Proof.
  intros Hne. revert o o'.
  induction path as [| k path IH]; intros o o' H; simpl in *.
  - destruct o; try discriminate. inversion H; subst. simpl.
    now rewrite (lookup_store_ne _ _ _ _ Hne).
  - destruct o; try discriminate. simpl in H.
    destruct (Py.lookup k d) as [child |] eqn:Hk; [| discriminate]. simpl in H.
    destruct (Py.setpath child path last v) as [child' |] eqn:Hc;
      [| discriminate].
    simpl in H. inversion H; subst. simpl.
    rewrite lookup_store_eq, Hk. simpl. exact (IH _ _ Hc).
Qed.

Lemma setpath_missing (path : list string) (last key : string) (v o : pyval) :
  Py.getpath o path = Raise (KeyError key) ->
  Py.setpath o path last v = Raise (KeyError key).
Proof.
  revert o. induction path as [| k path IH]; intros o H; simpl in *.
  - discriminate.
  - destruct (Py.getitem o k) as [child | e]; simpl in *.
    + now rewrite (IH _ H).
    + exact H.
Qed.

Lemma get_getitem (o v dflt : pyval) (k : string) :
  Py.getitem o k = Ok v -> Py.get o k dflt = Ok v.
Proof.
  destruct o; simpl; try discriminate.
  destruct (Py.lookup k d); [| discriminate]. now intros [= ->].
Qed.

(** *** The totals *)

Lemma sum_counts_to_pydict (terms : defaultdict) :
  spec_sum_counts (map (fun kv => (PStr (fst kv), PInt (snd kv))) terms)
  = Some (sum_values terms).
Proof.
  unfold sum_values. induction terms as [| [k n] terms IH]; simpl.
  - reflexivity.
  - now rewrite IH.
Qed.

Lemma store_facet_total (results results' : pyval) (facet : string)
    (terms : defaultdict) :
  store_facet results facet terms = Ok results' ->
  spec_total_is_sum results' facet.
Proof.
  unfold store_facet, res_bind. intros H.
  destruct (Py.setpath results ["facets"; facet] "terms" (to_pydict terms))
    as [results1 |] eqn:H1; [| discriminate].
  exists (map (fun kv => (PStr (fst kv), PInt (snd kv))) terms), (sum_values terms).
  split; [| split].
  - change ["facets"; facet; "terms"] with (["facets"; facet] ++ ["terms"])%list.
    rewrite (getpath_setpath_ne _ "total" "terms" _ _ _ ltac:(discriminate) H).
    exact (getpath_setpath_eq _ _ _ _ _ H1).
  - change ["facets"; facet; "total"] with (["facets"; facet] ++ ["total"])%list.
    exact (getpath_setpath_eq _ _ _ _ _ H).
  - apply sum_counts_to_pydict.
Qed.

(** C5.  Whenever [process_range_data] returns after a reclassification,
    the total recorded for the reclassified facet is the sum of its bucket
    counts: for the [start] facet when [start] is configured and the raw
    facet has a non-empty terms mapping, for the [status] facet when
    [status] is configured and [start] is not. *)
Theorem reclassified_total_is_sum (results results' : pyval) (w w' : world) :
  process_range_data results w = (Ok results', w') ->
  ("start" ∈ course_discovery_filter_fields ->
   (exists start_terms,
       Py.getpath results ["facets"; "start"; "terms"] = Ok start_terms /\
       Py.truthy start_terms = true) ->
   spec_total_is_sum results' "start") /\
  ("start" ∉ course_discovery_filter_fields ->
   "status" ∈ course_discovery_filter_fields ->
   spec_total_is_sum results' "status").
Proof.
  intros Hrun. split.
  - intros Hstart (start_terms & Hpath & Htruthy).
    unfold process_range_data in Hrun.
    rewrite (bool_decide_eq_true_2 _ Hstart) in Hrun.
    simpl in Hpath. unfold res_bind in Hpath.
    destruct (Py.getitem results "facets") as [facets |] eqn:Hf; [| discriminate].
    destruct (Py.getitem facets "start") as [start |] eqn:Hs; [| discriminate].
    destruct (Py.getitem start "terms") as [terms |] eqn:Ht; [| discriminate].
    inversion Hpath; subst terms.
    rewrite (bind_lift_ok _ _ _ _ (get_getitem _ _ _ _ Hf)) in Hrun.
    rewrite (bind_lift_ok _ _ _ _ (get_getitem _ _ _ _ Hs)) in Hrun.
    rewrite (bind_lift_ok _ _ _ _ (get_getitem _ _ _ _ Ht)) in Hrun.
    rewrite Htruthy in Hrun. unfold bind, lift in Hrun.
    destruct (Py.items start_terms) as [items |]; [| discriminate].
    destruct (for_each start_terms_step items [] w) as [[terms | e] w1];
      [| discriminate].
    inversion Hrun as [[Hstore Hw]].
    exact (store_facet_total _ _ _ _ Hstore).
  - intros Hstart Hstatus.
    unfold process_range_data in Hrun.
    rewrite (bool_decide_eq_false_2 _ Hstart) in Hrun.
    rewrite (bool_decide_eq_true_2 _ Hstatus) in Hrun.
    unfold bind, lift in Hrun.
    destruct (Py.get results "results" (PList [])) as [courses |];
      [| discriminate].
    destruct (Py.iter courses) as [items |]; [| discriminate].
    destruct (for_each status_step items [] w) as [[terms | e] w1];
      [| discriminate].
    inversion Hrun as [[Hstore Hw]].
    exact (store_facet_total _ _ _ _ Hstore).
Qed.

(** *** The unguarded write of the status pass *)

Lemma lacks_facet_getpath (d : list (pyval * pyval)) (facet key : string) :
  spec_lacks_facet d facet key ->
  Py.getpath (PDict d) ["facets"; facet] = Raise (KeyError key).
Proof.
  intros [[Hf ->] | (facets & Hf & Hs & ->)]; simpl; rewrite Hf; simpl.
  - reflexivity.
  - now rewrite Hs.
Qed.

Lemma store_facet_missing (results : pyval) (facet key : string)
    (terms : defaultdict) :
  Py.getpath results ["facets"; facet] = Raise (KeyError key) ->
  store_facet results facet terms = Raise (KeyError key).
Proof.
  intros H. unfold store_facet. now rewrite (setpath_missing _ _ _ _ _ H).
Qed.

Lemma start_terms_missing (d : list (pyval * pyval)) (key : string) :
  spec_lacks_facet d "start" key ->
  exists facets start,
    Py.get (PDict d) "facets" (PDict []) = Ok facets /\
    Py.get facets "start" (PDict []) = Ok start /\
    Py.get start "terms" (PDict []) = Ok (PDict []).
Proof.
  intros [[Hf _] | (facets & Hf & Hs & _)]; simpl; rewrite Hf; simpl.
  - exists (PDict []), (PDict []). auto.
  - exists (PDict facets), (PDict []). simpl. rewrite Hs. auto.
Qed.

(** C10, amended.  When [status] is a configured filter field and [start]
    is not, and the envelope has no [facets] mapping or its [facets]
    mapping has no [status] entry, [process_range_data] never passes the
    envelope through: it raises.  The error is the [KeyError] of the
    missing key whenever the loop over the result items completes;
    otherwise it is the error the loop raised.  The start pass is guarded:
    when [start] is configured and the envelope has no [facets] mapping, or
    no [start] entry in it, the envelope is returned unchanged. *)
Theorem status_pass_unguarded (d : list (pyval * pyval)) (key : string) :
  ("start" ∉ course_discovery_filter_fields ->
   "status" ∈ course_discovery_filter_fields ->
   spec_lacks_facet d "status" key ->
   (forall w, exists e w', process_range_data (PDict d) w = (Raise e, w')) /\
   (forall w courses status_terms w1,
       Py.iter (default (PList []) (Py.lookup "results" d)) = Ok courses ->
       for_each status_step courses [] w = (Ok status_terms, w1) ->
       process_range_data (PDict d) w = (Raise (KeyError key), w1))) /\
  ("start" ∈ course_discovery_filter_fields ->
   spec_lacks_facet d "start" key ->
   forall w, process_range_data (PDict d) w = (Ok (PDict d), w)).
Proof.
  split.
  - intros Hstart Hstatus Hlacks.
    pose proof (lacks_facet_getpath _ _ _ Hlacks) as Hpath.
    assert (Hrun : forall w,
               process_range_data (PDict d) w
               = bind (lift (Py.iter (default (PList []) (Py.lookup "results" d))))
                   (fun courses =>
                      bind (for_each status_step courses [])
                        (fun status_terms =>
                           lift (store_facet (PDict d) "status" status_terms))) w).
    { intros w. unfold process_range_data.
      rewrite (bool_decide_eq_false_2 _ Hstart).
      rewrite (bool_decide_eq_true_2 _ Hstatus). reflexivity. }
    split.
    + intros w. rewrite Hrun. unfold bind, lift.
      destruct (Py.iter _) as [courses | e]; [| eauto].
      destruct (for_each status_step courses [] w) as [[terms | e] w1];
        [| eauto].
      rewrite (store_facet_missing _ _ _ _ Hpath). eauto.
    + intros w courses terms w1 Hiter Hloop. rewrite Hrun.
      unfold bind, lift. rewrite Hiter, Hloop.
      now rewrite (store_facet_missing _ _ _ _ Hpath).
  - intros Hstart Hlacks w.
    destruct (start_terms_missing _ _ Hlacks) as (facets & start & Hf & Hs & Ht).
    unfold process_range_data.
    rewrite (bool_decide_eq_true_2 _ Hstart).
    rewrite (bind_lift_ok _ _ _ _ Hf), (bind_lift_ok _ _ _ _ Hs).
    rewrite (bind_lift_ok _ _ _ _ Ht). reflexivity.
Qed.

(** *** Content search: denied results *)

Lemma process_item_ok (search_term : string) (user : option User)
    (item data : pyval) :
  Py.getitem item "data" = Ok data ->
  exists item',
    process_item search_term user item = Ok item' /\
    Py.setitem item "data" (spec_payload search_term user item) = Ok item' /\
    Py.getitem item' "data" = Ok (spec_payload search_term user item).
Proof.
  intros H. unfold process_item, spec_payload. rewrite H. simpl.
  destruct item; try discriminate. simpl.
  eexists. split; [reflexivity |]. split; [reflexivity |].
  simpl. now rewrite lookup_store_eq.
Qed.

(** The loop and the two comprehensions of api.py:74-78, on well-formed
    items. *)
Lemma post_process_items (search_term : string) (user : option User)
    (raw : list pyval) :
  Forall (fun item => exists data, Py.getitem item "data" = Ok data) raw ->
  exists processed denied kept,
    map_res (process_item search_term user) raw = Ok processed /\
    filter_res data_is_none processed = Ok denied /\
    filter_res data_is_not_none processed = Ok kept /\
    length denied
    = length (List.filter (fun item => Py.is_none (spec_payload search_term user item))
                raw) /\
    Forall2 (fun item item' =>
               Py.setitem item "data" (spec_payload search_term user item)
               = Ok item')
      (List.filter (fun item => negb (Py.is_none (spec_payload search_term user item)))
         raw)
      kept /\
    (length denied + length kept = length raw)%nat.
Proof.
  induction 1 as [| item raw [data Hdata] _ IH].
  - exists [], [], []. simpl. repeat split; constructor.
  - destruct IH as (processed & denied & kept & Hm & Hd & Hk & Hlen & Hall & Hsum).
    destruct (process_item_ok search_term user _ _ Hdata)
      as (item' & Hp & Hset & Hget).
    exists (item' :: processed).
    exists (if Py.is_none (spec_payload search_term user item)
            then item' :: denied else denied).
    exists (if Py.is_none (spec_payload search_term user item)
            then kept else item' :: kept).
    simpl. rewrite Hp, Hm. simpl.
    unfold data_is_none at 1, data_is_not_none at 1. rewrite Hget, Hd, Hk. simpl.
    destruct (Py.is_none (spec_payload search_term user item)); simpl.
    + repeat split; auto; lia.
    + repeat split; auto; lia.
Qed.

(** C6.  When the engine is resolved and answers the content search with
    an envelope whose [results] are a list of items that each have a [data]
    entry, [perform_search] returns an envelope in which the items whose
    processed payload is empty ([None]) are dropped from [results] and
    counted in [access_denied_count], the other items being kept in order
    with their processed payload; [access_denied_count] plus the number of
    returned results is the number of raw results. *)
Theorem access_denied_count_complement (searcher : SearchEngine)
    (search_term : string) (user : option User) (size from_ : Z)
    (course_id : option string) (d : list (pyval * pyval)) (raw : list pyval)
    (w : world) :
  get_search_engine index_name = Some searcher ->
  search_string searcher
    (content_search_args search_term user size from_ course_id) = Ok (PDict d) ->
  Py.lookup "results" d = Some (PList raw) ->
  Forall (fun item => exists data, Py.getitem item "data" = Ok data) raw ->
  exists (results' : pyval) (w' : world) (access_denied_count : Z)
         (kept : list pyval),
    perform_search search_term user size from_ course_id w = (Ok results', w') /\
    Py.getitem results' "access_denied_count" = Ok (PInt access_denied_count) /\
    Py.getitem results' "results" = Ok (PList kept) /\
    access_denied_count
    = Z.of_nat
        (length (List.filter (fun item => Py.is_none (spec_payload search_term user item))
                   raw)) /\
    Forall2 (fun item item' =>
               Py.setitem item "data" (spec_payload search_term user item)
               = Ok item')
      (List.filter (fun item => negb (Py.is_none (spec_payload search_term user item)))
         raw)
      kept /\
    access_denied_count + Z.of_nat (length kept) = Z.of_nat (length raw).
Proof.
  intros Hengine Hsearch Hresults Hitems.
  destruct (post_process_items search_term user raw Hitems)
    as (processed & denied & kept & Hm & Hd & Hk & Hlen & Hall & Hsum).
  unfold perform_search. unfold content_search_args in Hsearch.
  destruct (generate_field_filters _) as [[fd fi] ex].
  rewrite Hengine. unfold bind, call_search_string, lift. rewrite Hsearch.
  unfold post_process. simpl. rewrite Hresults. simpl.
  rewrite Hm. simpl. rewrite Hd. simpl. rewrite Hk. simpl.
  eexists _, _, (Z.of_nat (length denied)), kept.
  split; [reflexivity |]. split; [| split; [| split; [| split]]].
  - cbn [Py.getitem].
    rewrite (lookup_store_ne "results" "access_denied_count") by discriminate.
    now rewrite lookup_store_eq.
  - cbn [Py.getitem]. now rewrite lookup_store_eq.
  - now rewrite Hlen.
  - exact Hall.
  - lia.
Qed.

(** *** The pseudo-fields of course discovery *)

Section Frozen.

(** The clock stands still at [now] for the duration of a call. *)
Variable now : datetime.
Hypothesis frozen : forall n, clock n = now.

Lemma start_filter_frozen (start : pyval) (fd : gmap string FormattedFilter)
    (w : world) :
  exists w',
    start_filter start fd w = (Ok (spec_start_filters now start ∪ fd), w') /\
    calls w' = calls w.
Proof.
  unfold start_filter, spec_start_filters, spec_start_range.
  repeat (destruct (Py.eq_str start _);
          [ unfold bind, utcnow, ret, _format_filter; simpl;
            rewrite !frozen, insert_union_singleton_l;
            eexists; split; reflexivity |]).
  unfold ret. rewrite (left_id_L ∅ (∪)). eexists; split; reflexivity.
Qed.

Lemma status_filter_frozen (status : pyval) (fd : gmap string FormattedFilter)
    (w : world) :
  exists w',
    status_filter status fd w = (Ok (spec_status_filters now status ∪ fd), w') /\
    calls w' = calls w.
Proof.
  unfold status_filter, spec_status_filters.
  destruct (Py.eq_str status "past").
  { unfold bind, utcnow, ret, _format_filter; simpl.
    rewrite !frozen, insert_union_singleton_l. eexists; split; reflexivity. }
  destruct (Py.eq_str status "current").
  { unfold bind, utcnow, ret, _format_filter; simpl. rewrite !frozen.
    exists (mkWorld (S (S (tick w))) (calls w)). split; [| reflexivity].
    do 2 f_equal. apply map_eq. intros k.
    destruct (decide (k = "end")) as [-> | Hend];
      [ rewrite lookup_insert_eq; symmetry; apply lookup_union_Some_l;
        rewrite lookup_insert_ne by discriminate; apply lookup_singleton_eq |].
    rewrite lookup_insert_ne by congruence.
    destruct (decide (k = "start")) as [-> | Hstart];
      [ rewrite lookup_insert_eq; symmetry; apply lookup_union_Some_l;
        apply lookup_insert_eq |].
    rewrite lookup_insert_ne by congruence.
    rewrite lookup_union_r; [reflexivity |].
    rewrite lookup_insert_ne by congruence.
    apply lookup_singleton_ne. congruence. }
  destruct (Py.eq_str status "future").
  { unfold bind, utcnow, ret, _format_filter; simpl.
    rewrite !frozen, insert_union_singleton_l. eexists; split; reflexivity. }
  unfold ret. rewrite (left_id_L ∅ (∪)). eexists; split; reflexivity.
Qed.

(** C3.  Under a clock standing at [now], with the engine resolved,
    [course_discovery_search] makes one engine call, and in it:
    - the field dictionary has no [start] and no [status] key;
    - the filter dictionary is the optional [enrollment_end] filter, updated
      with the filter of the [start] pseudo-field ([current]: start range
      (None, now-30d); [new]: (now-30d, now); [soon]: (now, now+30d);
      [future]: (now+30d, None); any other or absent value: nothing), then
      updated with the filters of the [status] pseudo-field ([past]: end
      range (None, now) with missing_included false; [current]: start range
      (None, now) and end range (now, None); [future]: start range
      (now, None); any other or absent value: nothing),
    the pseudo-fields being read from the merged field dictionary. *)
Theorem discovery_pseudo_fields (searcher : SearchEngine)
    (search_term : option string) (size from_ : Z)
    (field_dictionary : option (gmap string pyval)) (kwargs : Kwargs)
    (w : world) :
  get_search_engine index_name = Some searcher ->
  let merged :=
    merged_field_dictionary (generate_field_filters kwargs).1.1
      (use_search_fields kwargs) field_dictionary in
  let start := default PNone (merged !! "start") in
  let status := default PNone (merged !! "status") in
  let enrollment_end : gmap string FormattedFilter :=
    if default false (kw_allow_enrollment_end_filter kwargs) then
      {[ "enrollment_end" :=
           mkFormattedFilter (PRange (mkDateRange (Some now) None)) true ]}
    else ∅ in
  exists args : SearchArgs,
    calls (snd (course_discovery_search search_term size from_
                  field_dictionary kwargs w))
    = CallSearch args :: calls w /\
    s_field_dictionary args !! "start" = None /\
    s_field_dictionary args !! "status" = None /\
    s_filter_dictionary args
    = spec_status_filters now status
        ∪ (spec_start_filters now start ∪ enrollment_end).
Proof.
  intros Hengine merged start status enrollment_end.
  unfold course_discovery_search.
  destruct (generate_field_filters kwargs) as [[search_fields fi] ex] eqn:Hgen.
  simpl in merged. fold merged.
  assert (Hstep1 : exists ufd w1,
             (if negb (default false
                         (SEARCH_SKIP_ENROLLMENT_START_DATE_FILTERING settings))
              then
                now0 <- utcnow ;;
                ret (<["enrollment_start" :=
                         PRange (mkDateRange None (Some now0))]> merged)
              else ret merged) w = (Ok ufd, w1) /\
             calls w1 = calls w /\
             ufd !! "start" = merged !! "start" /\
             ufd !! "status" = merged !! "status").
  { destruct (negb _).
    - eexists _, _. split; [reflexivity |]. split; [reflexivity |].
      split; rewrite lookup_insert_ne by discriminate; reflexivity.
    - exists merged, w. auto. }
  destruct Hstep1 as (ufd & w1 & H1 & Hc1 & Hst & Hsu).
  rewrite (bind_ok _ _ _ _ _ H1), Hengine.
  assert (Hstep2 : exists w2,
             (if default false (kw_allow_enrollment_end_filter kwargs) then
                now0 <- utcnow ;;
                ret (<["enrollment_end" :=
                         _format_filter (PRange (mkDateRange (Some now0) None))
                           true]> ∅)
              else ret ∅) w1 = (Ok enrollment_end, w2) /\
             calls w2 = calls w1).
  { subst enrollment_end.
    destruct (default false (kw_allow_enrollment_end_filter kwargs)).
    - exists (mkWorld (S (tick w1)) (calls w1)).
      unfold bind, utcnow, ret, _format_filter. simpl.
      rewrite frozen, insert_empty. split; reflexivity.
    - exists w1. split; reflexivity. }
  destruct Hstep2 as (w2 & H2 & Hc2).
  rewrite (bind_ok _ _ _ _ _ H2).
  destruct (start_filter_frozen (default PNone (ufd !! "start")) enrollment_end w2)
    as (w3 & H3 & Hc3).
  rewrite (bind_ok _ _ _ _ _ H3).
  destruct (status_filter_frozen
              (default PNone (delete "start" ufd !! "status"))
              (spec_start_filters now (default PNone (ufd !! "start"))
                 ∪ enrollment_end) w3)
    as (w4 & H4 & Hc4).
  rewrite (bind_ok _ _ _ _ _ H4).
  eexists. split; [| split; [| split]].
  - unfold bind, call_search.
    destruct (search searcher _) as [results | e]; simpl.
    + rewrite quiet_process_range_data. simpl.
      rewrite Hc4, Hc3, Hc2, Hc1. reflexivity.
    + rewrite Hc4, Hc3, Hc2, Hc1. reflexivity.
  - simpl. destruct (default false (ALLOW_CATALOG_VISIBILITY_FILTER settings)).
    + rewrite lookup_insert_ne by discriminate.
      rewrite lookup_delete_ne by discriminate. apply lookup_delete_eq.
    + rewrite lookup_delete_ne by discriminate. apply lookup_delete_eq.
  - simpl. destruct (default false (ALLOW_CATALOG_VISIBILITY_FILTER settings)).
    + rewrite lookup_insert_ne by discriminate. apply lookup_delete_eq.
    + apply lookup_delete_eq.
  - simpl. rewrite lookup_delete_ne by discriminate.
    subst start status. now rewrite Hst, Hsu.
Qed.

Lemma start_bucket_boundaries :
  start_bucket now (now - timedelta_days 30) = "new" /\
  start_bucket now now = "new" /\
  start_bucket now (now + timedelta_days 30) = "future".
Proof.
  unfold start_bucket, timedelta_days.
  repeat split;
    repeat match goal with
      | |- context [?a <? ?b] => destruct (Z.ltb_spec a b); try lia
      | |- context [?a <=? ?b] => destruct (Z.leb_spec a b); try lia
      end; reflexivity.
Qed.

(** C7.  For each symbolic start bucket, the [start] filter that
    [course_discovery_search] generates for it (under a clock standing at
    [now]) holds a date range such that every timestamp strictly inside the
    range is classified back to that bucket by the classifier of the start
    pass.  At the bounds themselves the classifier follows its inclusive and
    exclusive comparisons: [now - 30d] and [now] are [new], [now + 30d] is
    [future]. *)
Theorem start_bucket_round_trip (bucket : string) :
  In bucket ["current"; "new"; "soon"; "future"] ->
  (exists range : DateRange,
      (forall w,
          fst (start_filter (PStr bucket) ∅ w)
          = Ok {[ "start" := mkFormattedFilter (PRange range) true ]}) /\
      (forall t, strictly_inside t range -> start_bucket now t = bucket)) /\
  start_bucket now (now - timedelta_days 30) = "new" /\
  start_bucket now now = "new" /\
  start_bucket now (now + timedelta_days 30) = "future".
Proof.
  intros Hin. split; [| exact start_bucket_boundaries].
  assert (Hback : forall t range,
             spec_start_range now (PStr bucket) = Some range ->
             strictly_inside t range -> start_bucket now t = bucket).
  { intros t range Hrange [Hlo Hhi].
    apply (start_window_unique now t); [apply start_bucket_window |].
    unfold spec_start_window. unfold spec_start_range in Hrange.
    simpl in Hin.
    destruct Hin as [<- | [<- | [<- | [<- | []]]]]; simpl in Hrange;
      inversion Hrange; subst range; simpl in Hlo, Hhi.
    - left. split; [reflexivity | lia].
    - right; left. split; [reflexivity | lia].
    - right; right; left. split; [reflexivity | lia].
    - right; right; right. split; [reflexivity | lia]. }
  assert (Hgen : exists range, spec_start_range now (PStr bucket) = Some range).
  { simpl in Hin. unfold spec_start_range.
    destruct Hin as [<- | [<- | [<- | [<- | []]]]]; simpl; eauto. }
  destruct Hgen as (range & Hrange). exists range. split.
  - intros w. destruct (start_filter_frozen (PStr bucket) ∅ w) as (w' & Hrun & _).
    rewrite Hrun. simpl. unfold spec_start_filters. rewrite Hrange.
    now rewrite (right_id_L ∅ (∪)).
  - intros t. apply Hback, Hrange.
Qed.

End Frozen.

(** ** Further properties of api.py *)

(** The proofs below depend on the collaborators their statements name. *)
Set Default Proof Using "Type*".

(** *** The bucket counts of [process_range_data] *)

Lemma sum_values_bump (k : string) (n : Z) (d : defaultdict) :
  sum_values (bump k n d) = sum_values d + n.
Proof.
  unfold sum_values. induction d as [| [k' m] d IH]; simpl.
  - lia.
  - destruct (String.eqb k' k); simpl; lia.
Qed.

Lemma bump_keys_elem (x k : string) (n : Z) (d : defaultdict) :
  x ∈ map fst (bump k n d) <-> x = k \/ x ∈ map fst d.
Proof.
  induction d as [| [k' m] d IH]; simpl.
  - rewrite list_elem_of_singleton. split; [auto |].
    intros [H | H]; [exact H | inversion H].
  - destruct (String.eqb_spec k' k) as [-> | Hne]; simpl.
    + rewrite elem_of_cons. split.
      * intros [H | H]; [left | right; right]; exact H.
      * intros [H | [H | H]]; [left | left | right]; exact H.
    + rewrite !elem_of_cons, IH. split.
      * intros [H | [H | H]];
          [right; left | left | right; right]; exact H.
      * intros [H | [H | H]];
          [right; left | left | right; right]; exact H.
Qed.

Lemma bump_keys_NoDup (k : string) (n : Z) (d : defaultdict) :
  NoDup (map fst d) -> NoDup (map fst (bump k n d)).
Proof.
  induction d as [| [k' m] d IH]; simpl; intros Hd.
  - apply NoDup_singleton.
  - destruct (String.eqb_spec k' k) as [-> | Hne]; simpl; [exact Hd |].
    apply NoDup_cons in Hd as [Hnotin Hd]. apply NoDup_cons. split.
    + rewrite bump_keys_elem. intros [-> | Hin]; [now apply Hne | contradiction].
    + exact (IH Hd).
Qed.

Lemma bump_keys_Forall (P : string -> Prop) (k : string) (n : Z)
    (d : defaultdict) :
  P k -> Forall P (map fst d) -> Forall P (map fst (bump k n d)).
Proof.
  intros Hk Hd. apply Forall_forall. intros x Hx.
  apply bump_keys_elem in Hx as [-> | Hx]; [exact Hk |].
  rewrite Forall_forall in Hd. now apply Hd.
Qed.

Lemma start_bucket_label (now t : datetime) : start_bucket now t ∈ start_labels.
Proof.
  unfold start_bucket, start_labels.
  repeat match goal with
    | |- context [if ?b then _ else _] => destruct b
    end; set_solver.
Qed.

(** One iteration of the start loop that does not raise. *)
Lemma start_terms_step_ok (key value : pyval) (acc acc' : defaultdict)
    (w w' : world) :
  start_terms_step (key, value) acc w = (Ok acc', w') ->
  calls w' = calls w /\
  ((Py.is_stringlike key = false /\ acc' = acc /\ w' = w) \/
   (Py.is_stringlike key = true /\
    exists n bucket,
      Py.as_int value = Some n /\ bucket ∈ start_labels /\
      acc' = bump bucket n acc /\ tick w' = S (tick w))).
Proof.
  unfold start_terms_step.
  destruct (Py.is_stringlike key) eqn:Hkey; simpl.
  - unfold bind, dateutil_parse. destruct key; try discriminate.
    destruct (parse s) as [t |]; simpl; [| discriminate].
    unfold lift, bump_val. destruct (Py.as_int value) as [n |]; [| discriminate].
    intros [= <- <-]. split; [reflexivity |]. right. split; [reflexivity |].
    exists n, (start_bucket (clock (tick w)) t).
    split; [reflexivity |]. split; [apply start_bucket_label |]. auto.
  - intros [= <- <-]. split; [reflexivity |]. left. auto.
Qed.

(** What the start loop keeps: the sum of the counts grows by the raw counts
    of the string keys, the labels stay among the four start labels and
    distinct, no engine call is made. *)
Lemma start_loop_invariant (items : list (pyval * pyval))
    (acc terms : defaultdict) (w w' : world) :
  for_each start_terms_step items acc w = (Ok terms, w') ->
  sum_values terms = sum_values acc + raw_count_sum items /\
  (Forall (fun b => b ∈ start_labels) (map fst acc) ->
   Forall (fun b => b ∈ start_labels) (map fst terms)) /\
  (NoDup (map fst acc) -> NoDup (map fst terms)) /\
  (Exists (fun item => Py.is_stringlike (fst item) = true) items -> terms <> []) /\
  calls w' = calls w.
Proof.
  revert acc w. induction items as [| [key value] items IH]; intros acc w Hrun.
  - simpl in Hrun. inversion Hrun; subst. simpl.
    repeat split; auto; try lia. intros H. inversion H.
  - cbn [for_each] in Hrun. unfold bind in Hrun.
    destruct (start_terms_step (key, value) acc w) as [[acc1 | e] w1] eqn:Hstep;
      [| discriminate].
    destruct (start_terms_step_ok _ _ _ _ _ _ Hstep) as (Hcalls & Hcase).
    destruct (IH _ _ Hrun) as (Hsum & Hlab & Hnd & Hne & Hc).
    assert (Hgrow : forall acc0 : defaultdict, acc0 <> [] ->
               forall its w0 terms0 w0',
                 for_each start_terms_step its acc0 w0 = (Ok terms0, w0') ->
                 terms0 <> []).
    { intros acc0 Hacc0 its. revert acc0 Hacc0.
      induction its as [| [k v] its IHits]; intros acc0 Hacc0 w0 terms0 w0' H0.
      - simpl in H0. inversion H0; subst. exact Hacc0.
      - cbn [for_each] in H0. unfold bind in H0.
        destruct (start_terms_step (k, v) acc0 w0) as [[acc2 | e] w2] eqn:Hs;
          [| discriminate].
        apply (IHits acc2) in H0; [exact H0 |].
        destruct (start_terms_step_ok _ _ _ _ _ _ Hs)
          as (_ & [(_ & -> & _) | (_ & n & b & _ & _ & -> & _)]);
          [exact Hacc0 |].
        destruct acc0 as [| [k0 m0] acc0]; simpl; [discriminate |].
        destruct (String.eqb k0 b); discriminate. }
    destruct Hcase as [(Hkey & -> & ->) | (Hkey & n & b & Hn & Hb & -> & Htick)].
    + simpl. rewrite Hkey. repeat split; auto; try lia.
      intros Hex. apply Hne. inversion Hex; subst; [| assumption].
      simpl in *. congruence.
    + simpl. rewrite Hkey, Hn. simpl. rewrite sum_values_bump in Hsum.
      repeat split.
      * lia.
      * intros Hacc. apply Hlab. now apply bump_keys_Forall.
      * intros Hacc. apply Hnd. now apply bump_keys_NoDup.
      * intros _. apply (Hgrow (bump b n acc)) in Hrun; [exact Hrun |].
        destruct acc as [| [k0 m0] acc]; simpl; [discriminate |].
        destruct (String.eqb k0 b); discriminate.
      * congruence.
Qed.

(** The start loop returns when every term is countable. *)
Lemma start_loop_total (items : list (pyval * pyval)) (acc : defaultdict)
    (w : world) :
  Forall countable_term items ->
  exists terms w', for_each start_terms_step items acc w = (Ok terms, w').
Proof.
  intros Hitems. revert acc w.
  induction Hitems as [| [key value] items Hitem _ IH]; intros acc w.
  - simpl. eauto.
  - cbn [for_each]. unfold bind, start_terms_step.
    destruct (Py.is_stringlike key) eqn:Hkey; simpl.
    + destruct (Hitem Hkey) as ((s & t & Hs & Hp) & (n & Hn)). simpl in Hs, Hn.
      subst key. unfold bind, dateutil_parse. rewrite Hp. simpl.
      unfold lift, bump_val. rewrite Hn. apply IH.
    + apply IH.
Qed.

(** *** Paths into the envelope *)

Lemma setpath_dict (path : list string) (last : string) (v o : pyval)
    (d : list (pyval * pyval)) :
  Py.getpath o path = Ok (PDict d) ->
  exists o',
    Py.setpath o path last v = Ok o' /\
    Py.getpath o' path = Ok (PDict (Py.store last v d)).
Proof.
  revert o. induction path as [| k path IH]; intros o H; simpl in *.
  - inversion H; subst. eauto.
  - destruct o; try discriminate. simpl in *.
    destruct (Py.lookup k d0) as [child |] eqn:Hk; [| discriminate]. simpl in *.
    destruct (IH _ H) as (child' & Hset & Hget). rewrite Hset. simpl.
    eexists. split; [reflexivity |]. simpl. rewrite lookup_store_eq. exact Hget.
Qed.

Lemma getpath_setpath_other (pre : list string) (k k' : string)
    (rest q : list string) (last : string) (v o o' : pyval) :
  k <> k' ->
  Py.setpath o (pre ++ k :: rest) last v = Ok o' ->
  Py.getpath o' (pre ++ k' :: q) = Py.getpath o (pre ++ k' :: q).
Proof.
  intros Hne. revert o o'. induction pre as [| p pre IH]; intros o o' H;
    simpl in *.
  - destruct o; try discriminate. simpl in H.
    destruct (Py.lookup k d) as [child |]; [| discriminate]. simpl in H.
    destruct (Py.setpath child rest last v) as [child' |]; [| discriminate].
    simpl in H. inversion H; subst. simpl.
    now rewrite (lookup_store_ne _ _ _ _ Hne).
  - destruct o; try discriminate. simpl in H.
    destruct (Py.lookup p d) as [child |] eqn:Hp; [| discriminate]. simpl in H.
    destruct (Py.setpath child (pre ++ k :: rest) last v) as [child' |] eqn:Hc;
      [| discriminate].
    simpl in H. inversion H; subst. simpl.
    rewrite lookup_store_eq, Hp. simpl. exact (IH _ _ Hc).
Qed.

Lemma getpath_setpath_sibling (path : list string) (last last' : string)
    (q : list string) (v o o' : pyval) :
  last <> last' ->
  Py.setpath o path last v = Ok o' ->
  Py.getpath o' (path ++ last' :: q) = Py.getpath o (path ++ last' :: q).
Proof.
  intros Hne. revert o o'. induction path as [| p path IH]; intros o o' H;
    simpl in *.
  - destruct o; try discriminate. inversion H; subst. simpl.
    now rewrite (lookup_store_ne _ _ _ _ Hne).
  - destruct o; try discriminate. simpl in H.
    destruct (Py.lookup p d) as [child |] eqn:Hp; [| discriminate]. simpl in H.
    destruct (Py.setpath child path last v) as [child' |] eqn:Hc;
      [| discriminate].
    simpl in H. inversion H; subst. simpl.
    rewrite lookup_store_eq, Hp. simpl. exact (IH _ _ Hc).
Qed.

(** [a.get(k1, {}).get(k2, {}).get(k3, {})] reads what [a[k1][k2][k3]] does
    when the three keys are there. *)
Lemma get_chain_getpath (o x : pyval) (k1 k2 k3 : string) :
  Py.getpath o [k1; k2; k3] = Ok x ->
  exists o1 o2,
    Py.get o k1 (PDict []) = Ok o1 /\
    Py.get o1 k2 (PDict []) = Ok o2 /\
    Py.get o2 k3 (PDict []) = Ok x /\
    Py.getpath o [k1; k2] = Ok o2 /\
    Py.getitem o2 k3 = Ok x.
Proof.
  simpl. unfold res_bind. intros H.
  destruct (Py.getitem o k1) as [o1 |] eqn:H1; [| discriminate].
  destruct (Py.getitem o1 k2) as [o2 |] eqn:H2; [| discriminate].
  destruct (Py.getitem o2 k3) as [x' |] eqn:H3; [| discriminate].
  inversion H; subst x'. exists o1, o2.
  repeat split; auto using get_getitem.
Qed.

Lemma getitem_dict (o v : pyval) (k : string) :
  Py.getitem o k = Ok v -> exists d, o = PDict d.
Proof. destruct o; simpl; try discriminate. eauto. Qed.

(** What [store_facet] writes, and what it leaves. *)
Lemma store_facet_written (results results' : pyval) (facet : string)
    (terms : defaultdict) :
  store_facet results facet terms = Ok results' ->
  Py.getpath results' ["facets"; facet; "terms"] = Ok (to_pydict terms) /\
  Py.getpath results' ["facets"; facet; "total"] = Ok (PInt (sum_values terms)).
Proof.
  unfold store_facet, res_bind. intros H.
  destruct (Py.setpath results ["facets"; facet] "terms" (to_pydict terms))
    as [results1 |] eqn:H1; [| discriminate].
  split.
  - change ["facets"; facet; "terms"] with (["facets"; facet] ++ ["terms"])%list.
    rewrite (getpath_setpath_ne _ "total" "terms" _ _ _ ltac:(discriminate) H).
    exact (getpath_setpath_eq _ _ _ _ _ H1).
  - change ["facets"; facet; "total"] with (["facets"; facet] ++ ["total"])%list.
    exact (getpath_setpath_eq _ _ _ _ _ H).
Qed.

Lemma store_facet_dict (results : pyval) (facet : string) (terms : defaultdict)
    (d : list (pyval * pyval)) :
  Py.getpath results ["facets"; facet] = Ok (PDict d) ->
  exists results', store_facet results facet terms = Ok results'.
Proof.
  intros H. unfold store_facet.
  destruct (setpath_dict _ "terms" (to_pydict terms) _ _ H) as (r1 & Hset & Hget).
  rewrite Hset. simpl.
  destruct (setpath_dict _ "total" (PInt (sum_values terms)) _ _ Hget)
    as (r2 & Hset2 & _).
  eauto.
Qed.

Lemma store_facet_frame (results results' : pyval) (facet : string)
    (terms : defaultdict) :
  store_facet results facet terms = Ok results' ->
  (forall k q, k <> "facets" ->
     Py.getpath results' (k :: q) = Py.getpath results (k :: q)) /\
  (forall f q, f <> facet ->
     Py.getpath results' ("facets" :: f :: q)
     = Py.getpath results ("facets" :: f :: q)) /\
  (forall k q, k <> "terms" -> k <> "total" ->
     Py.getpath results' ("facets" :: facet :: k :: q)
     = Py.getpath results ("facets" :: facet :: k :: q)).
Proof.
  unfold store_facet, res_bind. intros H.
  destruct (Py.setpath results ["facets"; facet] "terms" (to_pydict terms))
    as [results1 |] eqn:H1; [| discriminate].
  split; [| split].
  - intros k q Hk.
    pose proof (getpath_setpath_other [] "facets" k [facet] q _ _ _ _
                  ltac:(congruence) H) as E2.
    pose proof (getpath_setpath_other [] "facets" k [facet] q _ _ _ _
                  ltac:(congruence) H1) as E1.
    cbn [app] in E1, E2. now rewrite E2.
  - intros f q Hf.
    pose proof (getpath_setpath_other ["facets"] facet f [] q _ _ _ _
                  ltac:(congruence) H) as E2.
    pose proof (getpath_setpath_other ["facets"] facet f [] q _ _ _ _
                  ltac:(congruence) H1) as E1.
    cbn [app] in E1, E2. now rewrite E2.
  - intros k q Hterms Htotal.
    pose proof (getpath_setpath_sibling ["facets"; facet] "total" k q _ _ _
                  ltac:(congruence) H) as E2.
    pose proof (getpath_setpath_sibling ["facets"; facet] "terms" k q _ _ _
                  ltac:(congruence) H1) as E1.
    cbn [app] in E1, E2. now rewrite E2.
Qed.

(** A run of the start pass that reclassifies and returns. *)
Lemma start_pass_inv (results results' start_terms : pyval) (w w' : world) :
  "start" ∈ course_discovery_filter_fields ->
  Py.getpath results ["facets"; "start"; "terms"] = Ok start_terms ->
  Py.truthy start_terms = true ->
  process_range_data results w = (Ok results', w') ->
  exists items terms,
    start_terms = PDict items /\
    for_each start_terms_step items [] w = (Ok terms, w') /\
    store_facet results "start" terms = Ok results'.
Proof.
  intros Hstart Hpath Htruthy Hrun.
  destruct (get_chain_getpath _ _ _ _ _ Hpath) as (o1 & o2 & H1 & H2 & H3 & _).
  unfold process_range_data in Hrun.
  rewrite (bool_decide_eq_true_2 _ Hstart) in Hrun.
  rewrite (bind_lift_ok _ _ _ _ H1), (bind_lift_ok _ _ _ _ H2) in Hrun.
  rewrite (bind_lift_ok _ _ _ _ H3), Htruthy in Hrun.
  unfold bind, lift in Hrun.
  destruct start_terms; simpl in Hrun; try discriminate.
  destruct (for_each start_terms_step d [] w) as [[terms | e] w1] eqn:Hloop;
    [| discriminate].
  inversion Hrun as [[Hstore Hw]]; subst w1.
  exists d, terms. auto.
Qed.

(** *** The start pass *)

(** X1.  The start pass conserves counts.  When [start] is configured and
    the raw [start] facet has a non-empty terms mapping in which every
    string key parses and carries a numeric count, [process_range_data]
    returns, and the total it records is the sum of the raw counts of the
    string keys (the terms with another key are left out); no engine call is
    made. *)
Theorem start_pass_conserves_counts (results : pyval)
    (items : list (pyval * pyval)) (w : world) :
  "start" ∈ course_discovery_filter_fields ->
  Py.getpath results ["facets"; "start"; "terms"] = Ok (PDict items) ->
  items <> [] ->
  Forall countable_term items ->
  exists results' w',
    process_range_data results w = (Ok results', w') /\
    Py.getpath results' ["facets"; "start"; "total"]
    = Ok (PInt (raw_count_sum items)) /\
    calls w' = calls w.
Proof.
  intros Hstart Hpath Hne Hitems.
  destruct (get_chain_getpath _ _ _ _ _ Hpath)
    as (o1 & o2 & H1 & H2 & H3 & Hfacet & Hterms).
  destruct (getitem_dict _ _ _ Hterms) as (d2 & ->).
  destruct (start_loop_total items [] w Hitems) as (terms & w' & Hloop).
  destruct (store_facet_dict results "start" terms _ Hfacet) as (results' & Hstore).
  exists results', w'.
  destruct (start_loop_invariant _ _ _ _ _ Hloop) as (Hsum & _ & _ & _ & Hcalls).
  split; [| split; [| exact Hcalls]].
  - unfold process_range_data. rewrite (bool_decide_eq_true_2 _ Hstart).
    rewrite (bind_lift_ok _ _ _ _ H1), (bind_lift_ok _ _ _ _ H2).
    rewrite (bind_lift_ok _ _ _ _ H3).
    destruct items as [| item items]; [contradiction |].
    cbn [Py.truthy Py.items]. rewrite (bind_lift_ok _ _ _ _ eq_refl).
    rewrite (bind_ok _ _ _ _ _ Hloop). unfold lift. now rewrite Hstore.
  - destruct (store_facet_written _ _ _ _ Hstore) as (_ & Htotal).
    rewrite Htotal, Hsum. reflexivity.
Qed.

(** X2.  The start pass counts under the four start labels only.  When
    [process_range_data] returns after reclassifying the [start] facet, the
    terms it has stored are a mapping from labels among [current], [new],
    [soon], [future] to integers, no label occurring twice. *)
Theorem start_pass_labels (results results' start_terms : pyval)
    (w w' : world) :
  "start" ∈ course_discovery_filter_fields ->
  Py.getpath results ["facets"; "start"; "terms"] = Ok start_terms ->
  Py.truthy start_terms = true ->
  process_range_data results w = (Ok results', w') ->
  exists terms : defaultdict,
    Py.getpath results' ["facets"; "start"; "terms"] = Ok (to_pydict terms) /\
    Forall (fun label => label ∈ start_labels) (map fst terms) /\
    NoDup (map fst terms).
Proof.
  intros Hstart Hpath Htruthy Hrun.
  destruct (start_pass_inv _ _ _ _ _ Hstart Hpath Htruthy Hrun)
    as (items & terms & _ & Hloop & Hstore).
  exists terms.
  destruct (start_loop_invariant _ _ _ _ _ Hloop) as (_ & Hlab & Hnd & _).
  destruct (store_facet_written _ _ _ _ Hstore) as (Hterms & _).
  split; [exact Hterms |]. split.
  - apply Hlab. constructor.
  - apply Hnd. constructor.
Qed.

(** X3.  The start pass is not idempotent.  When the parser rejects the four
    bucket labels with a [ValueError], a second run of [process_range_data]
    on the envelope a first run returned (after counting at least one string
    key) does not return: it raises that [ValueError], before reading the
    clock. *)
Theorem second_start_pass_raises (results results' : pyval)
    (items : list (pyval * pyval)) (w w' : world) :
  "start" ∈ course_discovery_filter_fields ->
  (forall label, label ∈ start_labels -> parse label = Raise ValueError) ->
  Py.getpath results ["facets"; "start"; "terms"] = Ok (PDict items) ->
  Exists (fun item => Py.is_stringlike (fst item) = true) items ->
  process_range_data results w = (Ok results', w') ->
  forall w2, process_range_data results' w2 = (Raise ValueError, w2).
Proof.
  intros Hstart Hreject Hpath Hex Hrun w2.
  assert (Htruthy : Py.truthy (PDict items) = true)
    by (destruct items; [inversion Hex | reflexivity]).
  destruct (start_pass_inv _ _ _ _ _ Hstart Hpath Htruthy Hrun)
    as (items' & terms & Heq & Hloop & Hstore).
  inversion Heq; subst items'.
  destruct (start_loop_invariant _ _ _ _ _ Hloop) as (_ & Hlab & _ & Hne & _).
  specialize (Hlab ltac:(constructor)). specialize (Hne Hex).
  destruct (store_facet_written _ _ _ _ Hstore) as (Hterms & _).
  destruct (get_chain_getpath _ _ _ _ _ Hterms) as (o1 & o2 & H1 & H2 & H3 & _).
  unfold process_range_data. rewrite (bool_decide_eq_true_2 _ Hstart).
  rewrite (bind_lift_ok _ _ _ _ H1), (bind_lift_ok _ _ _ _ H2).
  rewrite (bind_lift_ok _ _ _ _ H3).
  destruct terms as [| [label n] terms]; [contradiction |].
  cbn [to_pydict map Py.truthy Py.items fst snd].
  rewrite (bind_lift_ok _ _ _ _ eq_refl).
  cbn [for_each]. unfold bind.
  rewrite (start_terms_step_rejected label ValueError); [reflexivity |].
  apply Hreject. simpl in Hlab. now inversion Hlab.
Qed.

(** *** What [process_range_data] leaves alone *)

(** X4.  [process_range_data] changes nothing but the terms and the total of
    the facet it reclassifies ([start] when it is configured, else
    [status]): in the envelope it returns, every top-level entry other than
    [facets] (the result items among them), every other facet, and every
    other entry of the reclassified facet read as they did before; no engine
    call is made. *)
Theorem process_range_data_frame (results results' : pyval) (w w' : world) :
  process_range_data results w = (Ok results', w') ->
  let facet :=
    if bool_decide ("start" ∈ course_discovery_filter_fields) then "start"
    else "status" in
  (forall k q, k <> "facets" ->
     Py.getpath results' (k :: q) = Py.getpath results (k :: q)) /\
  (forall f q, f <> facet ->
     Py.getpath results' ("facets" :: f :: q)
     = Py.getpath results ("facets" :: f :: q)) /\
  (forall k q, k <> "terms" -> k <> "total" ->
     Py.getpath results' ("facets" :: facet :: k :: q)
     = Py.getpath results ("facets" :: facet :: k :: q)) /\
  calls w' = calls w.
Proof.
  intros Hrun facet.
  assert (Hcalls : calls w' = calls w).
  { pose proof (quiet_process_range_data results w) as Hq.
    now rewrite Hrun in Hq. }
  assert (Hcase : results' = results \/
                  exists terms, store_facet results facet terms = Ok results').
  { subst facet. unfold process_range_data in Hrun.
    destruct (bool_decide ("start" ∈ course_discovery_filter_fields)).
    - unfold bind, lift in Hrun.
      destruct (Py.get results "facets" (PDict [])) as [o1 |]; [| discriminate].
      destruct (Py.get o1 "start" (PDict [])) as [o2 |]; [| discriminate].
      destruct (Py.get o2 "terms" (PDict [])) as [o3 |]; [| discriminate].
      destruct (Py.truthy o3).
      + destruct (Py.items o3) as [items |]; [| discriminate].
        destruct (for_each start_terms_step items [] w) as [[terms | e] w1];
          [| discriminate].
        inversion Hrun. eauto.
      + inversion Hrun. auto.
    - destruct (bool_decide ("status" ∈ course_discovery_filter_fields)).
      + unfold bind, lift in Hrun.
        destruct (Py.get results "results" (PList [])) as [o1 |];
          [| discriminate].
        destruct (Py.iter o1) as [courses |]; [| discriminate].
        destruct (for_each status_step courses [] w) as [[terms | e] w1];
          [| discriminate].
        inversion Hrun. eauto.
      + inversion Hrun. auto. }
  destruct Hcase as [-> | (terms & Hstore)].
  - repeat split; auto.
  - destruct (store_facet_frame _ _ _ _ Hstore) as (Htop & Hfacet & Hentry).
    repeat split; auto.
Qed.

(** *** The status pass *)

Lemma parsed_not_after_world (term : pyval) (now : datetime) (w w' : world)
    (r : res bool) :
  parsed_not_after term now w = (r, w') -> w' = w.
Proof.
  unfold parsed_not_after, bind, dateutil_parse, ret, raise.
  destruct (Py.truthy term); [| now intros [= _ <-]].
  destruct term; try (now intros [= _ <-]).
  destruct (parse s); now intros [= _ <-].
Qed.

(** One iteration of the status loop that does not raise: the clock is read
    once, and the item is skipped or counted once under a status label. *)
Lemma status_step_ok (course : pyval) (acc acc' : defaultdict) (w w' : world) :
  status_step course acc w = (Ok acc', w') ->
  w' = mkWorld (S (tick w)) (calls w) /\
  (acc' = acc \/ exists label, label ∈ status_labels /\ acc' = bump label 1 acc).
Proof.
  unfold status_step, bind at 1 2 3 4 5, lift, utcnow. intros H.
  destruct (Py.get course "data" (PDict [])) as [data |]; [| discriminate].
  destruct (Py.get data "start" PNone) as [start_term |]; [| discriminate].
  destruct (Py.get data "end" PNone) as [end_term |]; [| discriminate].
  assert (Hlabels : forall label, In label ["past"; "current"; "future"] ->
                                  label ∈ status_labels)
    by (intros label Hin; apply list_elem_of_In; exact Hin).
  destruct (negb (Py.is_stringlike start_term)).
  { inversion H. auto. }
  unfold bind in H.
  destruct (parsed_not_after start_term _ _) as [[started | e] w1] eqn:Hstarted;
    [| discriminate].
  apply parsed_not_after_world in Hstarted as ->.
  destruct started.
  - destruct (negb (Py.is_stringlike end_term)).
    { inversion H. auto. }
    destruct (parsed_not_after end_term _ _) as [[ended | e] w2] eqn:Hended;
      [| discriminate].
    apply parsed_not_after_world in Hended as ->.
    destruct ended; inversion H; (split; [reflexivity |]); right;
      eexists; (split; [| reflexivity]); apply Hlabels; simpl; auto.
  - inversion H. split; [reflexivity |]. right.
    eexists; (split; [| reflexivity]); apply Hlabels; simpl; auto.
Qed.

Lemma status_loop_invariant (courses : list pyval) (acc terms : defaultdict)
    (w w' : world) :
  for_each status_step courses acc w = (Ok terms, w') ->
  sum_values acc <= sum_values terms <= sum_values acc + Z.of_nat (length courses) /\
  (Forall (fun b => b ∈ status_labels) (map fst acc) ->
   Forall (fun b => b ∈ status_labels) (map fst terms)) /\
  (NoDup (map fst acc) -> NoDup (map fst terms)) /\
  tick w' = (tick w + length courses)%nat /\
  calls w' = calls w.
Proof.
  revert acc w. induction courses as [| course courses IH]; intros acc w Hrun.
  - simpl in Hrun. inversion Hrun; subst. simpl.
    repeat split; auto; lia.
  - cbn [for_each] in Hrun. unfold bind in Hrun.
    destruct (status_step course acc w) as [[acc1 | e] w1] eqn:Hstep;
      [| discriminate].
    destruct (status_step_ok _ _ _ _ _ Hstep) as (-> & Hcase).
    destruct (IH _ _ Hrun) as (Hsum & Hlab & Hnd & Htick & Hcalls).
    simpl in Htick, Hcalls. cbn [length].
    destruct Hcase as [-> | (label & Hlabel & ->)].
    + repeat split; auto; lia.
    + rewrite sum_values_bump in Hsum. repeat split.
      * lia.
      * lia.
      * intros Hacc. apply Hlab. now apply bump_keys_Forall.
      * intros Hacc. apply Hnd. now apply bump_keys_NoDup.
      * lia.
      * exact Hcalls.
Qed.

(** X5.  The status pass counts each result item at most once.  When
    [status] is configured, [start] is not, and the envelope holds a list of
    result items, a run of [process_range_data] that returns has stored, for
    the [status] facet, a mapping from distinct labels among [past],
    [current], [future] to integers, and a total between 0 and the number of
    result items; it has read the clock once per item and made no engine
    call. *)
Theorem status_pass_counts (results results' : pyval) (courses : list pyval)
    (w w' : world) :
  "start" ∉ course_discovery_filter_fields ->
  "status" ∈ course_discovery_filter_fields ->
  Py.getitem results "results" = Ok (PList courses) ->
  process_range_data results w = (Ok results', w') ->
  exists (terms : defaultdict) (total : Z),
    Py.getpath results' ["facets"; "status"; "terms"] = Ok (to_pydict terms) /\
    Forall (fun label => label ∈ status_labels) (map fst terms) /\
    NoDup (map fst terms) /\
    Py.getpath results' ["facets"; "status"; "total"] = Ok (PInt total) /\
    0 <= total <= Z.of_nat (length courses) /\
    tick w' = (tick w + length courses)%nat /\
    calls w' = calls w.
Proof.
  intros Hstart Hstatus Hresults Hrun.
  unfold process_range_data in Hrun.
  rewrite (bool_decide_eq_false_2 _ Hstart) in Hrun.
  rewrite (bool_decide_eq_true_2 _ Hstatus) in Hrun.
  rewrite (bind_lift_ok _ _ _ _ (get_getitem _ _ _ _ Hresults)) in Hrun.
  cbn [Py.iter] in Hrun. rewrite (bind_lift_ok _ _ _ _ eq_refl) in Hrun.
  unfold bind, lift in Hrun.
  destruct (for_each status_step courses [] w) as [[terms | e] w1] eqn:Hloop;
    [| discriminate].
  inversion Hrun as [[Hstore Hw]]; subst w1.
  destruct (status_loop_invariant _ _ _ _ _ Hloop)
    as (Hsum & Hlab & Hnd & Htick & Hcalls).
  destruct (store_facet_written _ _ _ _ Hstore) as (Hterms & Htotal).
  exists terms, (sum_values terms).
  split; [exact Hterms |]. split; [apply Hlab; constructor |].
  split; [apply Hnd; constructor |]. split; [exact Htotal |].
  split; [exact Hsum |]. split; [exact Htick | exact Hcalls].
Qed.

(** One iteration of the status loop on a classifiable item returns. *)
Lemma status_step_total (course : pyval) (acc : defaultdict) (w : world) :
  classifiable_item course ->
  exists acc', status_step course acc w = (Ok acc', mkWorld (S (tick w)) (calls w)).
Proof.
  intros (start_term & end_term & Hfields & Hstart & Hend).
  rewrite (status_step_fields _ _ _ _ _ Hfields).
  assert (Hread : forall term w0,
             readable_timestamp term -> Py.is_stringlike term = true ->
             exists b, parsed_not_after term (clock (tick w)) w0 = (Ok b, w0)).
  { intros term w0 Hterm Hstr. destruct term; try discriminate.
    destruct (String.eqb_spec s "") as [-> | Hne].
    - exists false. apply parsed_not_after_empty.
    - destruct (Hterm s eq_refl Hne) as (t & Ht).
      eexists. exact (parsed_not_after_parsed _ _ _ _ Hne Ht). }
  destruct (Py.is_stringlike start_term) eqn:Hs; simpl; [| eauto].
  destruct (Hread start_term (mkWorld (S (tick w)) (calls w)) Hstart Hs)
    as (started & Hstarted).
  unfold bind at 1. rewrite Hstarted. destruct started; [| eauto].
  destruct (Py.is_stringlike end_term) eqn:He; simpl; [| eauto].
  destruct (Hread end_term (mkWorld (S (tick w)) (calls w)) Hend He)
    as (ended & Hended).
  unfold bind. rewrite Hended. destruct ended; eauto.
Qed.

Lemma status_loop_total (courses : list pyval) (acc : defaultdict) (w : world) :
  Forall classifiable_item courses ->
  exists terms w', for_each status_step courses acc w = (Ok terms, w').
Proof.
  intros Hcourses. revert acc w.
  induction Hcourses as [| course courses Hcourse _ IH]; intros acc w.
  - simpl. eauto.
  - cbn [for_each]. unfold bind.
    destruct (status_step_total course acc w Hcourse) as (acc' & Hstep).
    rewrite Hstep. apply IH.
Qed.

(** X18.  When the status pass returns.  With [status] configured and
    [start] not, an envelope that has a [status] facet and whose result
    items (none, when there is no [results] entry) all have fields the loop
    can read is reclassified: [process_range_data] returns, and the total it
    records lies between 0 and the number of result items; without result
    items the total is 0. *)
Theorem status_pass_returns (results : pyval) (courses : list pyval)
    (d : list (pyval * pyval)) (w : world) :
  "start" ∉ course_discovery_filter_fields ->
  "status" ∈ course_discovery_filter_fields ->
  Py.get results "results" (PList []) = Ok (PList courses) ->
  Forall classifiable_item courses ->
  Py.getpath results ["facets"; "status"] = Ok (PDict d) ->
  exists (results' : pyval) (w' : world) (total : Z),
    process_range_data results w = (Ok results', w') /\
    Py.getpath results' ["facets"; "status"; "total"] = Ok (PInt total) /\
    0 <= total <= Z.of_nat (length courses).
Proof.
  intros Hstart Hstatus Hresults Hcourses Hfacet.
  destruct (status_loop_total courses [] w Hcourses) as (terms & w' & Hloop).
  destruct (store_facet_dict results "status" terms _ Hfacet)
    as (results' & Hstore).
  destruct (status_loop_invariant _ _ _ _ _ Hloop) as (Hsum & _).
  destruct (store_facet_written _ _ _ _ Hstore) as (_ & Htotal).
  exists results', w', (sum_values terms).
  split; [| split; [exact Htotal | exact Hsum]].
  unfold process_range_data.
  rewrite (bool_decide_eq_false_2 _ Hstart), (bool_decide_eq_true_2 _ Hstatus).
  rewrite (bind_lift_ok _ _ _ _ Hresults).
  cbn [Py.iter]. rewrite (bind_lift_ok _ _ _ _ eq_refl).
  rewrite (bind_ok _ _ _ _ _ Hloop). unfold lift. now rewrite Hstore.
Qed.

(** *** Content search *)

(** [perform_search] with an engine: one engine call, then the
    post-processing of its answer. *)
Lemma perform_search_run (searcher : SearchEngine) (search_term : string)
    (user : option User) (size from_ : Z) (course_id : option string)
    (w : world) :
  get_search_engine index_name = Some searcher ->
  perform_search search_term user size from_ course_id w
  = (res_bind
       (search_string searcher
          (content_search_args search_term user size from_ course_id))
       (post_process search_term user),
     mkWorld (tick w)
       (CallSearchString
          (content_search_args search_term user size from_ course_id)
          :: calls w)).
Proof.
  intros Hengine. unfold perform_search, content_search_args.
  destruct (generate_field_filters _) as [[fd fi] ex].
  rewrite Hengine. unfold bind, call_search_string, lift.
  destruct (search_string searcher _); reflexivity.
Qed.

Lemma filter_res_Forall {A} (p : A -> res bool) (l l' : list A) :
  filter_res p l = Ok l' -> Forall (fun x => p x = Ok true) l'.
Proof.
  revert l'. induction l as [| x l IH]; simpl; intros l' H.
  - inversion H. constructor.
  - destruct (p x) as [b |] eqn:Hp; [| discriminate]. simpl in H.
    destruct (filter_res p l) as [ys |]; [| discriminate]. simpl in H.
    inversion H; subst. destruct b; [constructor |]; auto.
Qed.

(** A post-processing that returns. *)
Lemma post_process_inv (search_term : string) (user : option User)
    (results results' : pyval) :
  post_process search_term user results = Ok results' ->
  exists d raw items processed denied kept,
    results = PDict d /\
    Py.lookup "results" d = Some raw /\
    Py.iter raw = Ok items /\
    map_res (process_item search_term user) items = Ok processed /\
    filter_res data_is_none processed = Ok denied /\
    filter_res data_is_not_none processed = Ok kept /\
    results'
    = PDict (Py.store "results" (PList kept)
               (Py.store "access_denied_count" (PInt (Z.of_nat (length denied)))
                  d)).
Proof.
  unfold post_process, res_bind. intros H.
  destruct results; simpl in H; try discriminate.
  destruct (Py.lookup "results" d) as [raw |] eqn:Hraw; [| discriminate].
  destruct (Py.iter raw) as [items |] eqn:Hiter; [| discriminate].
  destruct (map_res _ items) as [processed |] eqn:Hmap; [| discriminate].
  destruct (filter_res data_is_none processed) as [denied |] eqn:Hden;
    [| discriminate].
  simpl in H.
  destruct (filter_res data_is_not_none processed) as [kept |] eqn:Hkept;
    [| discriminate].
  inversion H. exists d, raw, items, processed, denied, kept. auto 10.
Qed.

(** X6.  The engine call of the content search.  With the engine resolved,
    [perform_search] calls it exactly once and does not read the clock; the
    call carries the search term, size and offset it was given, the generated
    field and exclude dictionaries as they are, every generated filter under
    its own key wrapped with [missing_included] true (none added, none
    dropped), the document type [courseware_content], and asks for the
    content. *)
Theorem content_search_call (searcher : SearchEngine) (search_term : string)
    (user : option User) (size from_ : Z) (course_id : option string)
    (w : world) :
  get_search_engine index_name = Some searcher ->
  exists args : SearchStringArgs,
    snd (perform_search search_term user size from_ course_id w)
    = mkWorld (tick w) (CallSearchString args :: calls w) /\
    ss_search_term args = search_term /\
    ss_size args = size /\ ss_from args = from_ /\
    ss_doc_type args = "courseware_content" /\
    ss_include_content args = true /\
    ss_field_dictionary args
    = (generate_field_filters (mkKwargs user course_id None None)).1.1 /\
    ss_exclude_dictionary args
    = (generate_field_filters (mkKwargs user course_id None None)).2 /\
    (forall key,
        ss_filter_dictionary args !! key
        = (fun value => mkFormattedFilter value true)
            <$> ((generate_field_filters (mkKwargs user course_id None None)).1.2
                   !! key)).
Proof.
  intros Hengine.
  exists (content_search_args search_term user size from_ course_id).
  rewrite (perform_search_run _ _ _ _ _ _ _ Hengine). unfold content_search_args.
  destruct (generate_field_filters _) as [[fd fi] ex]. simpl.
  repeat split; try reflexivity.
  intros key. now rewrite lookup_fmap.
Qed.

(** X7.  Errors of the engine's answer leave [perform_search] as they are:
    an exception of the engine call is raised unchanged; an answer without a
    [results] entry raises [KeyError] for that key; and the first result item
    whose [data] cannot be read raises the error of that subscript (a
    [KeyError] for an item without [data]). *)
Theorem content_search_errors (searcher : SearchEngine) (search_term : string)
    (user : option User) (size from_ : Z) (course_id : option string)
    (w : world) :
  get_search_engine index_name = Some searcher ->
  let answer :=
    search_string searcher
      (content_search_args search_term user size from_ course_id) in
  let outcome := fst (perform_search search_term user size from_ course_id w) in
  (forall e, answer = Raise e -> outcome = Raise e) /\
  (forall d, answer = Ok (PDict d) -> Py.lookup "results" d = None ->
     outcome = Raise (KeyError "results")) /\
  (forall d items item items' e,
     answer = Ok (PDict d) ->
     Py.lookup "results" d = Some (PList (items ++ item :: items')) ->
     Forall (fun item => exists data, Py.getitem item "data" = Ok data) items ->
     Py.getitem item "data" = Raise e ->
     outcome = Raise e) /\
  (forall (di : list (pyval * pyval)),
     Py.lookup "data" di = None ->
     Py.getitem (PDict di) "data" = Raise (KeyError "data")).
Proof.
  intros Hengine answer outcome. subst answer outcome.
  rewrite (perform_search_run _ _ _ _ _ _ _ Hengine). simpl.
  split; [| split; [| split]].
  - intros e ->. reflexivity.
  - intros d -> Hnone. simpl. unfold post_process. simpl. now rewrite Hnone.
  - intros d items item items' e -> Hresults Hitems Hbad. simpl.
    unfold post_process. simpl. rewrite Hresults. simpl.
    assert (Hmap : map_res (process_item search_term user)
                     (items ++ item :: items') = Raise e).
    { clear Hresults. induction Hitems as [| x items [data Hdata] _ IH]; simpl.
      - unfold process_item. now rewrite Hbad.
      - destruct (process_item_ok search_term user _ _ Hdata) as (x' & Hp & _).
        rewrite Hp. simpl. now rewrite IH. }
    now rewrite Hmap.
  - intros di Hnone. simpl. now rewrite Hnone.
Qed.

(** X8.  What a content search returns.  Whenever [perform_search] returns,
    whatever the engine answered: the envelope has an [access_denied_count]
    that is a natural number and a [results] list; no returned item has an
    empty ([None]) payload; the two together count the items the engine
    returned; and every other entry of the engine's answer is returned as it
    was. *)
Theorem content_search_result (searcher : SearchEngine) (search_term : string)
    (user : option User) (size from_ : Z) (course_id : option string)
    (results' : pyval) (w w' : world) :
  get_search_engine index_name = Some searcher ->
  perform_search search_term user size from_ course_id w = (Ok results', w') ->
  exists (answer raw : pyval) (items kept : list pyval) (denied : nat),
    search_string searcher
      (content_search_args search_term user size from_ course_id) = Ok answer /\
    Py.getitem answer "results" = Ok raw /\
    Py.iter raw = Ok items /\
    Py.getitem results' "access_denied_count" = Ok (PInt (Z.of_nat denied)) /\
    Py.getitem results' "results" = Ok (PList kept) /\
    Forall (fun item =>
              exists data,
                Py.getitem item "data" = Ok data /\ Py.is_none data = false)
      kept /\
    (denied + length kept = length items)%nat /\
    (forall key, key <> "results" -> key <> "access_denied_count" ->
       Py.getitem results' key = Py.getitem answer key).
Proof.
  intros Hengine Hrun.
  rewrite (perform_search_run _ _ _ _ _ _ _ Hengine) in Hrun.
  inversion Hrun as [[Hpost Hw]]. clear Hrun Hw.
  destruct (search_string searcher _) as [answer |]; [| discriminate].
  simpl in Hpost.
  destruct (post_process_inv _ _ _ _ Hpost)
    as (d & raw & items & processed & denied & kept
        & -> & Hraw & Hiter & Hmap & Hden & Hkept & ->).
  exists (PDict d), raw, items, kept, (length denied).
  split; [reflexivity |]. split; [simpl; now rewrite Hraw |].
  split; [exact Hiter |]. split; [| split; [| split; [| split]]].
  - simpl.
    rewrite (lookup_store_ne "results" "access_denied_count") by discriminate.
    now rewrite lookup_store_eq.
  - simpl. now rewrite lookup_store_eq.
  - apply filter_res_Forall in Hkept.
    eapply Forall_impl; [exact Hkept |].
    intros item Hitem. simpl in Hitem. unfold data_is_not_none, res_bind in Hitem.
    destruct (Py.getitem item "data") as [data |]; [| discriminate].
    exists data. split; [reflexivity |].
    inversion Hitem. now destruct (Py.is_none data).
  - clear Hpost Hraw Hiter.
    revert processed denied kept Hmap Hden Hkept.
    induction items as [| x items IH]; simpl; intros processed denied kept
      Hmap Hden Hkept.
    + inversion Hmap; subst. simpl in *. inversion Hden; inversion Hkept.
      reflexivity.
    + unfold res_bind in Hmap.
      destruct (process_item search_term user x) as [y |]; [| discriminate].
      destruct (map_res _ items) as [ys |] eqn:Hys; [| discriminate].
      inversion Hmap; subst processed. simpl in Hden, Hkept.
      unfold data_is_none at 1 in Hden. unfold data_is_not_none at 1 in Hkept.
      unfold res_bind in Hden, Hkept.
      destruct (Py.getitem y "data") as [data |]; [| discriminate].
      destruct (filter_res data_is_none ys) as [den |] eqn:Hd; [| discriminate].
      destruct (filter_res data_is_not_none ys) as [kep |] eqn:Hk;
        [| discriminate].
      specialize (IH ys den kep eq_refl Hd Hk).
      simpl in Hden, Hkept.
      destruct (Py.is_none data); simpl in Hden, Hkept;
        inversion Hden; inversion Hkept; subst; simpl; lia.
  - intros key Hr Ha. simpl.
    rewrite (lookup_store_ne "results" key) by congruence.
    now rewrite (lookup_store_ne "access_denied_count" key) by congruence.
Qed.

(** *** Course discovery *)

Lemma start_filter_any (start : pyval) (fd : gmap string FormattedFilter)
    (w : world) :
  exists fd' w',
    start_filter start fd w = (Ok fd', w') /\
    calls w' = calls w /\
    (fd' = fd \/
     exists range, fd' = <["start" := mkFormattedFilter (PRange range) true]> fd).
Proof.
  unfold start_filter.
  repeat (destruct (Py.eq_str start _);
          [ unfold bind, utcnow, ret, _format_filter; simpl;
            eexists _, _; split; [reflexivity |]; split; [reflexivity |];
            right; eexists; reflexivity |]).
  exists fd, w. auto.
Qed.

Lemma status_filter_any (status : pyval) (fd : gmap string FormattedFilter)
    (w : world) :
  exists fd' w',
    status_filter status fd w = (Ok fd', w') /\
    calls w' = calls w /\
    (fd' = fd \/
     (exists range, fd' = <["end" := mkFormattedFilter (PRange range) false]> fd) \/
     (exists range, fd' = <["start" := mkFormattedFilter (PRange range) true]> fd) \/
     (exists r1 r2,
         fd' = <["end" := mkFormattedFilter (PRange r2) true]>
                 (<["start" := mkFormattedFilter (PRange r1) true]> fd))).
Proof.
  unfold status_filter.
  destruct (Py.eq_str status "past").
  { unfold bind, utcnow, ret, _format_filter; simpl.
    eexists _, _; split; [reflexivity |]; split; [reflexivity |].
    right; left. eexists; reflexivity. }
  destruct (Py.eq_str status "current").
  { unfold bind, utcnow, ret, _format_filter; simpl.
    eexists _, _; split; [reflexivity |]; split; [reflexivity |].
    right; right; right. eexists _, _; reflexivity. }
  destruct (Py.eq_str status "future").
  { unfold bind, utcnow, ret, _format_filter; simpl.
    eexists _, _; split; [reflexivity |]; split; [reflexivity |].
    right; right; left. eexists; reflexivity. }
  exists fd, w. auto.
Qed.

Lemma discovery_filter_start (range : DateRange) :
  discovery_filter "start" (mkFormattedFilter (PRange range) true).
Proof.
  split; [set_solver |]. split; [eauto | discriminate].
Qed.

Lemma discovery_filter_end (range : DateRange) (missing : bool) :
  discovery_filter "end" (mkFormattedFilter (PRange range) missing).
Proof.
  split; [set_solver |]. split; [eauto | reflexivity].
Qed.

(** [course_discovery_search] with an engine: the dictionaries are built,
    one engine call is made, its answer goes through [process_range_data]. *)
Lemma discovery_run (searcher : SearchEngine) (search_term : option string)
    (size from_ : Z) (field_dictionary : option (gmap string pyval))
    (kwargs : Kwargs) (w : world) :
  get_search_engine index_name = Some searcher ->
  let merged :=
    merged_field_dictionary (generate_field_filters kwargs).1.1
      (use_search_fields kwargs) field_dictionary in
  let read_first :=
    negb (default false (SEARCH_SKIP_ENROLLMENT_START_DATE_FILTERING settings)) in
  exists (filters : gmap string FormattedFilter) (w4 : world),
    course_discovery_search search_term size from_ field_dictionary kwargs w
    = bind (call_search searcher
              (mkSearchArgs search_term "course_info" size from_
                 (sent_field_dictionary merged (clock (tick w))) filters
                 (generate_field_filters kwargs).2 course_discovery_facets))
        process_range_data w4 /\
    calls w4 = calls w /\
    map_Forall discovery_filter filters /\
    filters !! "enrollment_end"
    = (if default false (kw_allow_enrollment_end_filter kwargs) then
         Some (mkFormattedFilter
                 (PRange (mkDateRange
                            (Some (clock (if read_first then S (tick w)
                                          else tick w)))
                            None))
                 true)
       else None) /\
    exists base w2 f1 w3,
      base !! "start" = None /\ base !! "end" = None /\
      start_filter (default PNone (merged !! "start")) base w2 = (Ok f1, w3) /\
      status_filter (default PNone (merged !! "status")) f1 w3 = (Ok filters, w4).
Proof.
  intros Hengine merged read_first. subst read_first.
  unfold course_discovery_search, sent_field_dictionary.
  destruct (generate_field_filters kwargs) as [[search_fields fi] ex] eqn:Hgen.
  simpl in merged. fold merged. simpl.
  set (skip := default false
                 (SEARCH_SKIP_ENROLLMENT_START_DATE_FILTERING settings)).
  set (ufd := if negb skip
              then <["enrollment_start" :=
                       PRange (mkDateRange None (Some (clock (tick w))))]> merged
              else merged).
  set (w1 := if negb skip then mkWorld (S (tick w)) (calls w) else w).
  assert (H1 : (if negb skip
                then
                  now0 <- utcnow ;;
                  ret (<["enrollment_start" :=
                           PRange (mkDateRange None (Some now0))]> merged)
                else ret merged) w = (Ok ufd, w1))
    by (subst ufd w1; destruct (negb skip); reflexivity).
  assert (Hc1 : calls w1 = calls w) by (subst w1; destruct (negb skip); reflexivity).
  assert (Ht1 : tick w1 = if negb skip then S (tick w) else tick w)
    by (subst w1; destruct (negb skip); reflexivity).
  rewrite (bind_ok _ _ _ _ _ H1), Hengine.
  set (allow := default false (kw_allow_enrollment_end_filter kwargs)).
  set (base := if allow
               then ({[ "enrollment_end" :=
                          mkFormattedFilter
                            (PRange (mkDateRange (Some (clock (tick w1))) None))
                            true ]} : gmap string FormattedFilter)
               else ∅).
  set (w2 := if allow then mkWorld (S (tick w1)) (calls w1) else w1).
  assert (H2 : (if allow then
                  now0 <- utcnow ;;
                  ret (<["enrollment_end" :=
                           _format_filter (PRange (mkDateRange (Some now0) None))
                             true]> ∅)
                else ret ∅) w1 = (Ok base, w2)).
  { subst base w2. destruct allow; [| reflexivity].
    unfold bind, utcnow, ret, _format_filter. simpl. now rewrite insert_empty. }
  assert (Hc2 : calls w2 = calls w1) by (subst w2; destruct allow; reflexivity).
  assert (Hbase : map_Forall discovery_filter base).
  { subst base. destruct allow; [| apply map_Forall_empty].
    apply map_Forall_singleton. split; [set_solver |].
    split; [eauto | discriminate]. }
  assert (Hbase_end :
            base !! "enrollment_end"
            = if allow
              then Some (mkFormattedFilter
                           (PRange (mkDateRange (Some (clock (tick w1))) None))
                           true)
              else None).
  { subst base. destruct allow; [apply lookup_singleton_eq | apply lookup_empty]. }
  rewrite (bind_ok _ _ _ _ _ H2).
  destruct (start_filter_any (default PNone (ufd !! "start")) base w2)
    as (f1 & w3 & H3 & Hc3 & Hf1).
  rewrite (bind_ok _ _ _ _ _ H3).
  destruct (status_filter_any (default PNone (delete "start" ufd !! "status"))
              f1 w3) as (f2 & w4 & H4 & Hc4 & Hf2).
  rewrite (bind_ok _ _ _ _ _ H4).
  exists f2, w4. split; [reflexivity |].
  split; [congruence |].
  assert (Hf1ok : map_Forall discovery_filter f1 /\
                  f1 !! "enrollment_end" = base !! "enrollment_end").
  { destruct Hf1 as [-> | (r & ->)]; [auto |]. split.
    - apply map_Forall_insert_2; [apply discovery_filter_start | exact Hbase].
    - now rewrite lookup_insert_ne by discriminate. }
  destruct Hf1ok as (Hf1ok & Hf1end).
  assert (Hf2ok : map_Forall discovery_filter f2 /\
                  f2 !! "enrollment_end" = f1 !! "enrollment_end").
  { destruct Hf2 as [-> | [(r & ->) | [(r & ->) | (r1 & r2 & ->)]]]; [auto | | |].
    - split; [apply map_Forall_insert_2;
               [apply discovery_filter_end | exact Hf1ok] |].
      now rewrite lookup_insert_ne by discriminate.
    - split; [apply map_Forall_insert_2;
               [apply discovery_filter_start | exact Hf1ok] |].
      now rewrite lookup_insert_ne by discriminate.
    - split.
      + apply map_Forall_insert_2; [apply discovery_filter_end |].
        apply map_Forall_insert_2; [apply discovery_filter_start | exact Hf1ok].
      + now rewrite !lookup_insert_ne by discriminate. }
  destruct Hf2ok as (Hf2ok & Hf2end).
  split; [exact Hf2ok |].
  split; [rewrite Hf2end, Hf1end, Hbase_end, Ht1; reflexivity |].
  assert (Hstart : ufd !! "start" = merged !! "start")
    by (subst ufd; destruct (negb skip);
        [now rewrite lookup_insert_ne by discriminate | reflexivity]).
  assert (Hstatus : delete "start" ufd !! "status" = merged !! "status")
    by (rewrite lookup_delete_ne by discriminate; subst ufd;
        destruct (negb skip);
        [now rewrite lookup_insert_ne by discriminate | reflexivity]).
  rewrite Hstart in H3. rewrite Hstatus in H4.
  exists base, w2, f1, w3.
  split; [| split; [| split; [exact H3 | exact H4]]];
    subst base; destruct allow;
    first [ now rewrite lookup_singleton_ne by discriminate
          | apply lookup_empty ].
Qed.

Lemma merged_lookup (search_fields : gmap string pyval) (fields : list string)
    (field_dictionary : option (gmap string pyval)) (key : string) :
  merged_field_dictionary search_fields fields field_dictionary !! key
  = match default ∅ field_dictionary !! key with
    | Some v => Some v
    | None => if bool_decide (key ∈ fields) then search_fields !! key else None
    end.
Proof.
  assert (Hfilter :
            filter (fun kv : string * pyval => kv.1 ∈ fields) search_fields !! key
            = if bool_decide (key ∈ fields) then search_fields !! key else None).
  { rewrite map_lookup_filter. destruct (search_fields !! key) as [v |]; simpl.
    - case_bool_decide; simpl.
      + now rewrite option_guard_True.
      + now rewrite option_guard_False.
    - now case_bool_decide. }
  unfold merged_field_dictionary.
  destruct field_dictionary as [overrides |]; simpl.
  - destruct (bool_decide (size overrides = 0%nat)) eqn:Hsize.
    + apply bool_decide_eq_true_1, map_size_empty_inv in Hsize. subst overrides.
      rewrite lookup_empty. exact Hfilter.
    + rewrite lookup_union. destruct (overrides !! key) as [v |]; simpl.
      * now destruct (filter _ search_fields !! key).
      * rewrite (left_id_L None _). exact Hfilter.
  - rewrite lookup_empty. exact Hfilter.
Qed.

Lemma use_search_fields_elem (kwargs : Kwargs) (key : string) :
  key ∈ use_search_fields kwargs <->
  key = "org" \/
  (key = "course" /\ default false (kw_include_course_filter kwargs) = true /\
   exists user, kw_user kwargs = Some user /\ is_staff user = false).
Proof.
  unfold use_search_fields.
  destruct (default false (kw_include_course_filter kwargs)); simpl.
  - destruct (kw_user kwargs) as [[staff] |]; simpl.
    + destruct staff; simpl.
      * rewrite list_elem_of_singleton. split; [auto |].
        intros [H | (_ & _ & u & [= <-] & Hs)]; [exact H | discriminate].
      * rewrite !elem_of_cons, elem_of_nil. split.
        -- intros [H | [H | []]]; [auto |]. right. eauto.
        -- intros [H | (H & _)]; auto.
    + rewrite list_elem_of_singleton. split; [auto |].
      intros [H | (_ & _ & u & Hu & _)]; [exact H | discriminate].
  - rewrite list_elem_of_singleton. split; [auto |].
    intros [H | (_ & Hf & _)]; [exact H | discriminate].
Qed.

(** The engine call [course_discovery_search] logs. *)
Lemma discovery_logged (searcher : SearchEngine) (search_term : option string)
    (size from_ : Z) (field_dictionary : option (gmap string pyval))
    (kwargs : Kwargs) (w : world) :
  get_search_engine index_name = Some searcher ->
  exists (filters : gmap string FormattedFilter) (w5 : world),
    let args :=
      mkSearchArgs search_term "course_info" size from_
        (sent_field_dictionary
           (merged_field_dictionary (generate_field_filters kwargs).1.1
              (use_search_fields kwargs) field_dictionary)
           (clock (tick w)))
        filters (generate_field_filters kwargs).2 course_discovery_facets in
    calls w5 = CallSearch args :: calls w /\
    course_discovery_search search_term size from_ field_dictionary kwargs w
    = match search searcher args with
      | Ok answer => process_range_data answer w5
      | Raise e => (Raise e, w5)
      end /\
    calls (snd (course_discovery_search search_term size from_ field_dictionary
                  kwargs w))
    = CallSearch args :: calls w /\
    map_Forall discovery_filter filters /\
    filters !! "enrollment_end"
    = (if default false (kw_allow_enrollment_end_filter kwargs) then
         Some (mkFormattedFilter
                 (PRange (mkDateRange
                            (Some (clock
                                     (if negb (default false
                                                 (SEARCH_SKIP_ENROLLMENT_START_DATE_FILTERING
                                                    settings))
                                      then S (tick w) else tick w)))
                            None))
                 true)
       else None) /\
    exists base w2 f1 w3 w4,
      base !! "start" = None /\ base !! "end" = None /\
      start_filter
        (default PNone
           (merged_field_dictionary (generate_field_filters kwargs).1.1
              (use_search_fields kwargs) field_dictionary !! "start"))
        base w2 = (Ok f1, w3) /\
      status_filter
        (default PNone
           (merged_field_dictionary (generate_field_filters kwargs).1.1
              (use_search_fields kwargs) field_dictionary !! "status"))
        f1 w3 = (Ok filters, w4).
Proof.
  intros Hengine.
  destruct (discovery_run searcher search_term size from_ field_dictionary
              kwargs w Hengine)
    as (filters & w4 & Hrun & Hc4 & Hall & Hend & Hbuilt).
  exists filters.
  exists (mkWorld (tick w4)
            (CallSearch
               (mkSearchArgs search_term "course_info" size from_
                  (sent_field_dictionary
                     (merged_field_dictionary (generate_field_filters kwargs).1.1
                        (use_search_fields kwargs) field_dictionary)
                     (clock (tick w)))
                  filters (generate_field_filters kwargs).2
                  course_discovery_facets)
               :: calls w4)).
  cbv zeta.
  split; [| split; [| split; [| split; [exact Hall | split; [exact Hend |]]]]].
  4: { destruct Hbuilt as (base & w2 & f1 & w3 & Hb1 & Hb2 & H3 & H4).
       exists base, w2, f1, w3, w4. auto. }
  - simpl. now rewrite Hc4.
  - rewrite Hrun. unfold bind, call_search.
    destruct (search searcher _); reflexivity.
  - rewrite Hrun. unfold bind, call_search.
    destruct (search searcher _) as [answer | e]; simpl.
    + rewrite quiet_process_range_data. simpl. now rewrite Hc4.
    + now rewrite Hc4.
Qed.

(** X9.  How the course discovery composes.  With the engine resolved,
    [course_discovery_search] calls it exactly once, with the query string,
    size and offset it was given, the document type [course_info], the
    generated exclude dictionary as it is and the configured facet terms.  An
    exception of the engine is raised unchanged; an answer is returned as
    [process_range_data] returns it. *)
Theorem discovery_composition (searcher : SearchEngine)
    (search_term : option string) (size from_ : Z)
    (field_dictionary : option (gmap string pyval)) (kwargs : Kwargs)
    (w : world) :
  get_search_engine index_name = Some searcher ->
  exists (args : SearchArgs) (w5 : world),
    calls w5 = CallSearch args :: calls w /\
    course_discovery_search search_term size from_ field_dictionary kwargs w
    = match search searcher args with
      | Ok answer => process_range_data answer w5
      | Raise e => (Raise e, w5)
      end /\
    s_query_string args = search_term /\
    s_doc_type args = "course_info" /\
    s_size args = size /\ s_from args = from_ /\
    s_exclude_dictionary args = (generate_field_filters kwargs).2 /\
    s_facet_terms args = course_discovery_facets.
Proof.
  intros Hengine.
  destruct (discovery_logged searcher search_term size from_ field_dictionary
              kwargs w Hengine) as (filters & w5 & Hc & Hrun & _).
  cbv zeta in Hc, Hrun. eexists _, w5.
  split; [exact Hc |]. split; [exact Hrun |]. repeat split.
Qed.

(** X10.  Which fields reach the engine.  In the field dictionary of the
    engine call, for every key other than [start], [status],
    [enrollment_start] and [catalog_visibility]: a field the caller supplies
    is sent as supplied; otherwise the generated field is sent when the key
    is [org], or is [course] with [include_course_filter] set for a user who
    is not staff; every other generated field is dropped. *)
Theorem discovery_fields (searcher : SearchEngine)
    (search_term : option string) (size from_ : Z)
    (field_dictionary : option (gmap string pyval)) (kwargs : Kwargs)
    (w : world) :
  get_search_engine index_name = Some searcher ->
  let supplied := default ∅ field_dictionary in
  let generated := (generate_field_filters kwargs).1.1 in
  let passes (key : string) :=
    key = "org" \/
    (key = "course" /\
     default false (kw_include_course_filter kwargs) = true /\
     exists user, kw_user kwargs = Some user /\ is_staff user = false) in
  exists args : SearchArgs,
    calls (snd (course_discovery_search search_term size from_
                  field_dictionary kwargs w))
    = CallSearch args :: calls w /\
    forall key,
      key ∉ ["start"; "status"; "enrollment_start"; "catalog_visibility"] ->
      (forall v, supplied !! key = Some v ->
         s_field_dictionary args !! key = Some v) /\
      (supplied !! key = None -> passes key ->
         s_field_dictionary args !! key = generated !! key) /\
      (supplied !! key = None -> ~ passes key ->
         s_field_dictionary args !! key = None).
Proof.
  intros Hengine supplied generated passes.
  destruct (discovery_logged searcher search_term size from_ field_dictionary
              kwargs w Hengine) as (filters & w5 & _ & _ & Hlog & _).
  cbv zeta in Hlog. eexists. split; [exact Hlog |].
  intros key Hkey. cbn [s_field_dictionary].
  assert (Hsent :
            sent_field_dictionary
              (merged_field_dictionary generated (use_search_fields kwargs)
                 field_dictionary) (clock (tick w)) !! key
            = merged_field_dictionary generated (use_search_fields kwargs)
                field_dictionary !! key).
  { unfold sent_field_dictionary.
    assert (key <> "start" /\ key <> "status" /\ key <> "enrollment_start" /\
            key <> "catalog_visibility") as (H1 & H2 & H3 & H4)
      by (repeat split; intros ->; apply Hkey; set_solver).
    destruct (default false (ALLOW_CATALOG_VISIBILITY_FILTER settings));
      destruct (negb _);
      repeat first [ rewrite lookup_insert_ne by congruence
                   | rewrite lookup_delete_ne by congruence ];
      reflexivity. }
  fold generated. rewrite Hsent, merged_lookup. fold supplied.
  split; [| split].
  - intros v ->. reflexivity.
  - intros -> Hpass. unfold passes in Hpass.
    apply use_search_fields_elem in Hpass.
    now rewrite (bool_decide_eq_true_2 _ Hpass).
  - intros -> Hpass. unfold passes in Hpass.
    rewrite <- use_search_fields_elem in Hpass.
    now rewrite (bool_decide_eq_false_2 _ Hpass).
Qed.

(** X11.  The fields the discovery search decides itself, under any clock.
    The engine never sees a [start] or [status] field.  Unless
    [SEARCH_SKIP_ENROLLMENT_START_DATE_FILTERING] is set, [enrollment_start]
    is the range without lower bound up to the first clock reading, whatever
    the caller supplied for it; when it is set, only a value the caller
    supplied is sent.  With [ALLOW_CATALOG_VISIBILITY_FILTER] set,
    [catalog_visibility] is ["both"], whatever the caller supplied; without
    it, only a value the caller supplied is sent. *)
Theorem discovery_policy_fields (searcher : SearchEngine)
    (search_term : option string) (size from_ : Z)
    (field_dictionary : option (gmap string pyval)) (kwargs : Kwargs)
    (w : world) :
  get_search_engine index_name = Some searcher ->
  let supplied := default ∅ field_dictionary in
  let skip :=
    default false (SEARCH_SKIP_ENROLLMENT_START_DATE_FILTERING settings) in
  let visibility := default false (ALLOW_CATALOG_VISIBILITY_FILTER settings) in
  exists args : SearchArgs,
    calls (snd (course_discovery_search search_term size from_
                  field_dictionary kwargs w))
    = CallSearch args :: calls w /\
    s_field_dictionary args !! "start" = None /\
    s_field_dictionary args !! "status" = None /\
    s_field_dictionary args !! "enrollment_start"
    = (if skip then supplied !! "enrollment_start"
       else Some (PRange (mkDateRange None (Some (clock (tick w)))))) /\
    s_field_dictionary args !! "catalog_visibility"
    = (if visibility then Some (PStr "both")
       else supplied !! "catalog_visibility").
Proof.
  intros Hengine supplied skip visibility.
  destruct (discovery_logged searcher search_term size from_ field_dictionary
              kwargs w Hengine) as (filters & w5 & _ & _ & Hlog & _).
  cbv zeta in Hlog. eexists. split; [exact Hlog |].
  cbn [s_field_dictionary]. unfold sent_field_dictionary.
  fold skip visibility.
  assert (Hmerged : forall key, key <> "org" -> key <> "course" ->
             merged_field_dictionary (generate_field_filters kwargs).1.1
               (use_search_fields kwargs) field_dictionary !! key
             = supplied !! key).
  { intros key Horg Hcourse. rewrite merged_lookup. fold supplied.
    destruct (supplied !! key); [reflexivity |].
    rewrite bool_decide_eq_false_2; [reflexivity |].
    rewrite use_search_fields_elem. intros [-> | (-> & _)]; congruence. }
  destruct visibility, skip; simpl;
    repeat first [ rewrite lookup_insert_eq
                 | rewrite lookup_delete_eq
                 | rewrite lookup_insert_ne by discriminate
                 | rewrite lookup_delete_ne by discriminate ];
    rewrite ?Hmerged by discriminate; auto.
Qed.

(** X12.  The filters of the discovery search, under any clock.  Every
    filter of the engine call is a date range under one of the keys
    [enrollment_end], [start] and [end], and only an [end] filter can leave
    out the documents without the field: neither the filter dictionary of
    the filter generator nor the caller adds a filter.  The [enrollment_end]
    filter is there exactly when [allow_enrollment_end_filter] is passed, and
    is then the range from a clock reading on, without upper bound. *)
Theorem discovery_filters (searcher : SearchEngine)
    (search_term : option string) (size from_ : Z)
    (field_dictionary : option (gmap string pyval)) (kwargs : Kwargs)
    (w : world) :
  get_search_engine index_name = Some searcher ->
  exists args : SearchArgs,
    calls (snd (course_discovery_search search_term size from_
                  field_dictionary kwargs w))
    = CallSearch args :: calls w /\
    (forall key f,
        s_filter_dictionary args !! key = Some f -> discovery_filter key f) /\
    (default false (kw_allow_enrollment_end_filter kwargs) = false ->
     s_filter_dictionary args !! "enrollment_end" = None) /\
    (default false (kw_allow_enrollment_end_filter kwargs) = true ->
     exists n,
       s_filter_dictionary args !! "enrollment_end"
       = Some (mkFormattedFilter
                 (PRange (mkDateRange (Some (clock n)) None)) true)).
Proof.
  intros Hengine.
  destruct (discovery_logged searcher search_term size from_ field_dictionary
              kwargs w Hengine)
    as (filters & w5 & _ & _ & Hlog & Hall & Hend & _).
  cbv zeta in Hlog. eexists. split; [exact Hlog |].
  cbn [s_filter_dictionary]. split; [| split].
  - intros key f Hf. exact (Hall key f Hf).
  - intros Hallow. now rewrite Hend, Hallow.
  - intros Hallow. rewrite Hend, Hallow. eauto.
Qed.

(** *** Buckets and ranges *)

Section FrozenClock.

Variable now : datetime.
Hypothesis frozen : forall n, clock n = now.

(** X13.  From a timestamp to the filter that selects it.  Under a clock
    standing at [now], the [start] filter generated for the bucket the
    classifier gives a timestamp holds a range that contains the timestamp,
    bounds included: no timestamp is lost between classification and
    filtering. *)
Theorem start_bucket_selected (t : datetime) (w : world) :
  exists range : DateRange,
    fst (start_filter (PStr (start_bucket now t)) ∅ w)
    = Ok {[ "start" := mkFormattedFilter (PRange range) true ]} /\
    within t range.
Proof.
  destruct (start_filter_frozen now frozen (PStr (start_bucket now t)) ∅ w)
    as (w' & Hrun & _).
  rewrite Hrun. simpl. rewrite (right_id_L ∅ (∪)).
  unfold spec_start_filters, spec_start_range, start_bucket, within.
  destruct (Z.ltb_spec t (now - timedelta_days 30)); simpl.
  { eexists. split; [reflexivity |]. simpl. lia. }
  destruct (Z.leb_spec t now); simpl.
  { eexists. split; [reflexivity |]. simpl. lia. }
  destruct (Z.ltb_spec t (now + timedelta_days 30)); simpl.
  { eexists. split; [reflexivity |]. simpl. lia. }
  eexists. split; [reflexivity |]. simpl. lia.
Qed.

(** X17.  A status of [current] or [future] decides the [start] filter.
    Under a clock standing at [now], when the caller supplies the status
    [current], the engine call filters [start] up to [now] and [end] from
    [now] on; with [future] it filters [start] from [now] on and has no
    [end] filter; with [past] it filters [end] up to [now], documents
    without an [end] left out.  This holds whatever [start] bucket is
    supplied in the same call: for [current] and [future] the filter of the
    bucket is overwritten. *)
Theorem status_decides_start_filter (searcher : SearchEngine)
    (search_term : option string) (size from_ : Z)
    (field_dictionary : option (gmap string pyval)) (kwargs : Kwargs)
    (w : world) :
  get_search_engine index_name = Some searcher ->
  let status := default ∅ field_dictionary !! "status" in
  exists args : SearchArgs,
    calls (snd (course_discovery_search search_term size from_
                  field_dictionary kwargs w))
    = CallSearch args :: calls w /\
    (status = Some (PStr "current") ->
     s_filter_dictionary args !! "start"
     = Some (mkFormattedFilter (PRange (mkDateRange None (Some now))) true) /\
     s_filter_dictionary args !! "end"
     = Some (mkFormattedFilter (PRange (mkDateRange (Some now) None)) true)) /\
    (status = Some (PStr "future") ->
     s_filter_dictionary args !! "start"
     = Some (mkFormattedFilter (PRange (mkDateRange (Some now) None)) true) /\
     s_filter_dictionary args !! "end" = None) /\
    (status = Some (PStr "past") ->
     s_filter_dictionary args !! "end"
     = Some (mkFormattedFilter (PRange (mkDateRange None (Some now))) false)).
Proof.
  intros Hengine status.
  destruct (discovery_logged searcher search_term size from_ field_dictionary
              kwargs w Hengine)
    as (filters & w5 & _ & _ & Hlog & _ & _
        & base & w2 & f1 & w3 & w4 & Hbs & Hbe & H3 & H4).
  cbv zeta in Hlog. eexists. split; [exact Hlog |].
  cbn [s_filter_dictionary].
  assert (Hstatus :
            merged_field_dictionary (generate_field_filters kwargs).1.1
              (use_search_fields kwargs) field_dictionary !! "status" = status).
  { rewrite merged_lookup. fold status. destruct status; [reflexivity |].
    rewrite bool_decide_eq_false_2; [reflexivity |].
    rewrite use_search_fields_elem. intros [H | (H & _)]; discriminate. }
  rewrite Hstatus in H4.
  destruct (start_filter_frozen now frozen
              (default PNone
                 (merged_field_dictionary (generate_field_filters kwargs).1.1
                    (use_search_fields kwargs) field_dictionary !! "start"))
              base w2) as (w3' & H3' & _).
  rewrite H3' in H3. inversion H3 as [[Hf1 Hw3]]. clear H3 H3' Hw3.
  destruct (status_filter_frozen now frozen (default PNone status) f1 w3)
    as (w4' & H4' & _).
  rewrite H4' in H4. inversion H4 as [[Hfilters Hw4]]. clear H4 H4' Hw4.
  assert (Hf1end : f1 !! "end" = None).
  { subst f1. rewrite lookup_union_r; [exact Hbe |].
    unfold spec_start_filters.
    destruct (spec_start_range now _);
      [now rewrite lookup_singleton_ne by discriminate | apply lookup_empty]. }
  assert (Hcurrent :
            spec_status_filters now (PStr "current")
            = {[ "start" :=
                   mkFormattedFilter (PRange (mkDateRange None (Some now))) true;
                 "end" :=
                   mkFormattedFilter (PRange (mkDateRange (Some now) None)) true ]})
    by reflexivity.
  assert (Hfuture :
            spec_status_filters now (PStr "future")
            = {[ "start" :=
                   mkFormattedFilter (PRange (mkDateRange (Some now) None)) true ]})
    by reflexivity.
  assert (Hpast :
            spec_status_filters now (PStr "past")
            = {[ "end" :=
                   mkFormattedFilter (PRange (mkDateRange None (Some now)))
                     false ]})
    by reflexivity.
  split; [| split].
  - intros Hs. subst filters. rewrite Hs. cbn [default]. unfold id. rewrite Hcurrent. split.
    + apply lookup_union_Some_l. apply lookup_insert_eq.
    + apply lookup_union_Some_l.
      rewrite lookup_insert_ne by discriminate. apply lookup_singleton_eq.
  - intros Hs. subst filters. rewrite Hs. cbn [default]. unfold id. rewrite Hfuture. split.
    + apply lookup_union_Some_l. apply lookup_singleton_eq.
    + rewrite lookup_union_r; [exact Hf1end |].
      now rewrite lookup_singleton_ne by discriminate.
  - intros Hs. subst filters. rewrite Hs. cbn [default]. unfold id. rewrite Hpast.
    apply lookup_union_Some_l. apply lookup_singleton_eq.
Qed.

End FrozenClock.

Section MonotoneClock.

(** The clock never goes back. *)
Hypothesis monotone : forall n m, (n <= m)%nat -> clock n <= clock m.

(** X14.  The two readings of a bounded range.  Each bound of a range is
    computed from a clock reading of its own; when the clock never goes
    back, every [start] filter the discovery search generates that has both
    bounds spans at least thirty days, its lower bound first. *)
Theorem start_filter_range_ordered (start : pyval)
    (filters : gmap string FormattedFilter) (f : FormattedFilter)
    (w w' : world) :
  start_filter start ∅ w = (Ok filters, w') ->
  filters !! "start" = Some f ->
  exists range : DateRange,
    f = mkFormattedFilter (PRange range) true /\
    forall lo hi,
      lower range = Some lo -> upper range = Some hi ->
      lo + timedelta_days 30 <= hi.
Proof.
  unfold start_filter, bind, utcnow, ret, _format_filter. intros Hrun Hf.
  assert (Hclock : clock (tick w) <= clock (S (tick w)))
    by (apply monotone; lia).
  destruct (Py.eq_str start "current"); simpl in Hrun.
  { inversion Hrun; subst. rewrite lookup_insert_eq in Hf. inversion Hf.
    eexists. split; [reflexivity |]. simpl. intros lo hi Hlo. discriminate. }
  destruct (Py.eq_str start "new"); simpl in Hrun.
  { inversion Hrun; subst. rewrite lookup_insert_eq in Hf. inversion Hf.
    eexists. split; [reflexivity |]. simpl. intros lo hi [= <-] [= <-]. lia. }
  destruct (Py.eq_str start "soon"); simpl in Hrun.
  { inversion Hrun; subst. rewrite lookup_insert_eq in Hf. inversion Hf.
    eexists. split; [reflexivity |]. simpl. intros lo hi [= <-] [= <-]. lia. }
  destruct (Py.eq_str start "future"); simpl in Hrun.
  { inversion Hrun; subst. rewrite lookup_insert_eq in Hf. inversion Hf.
    eexists. split; [reflexivity |]. simpl. intros lo hi _. discriminate. }
  inversion Hrun; subst. rewrite lookup_empty in Hf. discriminate.
Qed.

End MonotoneClock.

(** *** Defaults *)

(** X15.  The default facet terms.  When [COURSE_DISCOVERY_FACETS] is not
    set, the facet terms requested from the engine have one entry per
    configured filter field, each asking for 100 terms, and no other
    entry. *)
Theorem facet_terms_default (field : string) :
  COURSE_DISCOVERY_FACETS settings = None ->
  course_discovery_facets !! field
  = if bool_decide (field ∈ course_discovery_filter_fields)
    then Some (PDict [(PStr "size", PInt 100)])
    else None.
Proof.
  intros Hunset. unfold course_discovery_facets. rewrite Hunset.
  cbn [default]. generalize course_discovery_filter_fields as fields.
  induction fields as [| f fields IH]; cbn [map list_to_map foldr uncurry].
  - rewrite lookup_empty. now rewrite bool_decide_eq_false_2 by apply not_elem_of_nil.
  - cbn [fst snd]. destruct (decide (field = f)) as [-> | Hne].
    + rewrite lookup_insert_eq.
      now rewrite bool_decide_eq_true_2 by apply list_elem_of_here.
    + rewrite lookup_insert_ne by congruence. rewrite IH.
      case_bool_decide as Hin.
      * now rewrite bool_decide_eq_true_2 by (apply elem_of_cons; auto).
      * rewrite bool_decide_eq_false_2; [reflexivity |].
        rewrite elem_of_cons. intros [H | H]; [exact (Hne H) | exact (Hin H)].
Qed.

(** X16.  The default configuration does no bucketing.  When
    [COURSE_DISCOVERY_FILTERS] is not set, the filter fields are [org],
    [modes] and [language], and [process_range_data] returns every envelope
    as it is, without reading the clock. *)
Theorem default_fields_pass_through (results : pyval) (w : world) :
  COURSE_DISCOVERY_FILTERS settings = None ->
  course_discovery_filter_fields = ["org"; "modes"; "language"] /\
  process_range_data results w = (Ok results, w).
Proof.
  intros Hunset.
  assert (Hfields : course_discovery_filter_fields = ["org"; "modes"; "language"])
    by (unfold course_discovery_filter_fields; now rewrite Hunset).
  split; [exact Hfields |].
  unfold process_range_data. rewrite Hfields.
  rewrite !bool_decide_eq_false_2; [reflexivity | |];
    rewrite list_elem_of_In; simpl; intros [H | [H | [H | []]]]; discriminate.
Qed.

End Api.

(** ** The statements on the sample collaborators *)

Lemma start_terms_step_bucket_witness :
  Sample.parse "2023-11-09T22:13:20" = Ok (Sample.now - timedelta_days 5) /\
  Py.as_int (PInt 2) = Some 2 /\
  exists bucket : string,
    start_terms_step Sample.frozen Sample.parse
      (PStr "2023-11-09T22:13:20", PInt 2) [] Sample.world0
    = (Ok (bump bucket 2 []), mkWorld 1 []) /\
    spec_start_window Sample.now bucket (Sample.now - timedelta_days 5) /\
    (forall b : string,
        spec_start_window Sample.now b (Sample.now - timedelta_days 5) ->
        b = bucket).
Proof.
  split; [reflexivity |]. split; [reflexivity |].
  exact (start_terms_step_bucket Sample.frozen Sample.parse
           "2023-11-09T22:13:20" (Sample.now - timedelta_days 5) (PInt 2) 2 []
           Sample.world0 eq_refl eq_refl).
Defined.

(** The four examples of the specification: started and ended is [past],
    started without an end is skipped, started and not ended is [current],
    not started is [future]; and a [start] of digits too large for a date
    raises the parser's [OverflowError]. *)
Lemma status_step_classification_witness :
  status_step Sample.frozen Sample.parse
    (Sample.course (PStr "2023-11-09T22:13:20") (PStr "2023-11-13T22:13:20"))
    [] Sample.world0
  = (Ok [("past", 1)], mkWorld 1 []) /\
  status_step Sample.frozen Sample.parse
    (Sample.course (PStr "2023-11-09T22:13:20") PNone) [] Sample.world0
  = (Ok [], mkWorld 1 []) /\
  status_step Sample.frozen Sample.parse
    (Sample.course (PStr "2023-11-09T22:13:20") (PStr "2023-11-19T22:13:20"))
    [] Sample.world0
  = (Ok [("current", 1)], mkWorld 1 []) /\
  status_step Sample.frozen Sample.parse
    (Sample.course (PStr "2023-11-19T22:13:20") PNone) [] Sample.world0
  = (Ok [("future", 1)], mkWorld 1 []) /\
  status_step Sample.frozen Sample.parse
    (Sample.course (PStr "1699000000000") PNone) [] Sample.world0
  = (Raise OverflowError, mkWorld 1 []).
Proof.
  assert (Hle : Sample.now - timedelta_days 5 <= Sample.frozen 0)
    by (vm_compute; discriminate).
  split; [| split; [| split; [| split]]].
  - destruct (status_step_classification Sample.frozen Sample.parse
                (Sample.course (PStr "2023-11-09T22:13:20")
                   (PStr "2023-11-13T22:13:20"))
                _ _ [] Sample.world0 eq_refl) as (_ & Hstarted & _).
    destruct (Hstarted "2023-11-09T22:13:20" _ eq_refl ltac:(discriminate)
                eq_refl Hle) as (_ & Hpast & _).
    refine (Hpast "2023-11-13T22:13:20" (Sample.now - timedelta_days 1) eq_refl
              ltac:(discriminate) eq_refl _).
    vm_compute; discriminate.
  - destruct (status_step_classification Sample.frozen Sample.parse
                (Sample.course (PStr "2023-11-09T22:13:20") PNone)
                _ _ [] Sample.world0 eq_refl) as (_ & Hstarted & _).
    destruct (Hstarted "2023-11-09T22:13:20" _ eq_refl ltac:(discriminate)
                eq_refl Hle) as (Hskip & _).
    exact (Hskip eq_refl).
  - destruct (status_step_classification Sample.frozen Sample.parse
                (Sample.course (PStr "2023-11-09T22:13:20")
                   (PStr "2023-11-19T22:13:20"))
                _ _ [] Sample.world0 eq_refl) as (_ & Hstarted & _).
    destruct (Hstarted "2023-11-09T22:13:20" _ eq_refl ltac:(discriminate)
                eq_refl Hle) as (_ & _ & Hcurrent & _).
    refine (Hcurrent "2023-11-19T22:13:20" (Sample.now + timedelta_days 5) eq_refl
              ltac:(discriminate) eq_refl _).
    vm_compute; reflexivity.
  - destruct (status_step_classification Sample.frozen Sample.parse
                (Sample.course (PStr "2023-11-19T22:13:20") PNone)
                _ _ [] Sample.world0 eq_refl) as (_ & _ & Hfuture & _).
    refine (Hfuture "2023-11-19T22:13:20" (Sample.now + timedelta_days 5) eq_refl
              ltac:(discriminate) eq_refl _).
    vm_compute; reflexivity.
  - destruct (status_step_classification Sample.frozen Sample.parse
                (Sample.course (PStr "1699000000000") PNone)
                _ _ [] Sample.world0 eq_refl) as (_ & _ & _ & _ & Hraise).
    exact (Hraise "1699000000000" OverflowError eq_refl ltac:(discriminate)
             eq_refl).
Defined.

(** A [start] that is a string but no timestamp is not skipped: the empty
    string counts the item as [future] (the specification skips it), and a
    non-empty one raises the parser's error. *)
Lemma status_step_empty_start_counted :
  item_fields (Sample.course (PStr "") (PStr "2023-11-13T22:13:20"))
  = Ok (PStr "", PStr "2023-11-13T22:13:20") /\
  spec_status Sample.parse Sample.now (PStr "") (PStr "2023-11-13T22:13:20")
  = None /\
  fst (status_step Sample.frozen Sample.parse
         (Sample.course (PStr "") (PStr "2023-11-13T22:13:20")) []
         Sample.world0)
  = Ok [("future", 1)] /\
  ~ spec_status_step Sample.frozen Sample.parse
      (Sample.course (PStr "") (PStr "2023-11-13T22:13:20")) [] Sample.world0 /\
  fst (status_step Sample.frozen Sample.parse
         (Sample.course (PStr "not a date") PNone) [] Sample.world0)
  = Raise ValueError /\
  ~ spec_status_step Sample.frozen Sample.parse
      (Sample.course (PStr "not a date") PNone) [] Sample.world0.
Proof.
  split; [reflexivity |]. split; [reflexivity |]. split; [reflexivity |].
  split; [| split; [reflexivity |]].
  - intros (start_term & end_term & Hfields & Hrun).
    vm_compute in Hfields. inversion Hfields; subst.
    vm_compute in Hrun. discriminate.
  - intros (start_term & end_term & Hfields & Hrun).
    vm_compute in Hfields. inversion Hfields; subst.
    vm_compute in Hrun. discriminate.
Qed.

(** Each bound of a generated range is a clock reading of its own: under a
    clock that advances by a millisecond per reading, the upper bound of the
    [new] range is a millisecond after the instant its lower bound is
    computed from. *)
Lemma start_filter_new_two_readings :
  fst (start_filter Sample.ticking (PStr "new") ∅ Sample.world0)
  = Ok {[ "start" :=
            mkFormattedFilter
              (PRange (mkDateRange (Some (Sample.now - timedelta_days 30))
                         (Some (Sample.now + 1000))))
              true ]}.
Proof.
  unfold start_filter, bind, utcnow, ret, _format_filter. simpl.
  now rewrite insert_empty.
Qed.

(** A discovery search for the [new] courses that are [current]: both
    pseudo-fields leave the field dictionary, the status filter on [start]
    overrides the one of the start bucket. *)
Lemma discovery_pseudo_fields_witness :
  (forall n, Sample.frozen n = Sample.now) /\
  Sample.get_search_engine (index_name (Sample.settings_with ["status"]))
  = Some Sample.engine /\
  exists args : SearchArgs,
    calls (snd (course_discovery_search (Sample.settings_with ["status"])
                  Sample.frozen Sample.parse Sample.generate_field_filters
                  Sample.get_search_engine None 20 0
                  (Some {[ "start" := PStr "new"; "status" := PStr "current" ]})
                  Sample.no_kwargs Sample.world0))
    = [CallSearch args] /\
    s_field_dictionary args !! "start" = None /\
    s_field_dictionary args !! "status" = None /\
    s_filter_dictionary args
    = spec_status_filters Sample.now (PStr "current")
        ∪ (spec_start_filters Sample.now (PStr "new") ∪ ∅).
Proof.
  split; [reflexivity |]. split; [reflexivity |].
  exact (discovery_pseudo_fields (Sample.settings_with ["status"])
           Sample.frozen Sample.parse Sample.generate_field_filters
           Sample.get_search_engine Sample.now (fun _ => eq_refl)
           Sample.engine None 20 0
           (Some {[ "start" := PStr "new"; "status" := PStr "current" ]})
           Sample.no_kwargs Sample.world0 eq_refl).
Defined.

(** A number as a key is skipped; the same digits as a string raise the
    parser's [OverflowError], a string in no date format its [ValueError]. *)
Lemma malformed_timestamp_handling_witness :
  start_terms_step Sample.frozen Sample.parse (PInt 1699000000000, PInt 7) []
    Sample.world0
  = (Ok [], Sample.world0) /\
  start_terms_step Sample.frozen Sample.parse (PStr "not a date", PInt 3) []
    Sample.world0
  = (Raise ValueError, Sample.world0) /\
  start_terms_step Sample.frozen Sample.parse (PStr "1699000000000", PInt 7) []
    Sample.world0
  = (Raise OverflowError, Sample.world0).
Proof.
  destruct (malformed_timestamp_handling Sample.frozen Sample.parse)
    as (Hskip & _ & Hraise & _).
  split; [| split].
  - exact (Hskip (PInt 1699000000000) (PInt 7) [] Sample.world0 eq_refl).
  - exact (Hraise "not a date" ValueError (PInt 3) [] Sample.world0 eq_refl).
  - exact (Hraise "1699000000000" OverflowError (PInt 7) [] Sample.world0
             eq_refl).
Defined.

(** A facet key that is a string but no timestamp is not skipped: the
    parser's error leaves [process_range_data]. *)
Lemma unparseable_key_raises :
  spec_malformed Sample.parse (PStr "not a date") /\
  ~ spec_skipped Sample.frozen Sample.parse (PStr "not a date", PInt 3) []
      Sample.world0 /\
  fst (process_range_data (Sample.settings_with ["start"]) Sample.frozen
         Sample.parse Sample.envelope_bad_term Sample.world0)
  = Raise ValueError.
Proof.
  split; [| split].
  - right. exists "not a date", ValueError. split; reflexivity.
  - unfold spec_skipped. vm_compute. discriminate.
  - vm_compute. reflexivity.
Qed.

Lemma reclassified_total_is_sum_witness :
  exists results' w',
    process_range_data (Sample.settings_with ["start"]) Sample.frozen
      Sample.parse Sample.envelope Sample.world0 = (Ok results', w') /\
    "start" ∈ course_discovery_filter_fields (Sample.settings_with ["start"]) /\
    (exists start_terms,
        Py.getpath Sample.envelope ["facets"; "start"; "terms"] = Ok start_terms /\
        Py.truthy start_terms = true) /\
    spec_total_is_sum results' "start".
Proof.
  eexists _, _.
  assert (Hin : "start" ∈
                course_discovery_filter_fields (Sample.settings_with ["start"]))
    by (apply list_elem_of_In; simpl; auto).
  assert (Hterms : exists start_terms,
             Py.getpath Sample.envelope ["facets"; "start"; "terms"]
             = Ok start_terms /\ Py.truthy start_terms = true)
    by (eexists; split; reflexivity).
  split; [vm_compute; reflexivity |].
  split; [exact Hin |]. split; [exact Hterms |].
  refine (proj1 (reclassified_total_is_sum (Sample.settings_with ["start"])
                   Sample.frozen Sample.parse Sample.envelope _ Sample.world0 _ _)
            Hin Hterms).
  vm_compute; reflexivity.
Defined.

Lemma access_denied_count_complement_witness :
  exists (results' : pyval) (w' : world) (kept : list pyval),
    perform_search (Sample.settings_with []) Sample.generate_field_filters
      Sample.process_result Sample.get_search_engine "rocq" None 10 0 None
      Sample.world0 = (Ok results', w') /\
    Py.getitem results' "access_denied_count" = Ok (PInt 1) /\
    Py.getitem results' "results" = Ok (PList kept) /\
    1 + Z.of_nat (length kept) = 3.
Proof.
  destruct (access_denied_count_complement (Sample.settings_with [])
              Sample.generate_field_filters Sample.process_result
              Sample.get_search_engine Sample.engine "rocq" None 10 0 None
              [(PStr "results",
                PList [PDict [(PStr "data", PDict [(PStr "id", PInt 1)])];
                       PDict [(PStr "data", PDict [(PStr "id", PInt 2);
                                                   (PStr "private", PBool true)])];
                       PDict [(PStr "data", PDict [(PStr "id", PInt 3)])]]);
               (PStr "total", PInt 3)]
              [PDict [(PStr "data", PDict [(PStr "id", PInt 1)])];
               PDict [(PStr "data", PDict [(PStr "id", PInt 2);
                                           (PStr "private", PBool true)])];
               PDict [(PStr "data", PDict [(PStr "id", PInt 3)])]]
              Sample.world0 eq_refl eq_refl eq_refl
              ltac:(repeat constructor; eexists; reflexivity))
    as (results' & w' & n & kept & Hrun & Hcount & Hresults & Hn & _ & Hsum).
  exists results', w', kept.
  rewrite Hn in Hcount, Hsum.
  split; [exact Hrun |]. split; [exact Hcount |]. split; [exact Hresults |].
  exact Hsum.
Defined.

Lemma start_bucket_round_trip_witness :
  (forall n, Sample.frozen n = Sample.now) /\
  In "soon" ["current"; "new"; "soon"; "future"] /\
  (exists range : DateRange,
      (forall w,
          fst (start_filter Sample.frozen (PStr "soon") ∅ w)
          = Ok {[ "start" := mkFormattedFilter (PRange range) true ]}) /\
      (forall t, strictly_inside t range -> start_bucket Sample.now t = "soon")) /\
  start_bucket Sample.now (Sample.now - timedelta_days 30) = "new" /\
  start_bucket Sample.now Sample.now = "new" /\
  start_bucket Sample.now (Sample.now + timedelta_days 30) = "future".
Proof.
  split; [reflexivity |].
  assert (Hin : In "soon" ["current"; "new"; "soon"; "future"])
    by (simpl; auto).
  split; [exact Hin |].
  exact (start_bucket_round_trip Sample.frozen Sample.now (fun _ => eq_refl)
           "soon" Hin).
Defined.

Lemma no_search_engine_error_witness :
  Sample.no_search_engine (index_name (Sample.settings_with [])) = None /\
  perform_search (Sample.settings_with []) Sample.generate_field_filters
    Sample.process_result Sample.no_search_engine "rocq" None 10 0 None
    Sample.world0
  = (Raise (NoSearchEngineError
              "No search engine specified in settings.SEARCH_ENGINE"),
     Sample.world0) /\
  exists w' : world,
    course_discovery_search (Sample.settings_with []) Sample.frozen Sample.parse
      Sample.generate_field_filters Sample.no_search_engine None 20 0 None
      Sample.no_kwargs Sample.world0
    = (Raise (NoSearchEngineError
                "No search engine specified in settings.SEARCH_ENGINE"), w') /\
    calls w' = calls Sample.world0.
Proof.
  split; [reflexivity |].
  destruct (no_search_engine_error (Sample.settings_with []) Sample.frozen
              Sample.parse Sample.generate_field_filters Sample.process_result
              Sample.no_search_engine eq_refl) as (Hcontent & Hdiscovery).
  split.
  - exact (Hcontent "rocq" None 10 0 None Sample.world0).
  - exact (Hdiscovery None 20 0 None Sample.no_kwargs Sample.world0).
Defined.

Lemma process_range_data_unconfigured_witness :
  ("start" ∉ course_discovery_filter_fields (Sample.settings_with ["org"])) /\
  ("status" ∉ course_discovery_filter_fields (Sample.settings_with ["org"])) /\
  process_range_data (Sample.settings_with ["org"]) Sample.frozen Sample.parse
    Sample.envelope Sample.world0
  = (Ok Sample.envelope, Sample.world0).
Proof.
  assert (Hstart : "start" ∉
                   course_discovery_filter_fields (Sample.settings_with ["org"]))
    by (rewrite list_elem_of_In; simpl; intros [H | []]; discriminate).
  assert (Hstatus : "status" ∉
                    course_discovery_filter_fields (Sample.settings_with ["org"]))
    by (rewrite list_elem_of_In; simpl; intros [H | []]; discriminate).
  split; [exact Hstart |]. split; [exact Hstatus |].
  exact (process_range_data_unconfigured (Sample.settings_with ["org"])
           Sample.frozen Sample.parse Sample.envelope Sample.world0
           Hstart Hstatus).
Defined.

Lemma status_pass_unguarded_witness :
  spec_lacks_facet Sample.no_facets "status" "facets" /\
  process_range_data (Sample.settings_with ["status"]) Sample.frozen Sample.parse
    (PDict Sample.no_facets) Sample.world0
  = (Raise (KeyError "facets"), Sample.world0) /\
  process_range_data (Sample.settings_with ["start"]) Sample.frozen Sample.parse
    (PDict Sample.no_facets) Sample.world0
  = (Ok (PDict Sample.no_facets), Sample.world0).
Proof.
  assert (Hlacks : forall facet, spec_lacks_facet Sample.no_facets facet "facets")
    by (intros facet; left; split; reflexivity).
  split; [apply Hlacks |]. split.
  - refine (proj2 (proj1 (status_pass_unguarded (Sample.settings_with ["status"])
                            Sample.frozen Sample.parse Sample.no_facets "facets")
                     _ _ (Hlacks "status"))
              Sample.world0 [] [] Sample.world0 eq_refl eq_refl).
    + rewrite list_elem_of_In; simpl; intros [H | []]; discriminate.
    + apply list_elem_of_In; simpl; auto.
  - refine (proj2 (status_pass_unguarded (Sample.settings_with ["start"])
                     Sample.frozen Sample.parse Sample.no_facets "facets")
              _ (Hlacks "start") Sample.world0).
    apply list_elem_of_In; simpl; auto.
Defined.

(** An envelope without facets whose loop over the result items fails first:
    the error is the parser's, not a lookup error. *)
Lemma status_pass_parser_error_first :
  spec_lacks_facet Sample.no_facets_bad_start "status" "facets" /\
  process_range_data (Sample.settings_with ["status"]) Sample.frozen Sample.parse
    (PDict Sample.no_facets_bad_start) Sample.world0
  = (Raise ValueError, mkWorld 1 []) /\
  ~ spec_lookup_error (Sample.settings_with ["status"]) Sample.frozen
      Sample.parse (PDict Sample.no_facets_bad_start) Sample.world0.
Proof.
  split; [left; split; reflexivity |].
  assert (Hrun : process_range_data (Sample.settings_with ["status"])
                   Sample.frozen Sample.parse (PDict Sample.no_facets_bad_start)
                   Sample.world0
                 = (Raise ValueError, mkWorld 1 []))
    by (vm_compute; reflexivity).
  split; [exact Hrun |].
  intros (key & w' & Hkey). rewrite Hrun in Hkey. discriminate.
Qed.

(** ** The further properties on the sample collaborators *)

Lemma sample_start_configured :
  "start" ∈ course_discovery_filter_fields (Sample.settings_with ["start"]).
Proof. apply list_elem_of_In; simpl; auto. Qed.

Lemma sample_status_configured :
  "status" ∈ course_discovery_filter_fields (Sample.settings_with ["status"]).
Proof. apply list_elem_of_In; simpl; auto. Qed.

Lemma sample_start_unconfigured :
  "start" ∉ course_discovery_filter_fields (Sample.settings_with ["status"]).
Proof. rewrite list_elem_of_In; simpl; intros [H | []]; discriminate. Qed.

Lemma sample_items_countable :
  Forall (countable_term Sample.parse) Sample.start_items.
Proof.
  unfold Sample.start_items.
  repeat (constructor;
          [ intros H; try discriminate H;
            (split; [do 2 eexists; split; reflexivity | eexists; reflexivity])
          |]).
  constructor.
Qed.

Lemma sample_courses_classifiable :
  Forall (classifiable_item Sample.parse) Sample.courses.
Proof.
  unfold Sample.courses.
  repeat (constructor;
          [ do 2 eexists; split; [reflexivity |]; split; intros s Hs _;
            inversion Hs; subst; eexists; reflexivity
          |]).
  constructor.
Qed.

Lemma sample_start_run :
  exists results' w',
    process_range_data (Sample.settings_with ["start"]) Sample.frozen
      Sample.parse Sample.envelope Sample.world0 = (Ok results', w').
Proof. eexists _, _. vm_compute. reflexivity. Qed.

Lemma sample_status_run :
  exists results' w',
    process_range_data (Sample.settings_with ["status"]) Sample.frozen
      Sample.parse Sample.envelope Sample.world0 = (Ok results', w').
Proof. eexists _, _. vm_compute. reflexivity. Qed.

Lemma start_pass_conserves_counts_witness :
  exists results' w',
    process_range_data (Sample.settings_with ["start"]) Sample.frozen
      Sample.parse Sample.envelope Sample.world0 = (Ok results', w') /\
    Py.getpath results' ["facets"; "start"; "total"] = Ok (PInt 12) /\
    calls w' = calls Sample.world0.
Proof.
  exact (start_pass_conserves_counts (Sample.settings_with ["start"])
           Sample.frozen Sample.parse Sample.envelope Sample.start_items
           Sample.world0 sample_start_configured eq_refl ltac:(discriminate)
           sample_items_countable).
Defined.

Lemma start_pass_labels_witness :
  exists results' w' terms,
    process_range_data (Sample.settings_with ["start"]) Sample.frozen
      Sample.parse Sample.envelope Sample.world0 = (Ok results', w') /\
    Py.getpath results' ["facets"; "start"; "terms"] = Ok (to_pydict terms) /\
    Forall (fun label => label ∈ start_labels) (map fst terms) /\
    NoDup (map fst terms).
Proof.
  destruct sample_start_run as (results' & w' & Hrun).
  exists results', w'.
  destruct (start_pass_labels (Sample.settings_with ["start"]) Sample.frozen
              Sample.parse Sample.envelope results' (PDict Sample.start_items)
              Sample.world0 w' sample_start_configured eq_refl eq_refl Hrun)
    as (terms & H).
  exists terms. split; [exact Hrun | exact H].
Defined.

Lemma second_start_pass_raises_witness :
  exists results' w',
    process_range_data (Sample.settings_with ["start"]) Sample.frozen
      Sample.parse Sample.envelope Sample.world0 = (Ok results', w') /\
    forall w2,
      process_range_data (Sample.settings_with ["start"]) Sample.frozen
        Sample.parse results' w2 = (Raise ValueError, w2).
Proof.
  destruct sample_start_run as (results' & w' & Hrun).
  exists results', w'. split; [exact Hrun |].
  refine (second_start_pass_raises (Sample.settings_with ["start"])
            Sample.frozen Sample.parse Sample.envelope results'
            Sample.start_items Sample.world0 w' sample_start_configured _
            eq_refl _ Hrun).
  - intros label Hlabel. apply list_elem_of_In in Hlabel. simpl in Hlabel.
    destruct Hlabel as [<- | [<- | [<- | [<- | []]]]]; reflexivity.
  - constructor. reflexivity.
Defined.

Lemma process_range_data_frame_witness :
  exists results' w',
    process_range_data (Sample.settings_with ["start"]) Sample.frozen
      Sample.parse Sample.envelope Sample.world0 = (Ok results', w') /\
    Py.getpath results' ["results"] = Ok (PList Sample.courses) /\
    Py.getpath results' ["facets"; "status"] = Ok (PDict []).
Proof.
  destruct sample_start_run as (results' & w' & Hrun).
  exists results', w'. split; [exact Hrun |].
  destruct (process_range_data_frame (Sample.settings_with ["start"])
              Sample.frozen Sample.parse Sample.envelope results'
              Sample.world0 w' Hrun) as (Htop & Hfacet & _).
  split.
  - rewrite (Htop "results" [] ltac:(discriminate)). reflexivity.
  - rewrite (Hfacet "status" [] ltac:(discriminate)). reflexivity.
Defined.

Lemma status_pass_returns_witness :
  exists results' w' total,
    process_range_data (Sample.settings_with ["status"]) Sample.frozen
      Sample.parse Sample.envelope Sample.world0 = (Ok results', w') /\
    Py.getpath results' ["facets"; "status"; "total"] = Ok (PInt total) /\
    0 <= total <= 3.
Proof.
  exact (status_pass_returns (Sample.settings_with ["status"]) Sample.frozen
           Sample.parse Sample.envelope Sample.courses [] Sample.world0
           sample_start_unconfigured sample_status_configured eq_refl
           sample_courses_classifiable eq_refl).
Defined.

Lemma status_pass_counts_witness :
  exists results' w' terms total,
    process_range_data (Sample.settings_with ["status"]) Sample.frozen
      Sample.parse Sample.envelope Sample.world0 = (Ok results', w') /\
    Py.getpath results' ["facets"; "status"; "terms"] = Ok (to_pydict terms) /\
    Forall (fun label => label ∈ status_labels) (map fst terms) /\
    NoDup (map fst terms) /\
    Py.getpath results' ["facets"; "status"; "total"] = Ok (PInt total) /\
    0 <= total <= 3 /\
    tick w' = 3%nat /\
    calls w' = calls Sample.world0.
Proof.
  destruct sample_status_run as (results' & w' & Hrun).
  exists results', w'.
  destruct (status_pass_counts (Sample.settings_with ["status"]) Sample.frozen
              Sample.parse Sample.envelope results' Sample.courses
              Sample.world0 w' sample_start_unconfigured
              sample_status_configured eq_refl Hrun) as (terms & total & H).
  exists terms, total. split; [exact Hrun | exact H].
Defined.

Lemma content_search_call_witness :
  Sample.get_search_engine (index_name (Sample.settings_with []))
  = Some Sample.engine /\
  exists args : SearchStringArgs,
    snd (perform_search (Sample.settings_with [])
           Sample.generate_field_filters Sample.process_result
           Sample.get_search_engine "rocq" None 10 0 None Sample.world0)
    = mkWorld 0 [CallSearchString args] /\
    ss_doc_type args = "courseware_content" /\
    ss_filter_dictionary args !! "org"
    = Some (mkFormattedFilter (PStr "edX") true) /\
    ss_filter_dictionary args !! "start" = None.
Proof.
  split; [reflexivity |].
  destruct (content_search_call (Sample.settings_with [])
              Sample.generate_field_filters Sample.process_result
              Sample.get_search_engine Sample.engine "rocq" None 10 0 None
              Sample.world0 eq_refl)
    as (args & Hlog & _ & _ & _ & Hdoc & _ & _ & _ & Hfilters).
  exists args. split; [exact Hlog |]. split; [exact Hdoc |].
  split; rewrite Hfilters; reflexivity.
Defined.

Lemma content_search_errors_witness :
  Sample.get_failing_engine (index_name (Sample.settings_with []))
  = Some Sample.failing_engine /\
  fst (perform_search (Sample.settings_with []) Sample.generate_field_filters
         Sample.process_result Sample.get_failing_engine "rocq" None 10 0 None
         Sample.world0)
  = Raise (CollaboratorError "engine down").
Proof.
  split; [reflexivity |].
  destruct (content_search_errors (Sample.settings_with [])
              Sample.generate_field_filters Sample.process_result
              Sample.get_failing_engine Sample.failing_engine "rocq" None 10 0
              None Sample.world0 eq_refl) as (Hraise & _).
  exact (Hraise (CollaboratorError "engine down") eq_refl).
Defined.

Lemma content_search_result_witness :
  exists (results' : pyval) (w' : world) (kept : list pyval) (denied : nat),
    perform_search (Sample.settings_with []) Sample.generate_field_filters
      Sample.process_result Sample.get_search_engine "rocq" None 10 0 None
      Sample.world0 = (Ok results', w') /\
    Py.getitem results' "access_denied_count" = Ok (PInt (Z.of_nat denied)) /\
    Py.getitem results' "results" = Ok (PList kept) /\
    Forall (fun item =>
              exists data,
                Py.getitem item "data" = Ok data /\ Py.is_none data = false)
      kept /\
    Py.getitem results' "total" = Ok (PInt 3).
Proof.
  assert (Hrun : exists results' w',
             perform_search (Sample.settings_with [])
               Sample.generate_field_filters Sample.process_result
               Sample.get_search_engine "rocq" None 10 0 None Sample.world0
             = (Ok results', w'))
    by (eexists _, _; vm_compute; reflexivity).
  destruct Hrun as (results' & w' & Hrun).
  destruct (content_search_result (Sample.settings_with [])
              Sample.generate_field_filters Sample.process_result
              Sample.get_search_engine Sample.engine "rocq" None 10 0 None
              results' Sample.world0 w' eq_refl Hrun)
    as (answer & raw & items & kept & denied
        & Hanswer & _ & _ & Hcount & Hkept & Hall & _ & Hframe).
  exists results', w', kept, denied.
  split; [exact Hrun |]. split; [exact Hcount |]. split; [exact Hkept |].
  split; [exact Hall |].
  rewrite (Hframe "total" ltac:(discriminate) ltac:(discriminate)).
  inversion Hanswer. reflexivity.
Defined.

Lemma discovery_composition_witness :
  Sample.get_failing_engine (index_name (Sample.settings_with ["status"]))
  = Some Sample.failing_engine /\
  exists w5,
    course_discovery_search (Sample.settings_with ["status"]) Sample.frozen
      Sample.parse Sample.generate_field_filters Sample.get_failing_engine
      None 20 0 None Sample.no_kwargs Sample.world0
    = (Raise (CollaboratorError "engine down"), w5).
Proof.
  split; [reflexivity |].
  destruct (discovery_composition (Sample.settings_with ["status"])
              Sample.frozen Sample.parse Sample.generate_field_filters
              Sample.get_failing_engine Sample.failing_engine None 20 0 None
              Sample.no_kwargs Sample.world0 eq_refl)
    as (args & w5 & _ & Hrun & _).
  exists w5. exact Hrun.
Defined.

Lemma discovery_fields_witness :
  Sample.get_search_engine (index_name (Sample.settings_with ["status"]))
  = Some Sample.engine /\
  exists args : SearchArgs,
    calls (snd (course_discovery_search (Sample.settings_with ["status"])
                  Sample.frozen Sample.parse Sample.generate_field_filters
                  Sample.get_search_engine None 20 0
                  (Some {[ "language" := PStr "fr" ]})
                  Sample.no_kwargs Sample.world0))
    = [CallSearch args] /\
    s_field_dictionary args !! "language" = Some (PStr "fr") /\
    s_field_dictionary args !! "org" = Some (PStr "edX") /\
    s_field_dictionary args !! "modes" = None.
Proof.
  split; [reflexivity |].
  destruct (discovery_fields (Sample.settings_with ["status"]) Sample.frozen
              Sample.parse Sample.generate_field_filters
              Sample.get_search_engine Sample.engine None 20 0
              (Some {[ "language" := PStr "fr" ]}) Sample.no_kwargs
              Sample.world0 eq_refl) as (args & Hlog & Hfields).
  assert (Hkey : forall key,
             In key ["language"; "org"; "modes"] ->
             key ∉ ["start"; "status"; "enrollment_start"; "catalog_visibility"]).
  { intros key Hin Hkey. apply list_elem_of_In in Hkey. simpl in Hin, Hkey.
    destruct Hin as [<- | [<- | [<- | []]]];
      destruct Hkey as [H | [H | [H | [H | []]]]]; discriminate. }
  exists args. split; [exact Hlog |]. split; [| split].
  - destruct (Hfields "language" (Hkey "language" ltac:(simpl; auto))) as (Hsupplied & _).
    exact (Hsupplied (PStr "fr") eq_refl).
  - destruct (Hfields "org" (Hkey "org" ltac:(simpl; auto))) as (_ & Hpass & _).
    rewrite Hpass; [reflexivity | reflexivity | left; reflexivity].
  - destruct (Hfields "modes" (Hkey "modes" ltac:(simpl; auto))) as (_ & _ & Hdrop).
    apply (Hdrop eq_refl). intros [H | (H & _)]; discriminate.
Defined.

Lemma discovery_policy_fields_witness :
  Sample.get_search_engine (index_name (Sample.settings_with ["status"]))
  = Some Sample.engine /\
  exists args : SearchArgs,
    calls (snd (course_discovery_search (Sample.settings_with ["status"])
                  Sample.ticking Sample.parse Sample.generate_field_filters
                  Sample.get_search_engine None 20 0
                  (Some {[ "start" := PStr "new";
                           "enrollment_start" := PStr "whenever" ]})
                  Sample.no_kwargs Sample.world0))
    = [CallSearch args] /\
    s_field_dictionary args !! "start" = None /\
    s_field_dictionary args !! "status" = None /\
    s_field_dictionary args !! "enrollment_start"
    = Some (PRange (mkDateRange None (Some Sample.now))) /\
    s_field_dictionary args !! "catalog_visibility" = None.
Proof.
  split; [reflexivity |].
  exact (discovery_policy_fields (Sample.settings_with ["status"])
           Sample.ticking Sample.parse Sample.generate_field_filters
           Sample.get_search_engine Sample.engine None 20 0
           (Some {[ "start" := PStr "new";
                    "enrollment_start" := PStr "whenever" ]})
           Sample.no_kwargs Sample.world0 eq_refl).
Defined.

Lemma discovery_filters_witness :
  Sample.get_search_engine (index_name (Sample.settings_with ["status"]))
  = Some Sample.engine /\
  exists args : SearchArgs,
    calls (snd (course_discovery_search (Sample.settings_with ["status"])
                  Sample.ticking Sample.parse Sample.generate_field_filters
                  Sample.get_search_engine None 20 0
                  (Some {[ "start" := PStr "new" ]})
                  (mkKwargs None None None (Some true)) Sample.world0))
    = [CallSearch args] /\
    (forall key f,
        s_filter_dictionary args !! key = Some f -> discovery_filter key f) /\
    exists n,
      s_filter_dictionary args !! "enrollment_end"
      = Some (mkFormattedFilter
                (PRange (mkDateRange (Some (Sample.ticking n)) None)) true).
Proof.
  split; [reflexivity |].
  destruct (discovery_filters (Sample.settings_with ["status"])
              Sample.ticking Sample.parse Sample.generate_field_filters
              Sample.get_search_engine Sample.engine None 20 0
              (Some {[ "start" := PStr "new" ]})
              (mkKwargs None None None (Some true)) Sample.world0 eq_refl)
    as (args & Hlog & Hall & _ & Hend).
  exists args. split; [exact Hlog |]. split; [exact Hall |].
  exact (Hend eq_refl).
Defined.

Lemma status_decides_start_filter_witness :
  (forall n, Sample.frozen n = Sample.now) /\
  Sample.get_search_engine (index_name (Sample.settings_with ["status"]))
  = Some Sample.engine /\
  exists args : SearchArgs,
    calls (snd (course_discovery_search (Sample.settings_with ["status"])
                  Sample.frozen Sample.parse Sample.generate_field_filters
                  Sample.get_search_engine None 20 0
                  (Some {[ "start" := PStr "new"; "status" := PStr "current" ]})
                  Sample.no_kwargs Sample.world0))
    = [CallSearch args] /\
    s_filter_dictionary args !! "start"
    = Some (mkFormattedFilter
              (PRange (mkDateRange None (Some Sample.now))) true) /\
    s_filter_dictionary args !! "end"
    = Some (mkFormattedFilter
              (PRange (mkDateRange (Some Sample.now) None)) true).
Proof.
  split; [reflexivity |]. split; [reflexivity |].
  destruct (status_decides_start_filter (Sample.settings_with ["status"])
              Sample.frozen Sample.parse Sample.generate_field_filters
              Sample.get_search_engine Sample.now (fun _ => eq_refl)
              Sample.engine None 20 0
              (Some {[ "start" := PStr "new"; "status" := PStr "current" ]})
              Sample.no_kwargs Sample.world0 eq_refl)
    as (args & Hlog & Hcurrent & _).
  exists args. split; [exact Hlog |]. exact (Hcurrent eq_refl).
Defined.

Lemma start_bucket_selected_witness :
  (forall n, Sample.frozen n = Sample.now) /\
  exists range : DateRange,
    fst (start_filter Sample.frozen
           (PStr (start_bucket Sample.now (Sample.now + timedelta_days 30))) ∅
           Sample.world0)
    = Ok {[ "start" := mkFormattedFilter (PRange range) true ]} /\
    within (Sample.now + timedelta_days 30) range.
Proof.
  split; [reflexivity |].
  exact (start_bucket_selected Sample.frozen Sample.now (fun _ => eq_refl)
           (Sample.now + timedelta_days 30) Sample.world0).
Defined.

Lemma sample_ticking_monotone :
  forall n m, (n <= m)%nat -> Sample.ticking n <= Sample.ticking m.
Proof. intros n m H. unfold Sample.ticking. lia. Qed.

Lemma start_filter_range_ordered_witness :
  exists range : DateRange,
    fst (start_filter Sample.ticking (PStr "new") ∅ Sample.world0)
    = Ok {[ "start" := mkFormattedFilter (PRange range) true ]} /\
    forall lo hi,
      lower range = Some lo -> upper range = Some hi ->
      lo + timedelta_days 30 <= hi.
Proof.
  assert (Hrun : start_filter Sample.ticking (PStr "new") ∅ Sample.world0
                 = (Ok {[ "start" :=
                            mkFormattedFilter
                              (PRange
                                 (mkDateRange
                                    (Some (Sample.now - timedelta_days 30))
                                    (Some (Sample.now + 1000))))
                              true ]},
                    mkWorld 2 [])).
  { unfold start_filter, bind, utcnow, ret, _format_filter. simpl.
    now rewrite insert_empty. }
  destruct (start_filter_range_ordered Sample.ticking sample_ticking_monotone
              (PStr "new") _ _ Sample.world0 _ Hrun
              (lookup_singleton_eq _ _)) as (range & Hf & Hordered).
  exists range. rewrite Hrun. simpl. inversion Hf; subst. split; [reflexivity |].
  exact Hordered.
Defined.

Lemma facet_terms_default_witness :
  COURSE_DISCOVERY_FACETS (Sample.settings_with ["start"; "org"]) = None /\
  course_discovery_facets (Sample.settings_with ["start"; "org"]) !! "start"
  = Some (PDict [(PStr "size", PInt 100)]) /\
  course_discovery_facets (Sample.settings_with ["start"; "org"]) !! "status"
  = None.
Proof.
  split; [reflexivity |]. split.
  - exact (facet_terms_default (Sample.settings_with ["start"; "org"]) "start"
             eq_refl).
  - exact (facet_terms_default (Sample.settings_with ["start"; "org"]) "status"
             eq_refl).
Defined.

Lemma default_fields_pass_through_witness :
  COURSE_DISCOVERY_FILTERS Sample.default_settings = None /\
  process_range_data Sample.default_settings Sample.frozen Sample.parse
    Sample.envelope Sample.world0
  = (Ok Sample.envelope, Sample.world0).
Proof.
  split; [reflexivity |].
  exact (proj2 (default_fields_pass_through Sample.default_settings
                  Sample.frozen Sample.parse Sample.envelope Sample.world0
                  eq_refl)).
Defined.
